(** * whatsapp-microservice: per-unit message queue, dispatch and validation

    A shallow embedding of the queue service ([services/queue.js]), the send
    capability ([services/whatsapp.js]), the helpers ([utils/helpers.js]),
    the configuration ([config/index.js]) and the message controller
    ([controllers/messageController.js]), followed by the properties of the
    specification that concern them; then of the token check
    ([middlewares/auth.js]), the queue routes ([routes/messageRoutes.js]),
    the session service ([services/session.js]) and the session controller
    ([controllers/sessionController.js]), with further properties of the
    code.

    Conventions of the embedding.
    - JavaScript strings are [string]; [trim] removes the ASCII white space
      characters (tab, line feed, vertical tab, form feed, carriage return,
      space), [toLowerCase] maps the ASCII upper-case letters.
    - [undefined] is [None]; a function that can throw returns an [outcome].
    - The process-wide [queues] Map is a [gmap] from unit id to the queue
      object; every [new Bull(...)] gets a fresh object reference.
    - [uuidv4()] is a supply of names that never repeats: the n-th call
      returns [n], and the job id [msg-<uuid>] is [MsgId n].
    - A Number is an IEEE 754 binary64 value with its rounding
      ([Number.number]).
    - The [sessions] and [qrCodes] Maps are [gmap]s from unit id.
    - A call that waits at an [await] takes what happens meanwhile as an
      argument: [clearQueue] the steps of the workers and of other calls
      that fall between its reads and its removals, a call of the session
      service the events of the clients that arrive. The stretches of
      [createSession] between its [await]s are given one by one as well, to
      say what two overlapping calls do. *)

From Stdlib Require Import Ascii String ZArith SpecFloat.
From stdpp Require Import base strings gmap list sorting.

Local Open Scope string_scope.
Local Open Scope list_scope.

(** ** Outcomes of calls that may throw *)

Inductive error :=
  | TypeError (msg : string)
  | Error (msg : string).

Inductive outcome (A : Type) :=
  | Return (a : A)
  | Throw (e : error).
Arguments Return {A} a.
Arguments Throw {A} e.

#[global] Instance outcome_ret : MRet outcome := @Return.
#[global] Instance outcome_bind : MBind outcome := fun A B f m =>
  match m with
  | Return a => f a
  | Throw e => Throw e
  end.

#[global] Instance error_eq_dec : EqDecision error.
Proof. solve_decision. Defined.

(** ** utils/helpers.js *)

Module Helpers.

Definition isWhiteSpace (c : ascii) : bool :=
  let n := nat_of_ascii c in
  (Nat.leb 9 n && Nat.leb n 13) || Nat.eqb n 32.

Definition isDigit (c : ascii) : bool :=
  let n := nat_of_ascii c in
  Nat.leb 48 n && Nat.leb n 57.

Fixpoint trimStart (s : string) : string :=
  match s with
  | EmptyString => EmptyString
  | String c r => if isWhiteSpace c then trimStart r else s
  end.

Fixpoint trimEnd (s : string) : string :=
  match s with
  | EmptyString => EmptyString
  | String c r =>
      match trimEnd r with
      | EmptyString => if isWhiteSpace c then EmptyString else String c EmptyString
      | r' => String c r'
      end
  end.

(** [String.prototype.trim] *)
Definition trim (s : string) : string := trimEnd (trimStart s).

(** [s.replace(/\D/g, '')] *)
Fixpoint stripNonDigits (s : string) : string :=
  match s with
  | EmptyString => EmptyString
  | String c r => if isDigit c then String c (stripNonDigits r) else stripNonDigits r
  end.

(** A JavaScript string is truthy when it is not empty. *)
Definition truthy (s : string) : bool :=
  match s with
  | EmptyString => false
  | _ => true
  end.

(** [a || b] on strings. *)
Definition orElse (a b : string) : string := if truthy a then a else b.

(** [validatePhoneNumber]: the cleaned number, or [None] for [false]. *)
Definition validatePhoneNumber (phoneNumber : string) : option string :=
  let cleanNumber := stripNonDigits phoneNumber in
  if Nat.ltb (String.length cleanNumber) 10 then None else Some cleanNumber.

(** A media or document reference: a string (URL or path), or the object
    [{path, mimetype, filename}] that the controller builds for an upload. *)
Inductive attachment :=
  | AttString (s : string)
  | AttFile (path mimetype filename : string).

Definition attTruthy (a : option attachment) : bool :=
  match a with
  | None => false
  | Some (AttString s) => truthy s
  | Some (AttFile _ _ _) => true
  end.

(** The raw message object handed to [processMessageContent], with a
    text that is a string or missing; [AnyText] below takes a text of any
    type. *)
Record Message := {
  text : option string;
  media : option attachment;
  document : option attachment;
  documentFilename : option string
}.

Record Content := {
  c_text : option string;
  c_media : option attachment;
  c_document : option attachment;
  c_documentFilename : option string;
  c_caption : option string
}.

Record ProcessedMessage := {
  hasText : bool;
  hasMedia : bool;
  hasDocument : bool;
  content : Content
}.

Definition emptyContent : Content :=
  {| c_text := None; c_media := None; c_document := None;
     c_documentFilename := None; c_caption := None |}.

(** [message.text.trim()]: reading [trim] off [undefined] throws. *)
Definition textTrim (t : option string) : outcome string :=
  match t with
  | Some s => Return (trim s)
  | None => Throw (TypeError "Cannot read properties of undefined (reading 'trim')")
  end.

(** [Boolean(message.text && message.text.trim())] *)
Definition textPresent (t : option string) : bool :=
  match t with
  | Some s => truthy s && truthy (trim s)
  | None => false
  end.

Definition processMessageContent (message : Message) : outcome ProcessedMessage :=
  let result :=
    {| hasText := textPresent (text message);
       hasMedia := attTruthy (media message);
       hasDocument := attTruthy (document message);
       content := emptyContent |} in
  result ←
    (if hasText result && (negb (hasMedia result) && negb (hasDocument result))
     then t ← textTrim (text message);
          Return {| hasText := hasText result; hasMedia := hasMedia result;
                    hasDocument := hasDocument result;
                    content := {| c_text := Some t;
                                  c_media := c_media (content result);
                                  c_document := c_document (content result);
                                  c_documentFilename := c_documentFilename (content result);
                                  c_caption := c_caption (content result) |} |}
     else Return result);
  result ←
    (if hasMedia result
     then t ← textTrim (text message);
          Return {| hasText := false; hasMedia := hasMedia result;
                    hasDocument := hasDocument result;
                    content := {| c_text := c_text (content result);
                                  c_media := media message;
                                  c_document := c_document (content result);
                                  c_documentFilename := c_documentFilename (content result);
                                  c_caption := Some (orElse t "") |} |}
     else Return result);
  result ←
    (if hasDocument result
     then let fname := orElse (default "" (documentFilename message)) "document" in
          t ← textTrim (text message);
          Return {| hasText := false; hasMedia := hasMedia result;
                    hasDocument := hasDocument result;
                    content := {| c_text := c_text (content result);
                                  c_media := c_media (content result);
                                  c_document := document message;
                                  c_documentFilename := Some fname;
                                  c_caption := Some (orElse t "") |} |}
     else Return result);
  Return result.

End Helpers.

(** ** JavaScript numbers *)

Module Number.

(** A Number is an IEEE 754 binary64 value, and its arithmetic rounds to
    the nearest value, ties to even: the floating-point numbers of the
    Standard Library with 53 bits of precision. A finite value is
    [(-1)^s * m * 2^e]. *)
Definition number : Type := spec_float.

Definition prec : Z := 53.
Definition emax : Z := 1024.

(** The Number nearest to an integer, which is the integer itself up to
    [2^53]. *)
Definition ofZ (z : Z) : number := binary_normalize prec emax z 0 false.

Definition add : number -> number -> number := SFadd prec emax.
Definition sub : number -> number -> number := SFsub prec emax.
Definition mul : number -> number -> number := SFmul prec emax.
Definition ltb : number -> number -> bool := SFltb.
Definition leb : number -> number -> bool := SFleb.

(** [Math.floor]: the zeros, the infinities and NaN are returned as they
    are, and so is a value without fractional bits. *)
Definition floor (x : number) : number :=
  match x with
  | S754_finite s m e =>
      if (0 <=? e)%Z then x
      else ofZ (Z.shiftr (if s then Zneg m else Zpos m) (- e))
  | _ => x
  end.

End Number.

(** ** config/index.js *)

Module Config.

(** The environment the process starts in. The numeric settings are the
    values [parseInt] produced; [DEBUG_MODE] is the raw variable. *)
Record Env := {
  DEBUG_MODE : option string;
  QUEUE_RETRY_COUNT : Z;
  QUEUE_RETRY_DELAY : Z;
  MIN_MESSAGE_DELAY : Z;
  MAX_MESSAGE_DELAY : Z
}.

Record Config := {
  debugMode : bool;        (* config.app.debugMode *)
  retryCount : Z;          (* config.queue.retryCount *)
  retryDelay : Z;          (* config.queue.retryDelay *)
  minMessageDelay : Z;     (* config.whatsapp.minMessageDelay *)
  maxMessageDelay : Z      (* config.whatsapp.maxMessageDelay *)
}.

(** [debugMode: process.env.DEBUG_MODE === 'true'] *)
Definition load (env : Env) : Config :=
  {| debugMode := bool_decide (DEBUG_MODE env = Some "true");
     retryCount := QUEUE_RETRY_COUNT env;
     retryDelay := QUEUE_RETRY_DELAY env;
     minMessageDelay := MIN_MESSAGE_DELAY env;
     maxMessageDelay := MAX_MESSAGE_DELAY env |}.

(** [getRandomDelay] of utils/helpers.js, for the value [r] that
    [Math.random()] returned:
    [Math.floor(Math.random() * (max - min + 1) + min)]. *)
Definition getRandomDelay (config : Config) (r : Number.number) : Number.number :=
  let min := Number.ofZ (minMessageDelay config) in
  let max := Number.ofZ (maxMessageDelay config) in
  Number.floor
    (Number.add (Number.mul r (Number.add (Number.sub max min) (Number.ofZ 1))) min).

End Config.

(** ** services/whatsapp.js *)

Module Whatsapp.
Import Helpers.

(** A [MessageMedia] object. *)
Record MessageMedia := {
  mm_mimetype : string;
  mm_data : string;
  mm_filename : string
}.

(** What is handed to [client.sendMessage]: a text body, or a media object
    with the options [{caption, sendMediaAsDocument}]. *)
Inductive Payload :=
  | PText (body : option string)
  | PMedia (m : MessageMedia) (caption : string) (sendMediaAsDocument : bool).

(** The whatsapp-web.js client of one unit. [clientSendMessage] answers with
    [result?.id?.id] of the message object it resolved to. *)
Record Client := {
  isRegisteredUser : string -> outcome bool;
  clientSendMessage : string -> Payload -> outcome (option string)
}.

(** The collaborators of one delivery attempt: the session service, the
    media loader and the file system. [loadFile] stands for the
    [MessageMedia] built from [getMimeType], [fs.readFile] and
    [path.basename] of an accessible file. *)
Record World := {
  isSessionReady : string -> bool;
  getClientByUnitId : string -> option Client;
  fromUrl : string -> outcome MessageMedia;
  pathResolve : string -> string;
  fsAccess : string -> bool;
  loadFile : string -> outcome MessageMedia;
  mathRandom : Number.number
}.

(** The calls a delivery attempt makes on the outside, in order. *)
Inductive Effect :=
  | CallSend (chatId : string) (p : Payload)   (* client.sendMessage *)
  | CallUnlink (path : string)                 (* fs.unlink *)
  | CallSleep (ms : Number.number).            (* setTimeout(resolve, ms) *)

(** A computation that records its outside calls and may throw. *)
Definition io (A : Type) : Type := (list Effect * outcome A)%type.

Definition io_ret {A} (a : A) : io A := ([], Return a).
Definition io_throw {A} (e : error) : io A := ([], Throw e).
Definition io_lift {A} (o : outcome A) : io A := ([], o).
Definition io_emit (e : Effect) : io unit := ([e], Return tt).
Definition io_bind {A B} (m : io A) (f : A -> io B) : io B :=
  match m with
  | (t1, Return a) => let '(t2, r) := f a in (t1 ++ t2, r)
  | (t1, Throw e) => (t1, Throw e)
  end.

Notation "x <- m ;; k" := (io_bind m (fun x => k))
  (at level 100, m at next level, right associativity).

(** The result object of [sendMessage]. *)
Inductive SendResult :=
  | NotRegistered (message : string)  (* {success: false, error: 'not_registered', message} *)
  | Sent (recipient : string) (messageId : option string). (* {success: true, recipient, messageId} *)

Definition success (r : SendResult) : bool :=
  match r with
  | NotRegistered _ => false
  | Sent _ _ => true
  end.

Definition startsWith (p s : string) : bool := String.prefix p s.

(** [a.path] of an attachment: [undefined] for a string. *)
Definition attPath (a : attachment) : option string :=
  match a with
  | AttString _ => None
  | AttFile p _ _ => Some p
  end.

(** The file branch shared by media and document: the file must be
    accessible, else [<kind> file not found] is thrown. *)
Definition fromFile (w : World) (kind p : string) : outcome MessageMedia :=
  let filePath := pathResolve w p in
  if fsAccess w filePath then loadFile w filePath
  else Throw (Error (kind +:+ " file not found: " +:+ filePath)).

Definition undefinedPath : error :=
  TypeError "Cannot read properties of undefined (reading 'path')".

Definition loadMedia (w : World) (mediaContent : option attachment) : outcome MessageMedia :=
  match mediaContent with
  | Some (AttString s) =>
      if startsWith "http" s then fromUrl w s else fromFile w "Media" s
  | Some (AttFile p _ _) =>
      if truthy p then fromFile w "Media" p
      else Throw (TypeError "The paths[0] argument must be of type string")
  | None => Throw undefinedPath
  end.

Definition loadDocument (w : World) (docContent : option attachment) : outcome MessageMedia :=
  match docContent with
  | Some (AttString s) =>
      if startsWith "http" s then fromUrl w s else fromFile w "Document" s
  | Some (AttFile p _ _) =>
      if truthy p then fromFile w "Document" p
      else Throw (Error "Invalid document content provided")
  | None => Throw undefinedPath
  end.

(** [if (x.path) await fs.unlink(x.path)], failures of unlink swallowed. *)
Definition cleanup (a : option attachment) : io unit :=
  match a with
  | Some (AttFile p _ _) => if truthy p then io_emit (CallUnlink p) else io_ret tt
  | _ => io_ret tt
  end.

Definition send (client : Client) (chatId : string) (p : Payload) : io (option string) :=
  _ <- io_emit (CallSend chatId p) ;; io_lift (clientSendMessage client chatId p).

(** [result?.id?.id || null] *)
Definition messageIdOf (result : option string) : option string :=
  match result with
  | Some s => if truthy s then Some s else None
  | None => None
  end.

Definition sendMessage (w : World) (unitId recipient : string)
    (messageContent : ProcessedMessage) : io SendResult :=
  if negb (isSessionReady w unitId)
  then io_throw (Error ("WhatsApp session " +:+ unitId +:+ " is not ready"))
  else
  match getClientByUnitId w unitId with
  | None => io_throw (Error ("No WhatsApp client found for unitId: " +:+ unitId))
  | Some client =>
  match validatePhoneNumber recipient with
  | None => io_throw (Error ("Invalid phone number: " +:+ recipient))
  | Some formattedNumber =>
    let chatId := formattedNumber +:+ "@c.us" in
    isRegistered <- io_lift (isRegisteredUser client chatId) ;;
    if negb isRegistered
    then io_ret (NotRegistered ("Phone number " +:+ formattedNumber
                                +:+ " is not registered on WhatsApp"))
    else
      let result := None in
      result <- (if hasText messageContent
                 then send client chatId (PText (c_text (content messageContent)))
                 else io_ret result) ;;
      result <- (if hasMedia messageContent
                 then let mediaContent := c_media (content messageContent) in
                      media <- io_lift (loadMedia w mediaContent) ;;
                      r <- send client chatId
                             (PMedia media (orElse (default "" (c_caption (content messageContent))) "") false) ;;
                      _ <- cleanup mediaContent ;;
                      io_ret r
                 else io_ret result) ;;
      result <- (if hasDocument messageContent
                 then let docContent := c_document (content messageContent) in
                      document <- io_lift (loadDocument w docContent) ;;
                      r <- send client chatId
                             (PMedia document (orElse (default "" (c_caption (content messageContent))) "") true) ;;
                      _ <- cleanup docContent ;;
                      io_ret r
                 else io_ret result) ;;
      io_ret (Sent formattedNumber (messageIdOf result))
  end
  end.

(** The calls of [client.sendMessage], in order: the chat and the payload. *)
Definition sends (trace : list Effect) : list (string * Payload) :=
  omap (fun e => match e with CallSend c p => Some (c, p) | _ => None end) trace.

End Whatsapp.

(** ** services/queue.js *)

Module Queue.
Import Helpers Whatsapp.

(** [`msg-${uuidv4()}`], the uuid being the number of the draw. *)
Inductive JobId := MsgId (uuid : nat).

Definition uuidOf (i : JobId) : nat := match i with MsgId n => n end.

#[global] Instance JobId_eq_dec : EqDecision JobId.
Proof. solve_decision. Defined.

(** [job.data] *)
Record JobData := {
  recipient : string;
  message : ProcessedMessage;
  debugMode : bool
}.

(** What the processor resolves to. *)
Inductive HandlerResult :=
  | DebugResult (recipient : string)   (* {success: true, debug: true, recipient} *)
  | SendResultOf (r : SendResult).

(** A job of a Bull queue: its id, data and options ([attempts], the
    [delay] of the exponential [backoff]), and what Bull records about its
    processing. *)
Record Job := {
  id : JobId;
  data : JobData;
  attempts : Z;
  backoffDelay : Z;
  attemptsMade : nat;
  retryAfter : Z;
  returnvalue : option HandlerResult;
  failedReason : option error
}.

(** A Bull queue object: the reference [new Bull] returned, its name, and
    the job lists Bull keeps for it. [completed] and [failed] hold the
    most recent job first. *)
Record BullQueue := {
  q_ref : nat;
  q_name : string;
  q_closed : bool;
  q_waiting : list Job;
  q_active : list Job;
  q_delayed : list Job;
  q_completed : list Job;
  q_failed : list Job
}.

(** The module state: the [queues] Map, the allocator of object
    references, the uuid supply, and the log of processor runs (the
    [Processing message job ...] lines). *)
Record State := {
  queues : gmap string BullQueue;
  next_ref : nat;
  next_uuid : nat;
  processed : list (string * JobId)
}.

Definition init : State :=
  {| queues := ∅; next_ref := 0; next_uuid := 0; processed := [] |}.

Inductive JobState := Waiting | Active | Completed | Failed | Delayed.

#[global] Instance JobState_eq_dec : EqDecision JobState.
Proof. solve_decision. Defined.

Definition ids (l : list Job) : list JobId := id <$> l.

Definition allJobs (q : BullQueue) : list Job :=
  q_waiting q ++ q_active q ++ q_delayed q ++ q_completed q ++ q_failed q.

Definition hasId (i : JobId) (l : list Job) : bool :=
  existsb (fun j => bool_decide (id j = i)) l.

(** [job.getState()] *)
Definition stateOf (q : BullQueue) (i : JobId) : option JobState :=
  if hasId i (q_completed q) then Some Completed
  else if hasId i (q_failed q) then Some Failed
  else if hasId i (q_delayed q) then Some Delayed
  else if hasId i (q_active q) then Some Active
  else if hasId i (q_waiting q) then Some Waiting
  else None.

Definition without (i : JobId) (l : list Job) : list Job :=
  filter (fun j => id j ≠ i) l.

(** The number of finished jobs kept by [removeOnComplete: 100] and
    [removeOnFail: 100]. *)
Definition keepLast : nat := 100.

Section Bull.

(** Modelled from the spec: the Bull library is a dependency whose code
    is not part of the repository. Its queue is modelled after sections
    3 and 4.2 and after the way queue.js uses it ([throw error] with the
    comment [Let Bull handle retries], the [completed] listener that
    receives the processor's result, the [failed] listener that receives
    the error): [add] appends a waiting job unless the job id is taken,
    the worker claims the oldest waiting job, a processor that returns
    completes the job with the returned value, a processor that throws
    increments the attempts and delays the job with exponential backoff
    while attempts remain and fails it otherwise, and [remove] deletes a
    job that is not held by the worker. *)
Definition bull_add (j : Job) (q : BullQueue) : Job * BullQueue :=
  match List.find (fun j' => bool_decide (id j' = id j)) (allJobs q) with
  | Some existing => (existing, q)
  | None =>
      (j, {| q_ref := q_ref q; q_name := q_name q; q_closed := q_closed q;
             q_waiting := q_waiting q ++ [j]; q_active := q_active q;
             q_delayed := q_delayed q; q_completed := q_completed q;
             q_failed := q_failed q |})
  end.

(** Modelled from the spec: [job.remove()] of Bull, see [bull_add]. *)
Definition bull_remove (i : JobId) (q : BullQueue) : BullQueue :=
  {| q_ref := q_ref q; q_name := q_name q; q_closed := q_closed q;
     q_waiting := without i (q_waiting q); q_active := q_active q;
     q_delayed := without i (q_delayed q);
     q_completed := without i (q_completed q);
     q_failed := without i (q_failed q) |}.

(** Modelled from the spec: the worker of Bull claims the next waiting
    job, one at a time, see [bull_add]. *)
Definition bull_claim (q : BullQueue) : BullQueue :=
  match q_closed q, q_active q, q_waiting q with
  | false, [], j :: rest =>
      {| q_ref := q_ref q; q_name := q_name q; q_closed := q_closed q;
         q_waiting := rest; q_active := [j];
         q_delayed := q_delayed q; q_completed := q_completed q;
         q_failed := q_failed q |}
  | _, _, _ => q
  end.

(** Modelled from the spec: the exponential backoff of Bull,
    [baseDelay * 2^(attempts-1)]. *)
Definition backoff (baseDelay : Z) (attemptsMade : nat) : Z :=
  (baseDelay * 2 ^ (Z.of_nat attemptsMade - 1))%Z.

(** Modelled from the spec: how Bull settles the active job [j] once the
    processor has returned or thrown, see [bull_add]. *)
Definition bull_settle (j : Job) (r : outcome HandlerResult) (q : BullQueue) : BullQueue :=
  let active := without (id j) (q_active q) in
  match r with
  | Return v =>
      let j' := {| id := id j; data := data j; attempts := attempts j;
                   backoffDelay := backoffDelay j;
                   attemptsMade := attemptsMade j; retryAfter := retryAfter j;
                   returnvalue := Some v; failedReason := failedReason j |} in
      {| q_ref := q_ref q; q_name := q_name q; q_closed := q_closed q;
         q_waiting := q_waiting q; q_active := active;
         q_delayed := q_delayed q;
         q_completed := take keepLast (j' :: q_completed q);
         q_failed := q_failed q |}
  | Throw e =>
      let made := S (attemptsMade j) in
      if (Z.of_nat made <? attempts j)%Z
      then
        let j' := {| id := id j; data := data j; attempts := attempts j;
                     backoffDelay := backoffDelay j;
                     attemptsMade := made;
                     retryAfter := backoff (backoffDelay j) made;
                     returnvalue := returnvalue j; failedReason := Some e |} in
        {| q_ref := q_ref q; q_name := q_name q; q_closed := q_closed q;
           q_waiting := q_waiting q; q_active := active;
           q_delayed := q_delayed q ++ [j'];
           q_completed := q_completed q; q_failed := q_failed q |}
      else
        let j' := {| id := id j; data := data j; attempts := attempts j;
                     backoffDelay := backoffDelay j;
                     attemptsMade := made; retryAfter := retryAfter j;
                     returnvalue := returnvalue j; failedReason := Some e |} in
        {| q_ref := q_ref q; q_name := q_name q; q_closed := q_closed q;
           q_waiting := q_waiting q; q_active := active;
           q_delayed := q_delayed q;
           q_completed := q_completed q;
           q_failed := take keepLast (j' :: q_failed q) |}
  end.

(** Modelled from the spec: a delayed job returns to the waiting jobs
    once its backoff interval has elapsed, see [bull_add]. *)
Definition bull_promote (i : JobId) (q : BullQueue) : BullQueue :=
  match List.find (fun j => bool_decide (id j = i)) (q_delayed q) with
  | Some j =>
      {| q_ref := q_ref q; q_name := q_name q; q_closed := q_closed q;
         q_waiting := q_waiting q ++ [j]; q_active := q_active q;
         q_delayed := without i (q_delayed q);
         q_completed := q_completed q; q_failed := q_failed q |}
  | None => q
  end.

(** Modelled from the spec: [queue.close()] stops the worker. *)
Definition bull_close (q : BullQueue) : BullQueue :=
  {| q_ref := q_ref q; q_name := q_name q; q_closed := true;
     q_waiting := q_waiting q; q_active := q_active q;
     q_delayed := q_delayed q; q_completed := q_completed q;
     q_failed := q_failed q |}.

End Bull.

(** [recipients]: a single phone number or an array of them. *)
Inductive Recipients :=
  | One (r : string)
  | Many (l : list string).

(** [Array.isArray(recipients) ? recipients : [recipients]] *)
Definition recipientList (recipients : Recipients) : list string :=
  match recipients with
  | One r => [r]
  | Many l => l
  end.

Record QueueResult := {
  jobCount : nat;
  jobs : list (JobId * string)
}.

Record Stats := {
  s_unitId : string;
  waiting : nat;
  active : nat;
  completed : nat;
  failed : nat;
  delayed : nat;
  total : nat
}.

Record ClearResult := {
  cr_success : bool;
  removedCount : nat
}.

Definition setQueue (unitId : string) (q : BullQueue) (st : State) : State :=
  {| queues := <[unitId := q]> (queues st); next_ref := next_ref st;
     next_uuid := next_uuid st; processed := processed st |}.

(** A Map iterates in insertion order, which is the order of the object
    references. *)
Definition createdBefore (a b : string * BullQueue) : Prop :=
  (q_ref (snd a) <= q_ref (snd b))%nat.

#[global] Instance createdBefore_dec a b : Decision (createdBefore a b).
Proof. unfold createdBefore. apply _. Defined.

Section Service.
Variable config : Config.Config.

(** [new Bull(queueName, ...)] followed by [queue.process] and
    [setupQueueEvents]: a fresh, empty, running queue. *)
Definition newQueue (ref : nat) (unitId : string) : BullQueue :=
  {| q_ref := ref; q_name := "whatsapp-messages-" +:+ unitId;
     q_closed := false; q_waiting := []; q_active := []; q_delayed := [];
     q_completed := []; q_failed := [] |}.

Definition getMessageQueue (unitId : string) (st : State) : BullQueue * State :=
  match queues st !! unitId with
  | Some queue => (queue, st)
  | None =>
      let queue := newQueue (next_ref st) unitId in
      (queue, {| queues := <[unitId := queue]> (queues st);
                 next_ref := S (next_ref st);
                 next_uuid := next_uuid st;
                 processed := processed st |})
  end.

(** The callback given to [queue.process]. The [catch] only logs and
    throws the error again. *)
Definition processor (w : World) (unitId : string) (job : Job) : io HandlerResult :=
  let recipient := recipient (data job) in
  let message := message (data job) in
  if debugMode (data job)
  then io_ret (DebugResult recipient)
  else
    result <- sendMessage w unitId recipient message ;;
    if success result
    then let delay := Config.getRandomDelay config (mathRandom w) in
         _ <- io_emit (CallSleep delay) ;;
         io_ret (SendResultOf result)
    else io_ret (SendResultOf result).

(** The job that [queue.add] is asked to create: the data, and the
    options [{jobId, attempts, backoff}]. *)
Definition newJob (jobId : JobId) (recipient : string)
    (processedMessage : ProcessedMessage) (debugMode : bool) : Job :=
  {| id := jobId;
     data := {| recipient := recipient; message := processedMessage;
                debugMode := debugMode |};
     attempts := Config.retryCount config;
     backoffDelay := Config.retryDelay config;
     attemptsMade := 0; retryAfter := 0;
     returnvalue := None; failedReason := None |}.

(** One [queue.add] of [queueMessage], for the recipient and the uuid
    drawn for it. *)
Definition addFor (unitId : string) (processedMessage : ProcessedMessage)
    (debugMode : bool) (recipient : string) (st : State) : (JobId * string) * State :=
  let jobId := MsgId (next_uuid st) in
  let st := {| queues := queues st; next_ref := next_ref st;
               next_uuid := S (next_uuid st); processed := processed st |} in
  match queues st !! unitId with
  | Some queue =>
      let '(job, queue) :=
        bull_add (newJob jobId recipient processedMessage debugMode) queue in
      ((id job, recipient), setQueue unitId queue st)
  | None => ((jobId, recipient), st)
  end.

(** [recipientList.map(async (recipient) => ...)] and [Promise.all]. *)
Fixpoint addAll (unitId : string) (processedMessage : ProcessedMessage)
    (debugMode : bool) (recipients : list string) (st : State)
    : list (JobId * string) * State :=
  match recipients with
  | [] => ([], st)
  | recipient :: rest =>
      let '(j, st) := addFor unitId processedMessage debugMode recipient st in
      let '(js, st) := addAll unitId processedMessage debugMode rest st in
      (j :: js, st)
  end.

Definition queueMessage (unitId : string) (recipients : Recipients)
    (message : Message) (debugMode : bool) (st : State)
    : outcome QueueResult * State :=
  let '(queue, st) := getMessageQueue unitId st in
  let recipientList := recipientList recipients in
  match processMessageContent message with
  | Throw e => (Throw e, st)
  | Return processedMessage =>
      let '(jobs, st) := addAll unitId processedMessage debugMode recipientList st in
      (Return {| jobCount := length jobs; jobs := jobs |}, st)
  end.

Definition getQueueStats (unitId : string) (st : State) : Stats * State :=
  let '(queue, st) := getMessageQueue unitId st in
  let waiting := length (q_waiting queue) in
  let active := length (q_active queue) in
  let completed := length (q_completed queue) in
  let failed := length (q_failed queue) in
  let delayed := length (q_delayed queue) in
  ({| s_unitId := unitId; waiting := waiting; active := active;
      completed := completed; failed := failed; delayed := delayed;
      total := waiting + active + delayed |}, st).

(** [queues.keys()]: the unit ids in the order the queues were created. *)
Definition unitIds (st : State) : list string :=
  map fst (merge_sort createdBefore (map_to_list (queues st))).

Fixpoint statsOf (units : list string) (st : State) : list Stats * State :=
  match units with
  | [] => ([], st)
  | unitId :: rest =>
      let '(s, st) := getQueueStats unitId st in
      let '(ss, st) := statsOf rest st in
      (s :: ss, st)
  end.

Definition getAllQueuesStats (st : State) : list Stats * State :=
  statsOf (unitIds st) st.

Definition closeAllQueues (st : State) : State :=
  {| queues := bull_close <$> queues st; next_ref := next_ref st;
     next_uuid := next_uuid st; processed := processed st |}.

(** One [job.remove()] takes effect on the queue of [unitId]. *)
Definition removeJob (unitId : string) (i : JobId) (st : State) : State :=
  match queues st !! unitId with
  | Some queue => setQueue unitId (bull_remove i queue) st
  | None => st
  end.

(** The worker of the queue of [unitId] claims its next waiting job. *)
Definition claim (unitId : string) (st : State) : State :=
  match queues st !! unitId with
  | Some queue => setQueue unitId (bull_claim queue) st
  | None => st
  end.

(** The worker runs [processor] on the job it holds and Bull settles the
    job by the outcome. *)
Definition settle (w : World) (unitId : string) (st : State) : State :=
  match queues st !! unitId with
  | Some queue =>
      match q_active queue with
      | job :: _ =>
          let '(_, r) := processor w unitId job in
          {| queues := <[unitId := bull_settle job r queue]> (queues st);
             next_ref := next_ref st; next_uuid := next_uuid st;
             processed := processed st ++ [(unitId, id job)] |}
      | [] => st
      end
  | None => st
  end.

(** The backoff interval of a delayed job has elapsed. *)
Definition promote (unitId : string) (i : JobId) (st : State) : State :=
  match queues st !! unitId with
  | Some queue => setQueue unitId (bull_promote i queue) st
  | None => st
  end.

(** Everything that can happen to the module state, one step at a time.
    A call of [clearQueue] takes several steps, between which other steps
    can fall: it looks the queue up, and each of its [job.remove()] takes
    effect on its own. *)
Inductive Op :=
  | OpQueueMessage (unitId : string) (recipients : Recipients)
      (message : Message) (debugMode : bool)
  | OpGetQueueStats (unitId : string)
  | OpGetAllQueuesStats
  | OpGetMessageQueue (unitId : string)
  | OpRemoveJob (unitId : string) (i : JobId)
  | OpCloseAllQueues
  | OpClaim (unitId : string)
  | OpSettle (w : World) (unitId : string)
  | OpPromote (unitId : string) (i : JobId).

Definition exec (o : Op) (st : State) : State :=
  match o with
  | OpQueueMessage unitId recipients message debugMode =>
      snd (queueMessage unitId recipients message debugMode st)
  | OpGetQueueStats unitId => snd (getQueueStats unitId st)
  | OpGetAllQueuesStats => snd (getAllQueuesStats st)
  | OpGetMessageQueue unitId => snd (getMessageQueue unitId st)
  | OpRemoveJob unitId i => removeJob unitId i st
  | OpCloseAllQueues => closeAllQueues st
  | OpClaim unitId => claim unitId st
  | OpSettle w unitId => settle w unitId st
  | OpPromote unitId i => promote unitId i st
  end.

Definition run (ops : list Op) (st : State) : State :=
  foldl (fun st o => exec o st) st ops.

(** The jobs that [queue.getWaiting()] or [queue.getDelayed()] resolves
    with when it reads the queue of [unitId] in the state [st]. *)
Definition jobsOf (unitId : string) (jobs : BullQueue -> list Job) (st : State)
    : list Job :=
  match queues st !! unitId with
  | Some queue => jobs queue
  | None => []
  end.

(** [Promise.all(removePromises)]: the removals take effect in the order
    they were asked for; [beforeRemove k] are the steps that fall before
    the removal number [k]. *)
Fixpoint removeAll (unitId : string) (beforeRemove : nat -> list Op) (k : nat)
    (removePromises : list JobId) (st : State) : State :=
  match removePromises with
  | [] => st
  | i :: rest =>
      removeAll unitId beforeRemove (S k) rest
        (removeJob unitId i (run (beforeRemove k) st))
  end.

(** [clearQueue]. The call waits for [queue.getWaiting()], for
    [queue.getDelayed()] and for the removals, while the worker of the
    queue and other calls go on: [beforeWaiting] and [beforeDelayed] are
    the steps that fall before the two reads, [beforeRemove] those before
    each removal. A call that nothing interrupts has them all empty. *)
Definition clearQueue (unitId : string) (beforeWaiting beforeDelayed : list Op)
    (beforeRemove : nat -> list Op) (st : State) : ClearResult * State :=
  let '(queue, st) := getMessageQueue unitId st in
  let st := run beforeWaiting st in
  let waitingJobs := jobsOf unitId q_waiting st in
  let st := run beforeDelayed st in
  let delayedJobs := jobsOf unitId q_delayed st in
  let removePromises := ids waitingJobs ++ ids delayedJobs in
  let st := removeAll unitId beforeRemove 0 removePromises st in
  ({| cr_success := true; removedCount := length removePromises |}, st).

(** No step falls between the steps of a call. *)
Definition uninterrupted : nat -> list Op := fun _ => [].

(** How often the processor has run for the job [i] of [unitId]. *)
Definition attemptsOf (unitId : string) (i : JobId) (st : State) : nat :=
  length (filter (fun e => e = (unitId, i)) (processed st)).

(** The jobs created for the recipients [rs] when the next uuid is [n]. *)
Fixpoint newJobsFrom (n : nat) (rs : list string)
    (processedMessage : ProcessedMessage) (debugMode : bool) : list Job :=
  match rs with
  | [] => []
  | r :: rs =>
      newJob (MsgId n) r processedMessage debugMode
      :: newJobsFrom (S n) rs processedMessage debugMode
  end.

End Service.

(** The queue [q] with the jobs [js] appended to its waiting jobs. *)
Definition enqueue (js : list Job) (q : BullQueue) : BullQueue :=
  {| q_ref := q_ref q; q_name := q_name q; q_closed := q_closed q;
     q_waiting := q_waiting q ++ js; q_active := q_active q;
     q_delayed := q_delayed q; q_completed := q_completed q;
     q_failed := q_failed q |}.

(** The ids of the jobs that can still be processed. *)
Definition pendingIds (q : BullQueue) : list JobId :=
  ids (q_waiting q ++ q_active q ++ q_delayed q).

(** Job ids are unique within a queue and were drawn from the supply. *)
Definition wfq (n : nat) (q : BullQueue) : Prop :=
  NoDup (ids (allJobs q)) /\ Forall (fun i => uuidOf i < n) (ids (allJobs q)).

Definition wf (st : State) : Prop :=
  forall unitId q, queues st !! unitId = Some q -> wfq (next_uuid st) q.

(** Every queue of [st] is still registered in [st'], as the same object. *)
Definition keeps (st st' : State) : Prop :=
  forall unitId q, queues st !! unitId = Some q ->
    exists q', queues st' !! unitId = Some q' /\ q_ref q' = q_ref q.

(** The job [i] of [unitId] was drawn from the supply and can no longer
    be processed. *)
Definition retired (unitId : string) (i : JobId) (st : State) : Prop :=
  uuidOf i < next_uuid st
  /\ forall q, queues st !! unitId = Some q -> i ∉ pendingIds q.

Definition zeroStats (unitId : string) : Stats :=
  {| s_unitId := unitId; waiting := 0; active := 0; completed := 0;
     failed := 0; delayed := 0; total := 0 |}.

End Queue.

(** ** controllers/messageController.js *)

Module MessageController.
Import Helpers.

(** [debug_mode] of the request body. *)
Inductive DebugFlag :=
  | DebugUndefined
  | DebugBool (b : bool)
  | DebugString (s : string)
  | DebugOther.                (* null, a number, an object *)

(** The request body once the [recipients] string has been parsed and an
    uploaded file has replaced [media] or [document] by its
    [{path, mimetype, filename}] object. *)
Record Request := {
  unit_id : option string;
  recipients : option Queue.Recipients;
  message : option string;
  media : option attachment;
  document : option attachment;
  debug_mode : DebugFlag
}.

Inductive Response :=
  | Status400 (message : string) (invalidNumbers : list string)
  | Status202 (data : Queue.QueueResult)
  | Next (e : error).

Definition lowerChar (c : ascii) : ascii :=
  let n := nat_of_ascii c in
  if Nat.leb 65 n && Nat.leb n 90 then ascii_of_nat (n + 32) else c.

(** [String.prototype.toLowerCase] *)
Fixpoint toLowerCase (s : string) : string :=
  match s with
  | EmptyString => EmptyString
  | String c r => String (lowerChar c) (toLowerCase r)
  end.

Definition optTruthy (s : option string) : bool :=
  match s with
  | Some s => truthy s
  | None => false
  end.

(** [!recipients || (Array.isArray(recipients) && recipients.length === 0)] *)
Definition noRecipients (recipients : option Queue.Recipients) : bool :=
  match recipients with
  | None => true
  | Some (Queue.One r) => negb (truthy r)
  | Some (Queue.Many l) => Nat.eqb (length l) 0
  end.

(** [if (typeof debug_mode === 'string') debug_mode = debug_mode.toLowerCase() === 'true'] *)
Definition coerceDebug (debug_mode : DebugFlag) : DebugFlag :=
  match debug_mode with
  | DebugString s => DebugBool (bool_decide (toLowerCase s = "true"))
  | d => d
  end.

(** [(debug_mode === true) || (debug_mode === undefined && config.app.debugMode === true)] *)
Definition useDebugMode (config : Config.Config) (debug_mode : DebugFlag) : bool :=
  match debug_mode with
  | DebugBool true => true
  | DebugUndefined => Config.debugMode config
  | _ => false
  end.

Section Controller.
Variable config : Config.Config.
(** [sessionService.isSessionReady] *)
Variable isSessionReady : string -> bool.

Definition sendMessage (req : Request) (st : Queue.State) : Response * Queue.State :=
  let debug_mode := coerceDebug (debug_mode req) in
  if negb (optTruthy (unit_id req))
  then (Status400 "unit_id is required" [], st)
  else
  let unit_id := default "" (unit_id req) in
  if noRecipients (recipients req)
  then (Status400 "At least one recipient is required" [], st)
  else
  if negb (optTruthy (message req))
     || (negb (optTruthy (message req)) && negb (attTruthy (media req))
         && negb (attTruthy (document req)))
  then (Status400 "Message content is required (text, media, or document)" [], st)
  else
  if negb (isSessionReady unit_id)
  then (Status400 ("WhatsApp session for unit_id " +:+ unit_id +:+ " is not ready") [], st)
  else
  let recipientList :=
    match recipients req with
    | Some r => Queue.recipientList r
    | None => []
    end in
  let invalidNumbers :=
    List.filter (fun num => negb (bool_decide (is_Some (validatePhoneNumber num))))
      recipientList in
  if Nat.ltb 0 (length invalidNumbers)
  then (Status400 "Invalid phone number(s) found" invalidNumbers, st)
  else
  let useDebugMode := useDebugMode config debug_mode in
  match Queue.queueMessage config unit_id (Queue.Many recipientList)
          {| text := message req; Helpers.media := media req;
             Helpers.document := document req; documentFilename := None |}
          useDebugMode st with
  | (Return result, st) => (Status202 result, st)
  | (Throw error, st) => (Next error, st)
  end.

End Controller.

End MessageController.

(** ** Example configuration, collaborators and states *)

Module Examples.
Import Helpers Whatsapp Queue.

Definition exampleEnv : Config.Env :=
  {| Config.DEBUG_MODE := Some "true";
     Config.QUEUE_RETRY_COUNT := 2;
     Config.QUEUE_RETRY_DELAY := 3000;
     Config.MIN_MESSAGE_DELAY := 2000;
     Config.MAX_MESSAGE_DELAY := 5000 |}.

Definition exampleConfig : Config.Config := Config.load exampleEnv.

Definition exampleMedia (name : string) : MessageMedia :=
  {| mm_mimetype := "image/png"; mm_data := "iVBORw0KGgo="; mm_filename := name |}.

(** A client that answers every send with a message id naming the kind of
    the payload. *)
Definition exampleClient (registered : bool) : Client :=
  {| isRegisteredUser := fun _ => Return registered;
     clientSendMessage := fun _ p =>
       Return (Some match p with
                    | PText _ => "id-text"
                    | PMedia _ _ false => "id-media"
                    | PMedia _ _ true => "id-document"
                    end) |}.

(** The Number 0.5. *)
Definition oneHalf : Number.number := S754_finite false 4503599627370496 (-53).

(** The greatest value [Math.random()] returns, [1 - 2^-52]. *)
Definition almostOne : Number.number := S754_finite false 9007199254740990 (-53).

(** Every session is ready and every file and URL loads. *)
Definition exampleWorld (registered : bool) : World :=
  {| isSessionReady := fun _ => true;
     getClientByUnitId := fun _ => Some (exampleClient registered);
     fromUrl := fun url => Return (exampleMedia url);
     pathResolve := fun p => p;
     fsAccess := fun _ => true;
     loadFile := fun p => Return (exampleMedia p);
     mathRandom := oneHalf |}.

(** No session is ready: every delivery attempt throws. *)
Definition offlineWorld : World :=
  {| isSessionReady := fun _ => false;
     getClientByUnitId := fun _ => None;
     fromUrl := fun url => Return (exampleMedia url);
     pathResolve := fun p => p;
     fsAccess := fun _ => true;
     loadFile := fun p => Return (exampleMedia p);
     mathRandom := S754_zero false |}.

Definition textMessage : Message :=
  {| text := Some "hi"; media := None; document := None; documentFilename := None |}.

Definition mediaOnlyMessage : Message :=
  {| text := None; media := Some (AttString "http://x/y.png"); document := None;
     documentFilename := None |}.

Definition bothMessage : Message :=
  {| text := Some " see attached "; media := Some (AttString "http://x/y.png");
     document := Some (AttFile "/tmp/report.pdf" "application/pdf" "report.pdf");
     documentFilename := None |}.

(** The unit [u1] after one message for one recipient was queued and the
    worker claimed the job. *)
Definition oneActive : State :=
  run exampleConfig
    [OpQueueMessage "u1" (One "15551234567") textMessage false; OpClaim "u1"] init.



Definition queueOf (unitId : string) (st : State) : BullQueue :=
  default (newQueue 0 unitId) (queues st !! unitId).

(** What [processMessageContent] makes of [textMessage] and [bothMessage]. *)
Definition textContent : ProcessedMessage :=
  {| hasText := true; hasMedia := false; hasDocument := false;
     content := {| c_text := Some "hi"; c_media := None; c_document := None;
                   c_documentFilename := None; c_caption := None |} |}.

Definition bothContent : ProcessedMessage :=
  {| hasText := false; hasMedia := true; hasDocument := true;
     content := {| c_text := None;
                   c_media := Some (AttString "http://x/y.png");
                   c_document :=
                     Some (AttFile "/tmp/report.pdf" "application/pdf" "report.pdf");
                   c_documentFilename := Some "document";
                   c_caption := Some "see attached" |} |}.

(** The outside calls of a successful delivery of [bothContent]. *)
Definition bothTrace : list Effect :=
  [CallSend "15551234567@c.us"
     (PMedia (exampleMedia "http://x/y.png") "see attached" false);
   CallSend "15551234567@c.us"
     (PMedia (exampleMedia "/tmp/report.pdf") "see attached" true);
   CallUnlink "/tmp/report.pdf"].

(** Requests: text for two recipients of which one is malformed, a media
    reference without text, and a text without a debug flag. *)
Definition badRecipientRequest : MessageController.Request :=
  {| MessageController.unit_id := Some "u1";
     MessageController.recipients := Some (Many ["15551234567"; "bad"]);
     MessageController.message := Some "hi";
     MessageController.media := None;
     MessageController.document := None;
     MessageController.debug_mode := MessageController.DebugUndefined |}.

Definition mediaOnlyRequest : MessageController.Request :=
  {| MessageController.unit_id := Some "u1";
     MessageController.recipients := Some (Many ["15551234567"]);
     MessageController.message := None;
     MessageController.media := Some (AttString "http://x/y.png");
     MessageController.document := None;
     MessageController.debug_mode := MessageController.DebugUndefined |}.

Definition textRequest : MessageController.Request :=
  {| MessageController.unit_id := Some "u1";
     MessageController.recipients := Some (Many ["15551234567"]);
     MessageController.message := Some "hi";
     MessageController.media := None;
     MessageController.document := None;
     MessageController.debug_mode := MessageController.DebugUndefined |}.

End Examples.

(** * Further definitions *)

(** ** Vocabulary on strings *)

(** Every character of [s] satisfies [p]. *)
Fixpoint allChars (p : ascii -> bool) (s : string) : bool :=
  match s with
  | EmptyString => true
  | String c r => p c && allChars p r
  end.

(** ** utils/helpers.js: a text of any type *)

Module AnyText.
Import Helpers.

(** The values the [text] of a message can have, as far as
    [processMessageContent] tells them apart. A request body is JSON, so
    the controller passes on whatever value [message] has. *)
Inductive value :=
  | VUndefined
  | VNull
  | VString (s : string)
  | VFalsy     (* false, 0 *)
  | VTruthy.   (* true, a number but 0, an array, an object *)

(** A text that is a string or missing. *)
Definition ofText (t : option string) : value :=
  match t with
  | Some s => VString s
  | None => VUndefined
  end.

(** [message.text.trim()]: only a string has the method. *)
Definition textTrim (t : value) : outcome string :=
  match t with
  | VString s => Return (trim s)
  | VUndefined =>
      Throw (TypeError "Cannot read properties of undefined (reading 'trim')")
  | VNull => Throw (TypeError "Cannot read properties of null (reading 'trim')")
  | VFalsy | VTruthy => Throw (TypeError "message.text.trim is not a function")
  end.

(** [Boolean(message.text && message.text.trim())]: [trim] is called on a
    truthy text only. *)
Definition textPresent (t : value) : outcome bool :=
  match t with
  | VString s => Return (truthy s && truthy (trim s))
  | VTruthy => Throw (TypeError "message.text.trim is not a function")
  | VUndefined | VNull | VFalsy => Return false
  end.

(** [processMessageContent], for a text of any type. *)
Definition processMessageContent (text : value) (media document : option attachment)
    (documentFilename : option string) : outcome ProcessedMessage :=
  present ← textPresent text;
  let result :=
    {| hasText := present;
       hasMedia := attTruthy media;
       hasDocument := attTruthy document;
       content := emptyContent |} in
  result ←
    (if hasText result && (negb (hasMedia result) && negb (hasDocument result))
     then t ← textTrim text;
          Return {| hasText := hasText result; hasMedia := hasMedia result;
                    hasDocument := hasDocument result;
                    content := {| c_text := Some t;
                                  c_media := c_media (content result);
                                  c_document := c_document (content result);
                                  c_documentFilename := c_documentFilename (content result);
                                  c_caption := c_caption (content result) |} |}
     else Return result);
  result ←
    (if hasMedia result
     then t ← textTrim text;
          Return {| hasText := false; hasMedia := hasMedia result;
                    hasDocument := hasDocument result;
                    content := {| c_text := c_text (content result);
                                  c_media := media;
                                  c_document := c_document (content result);
                                  c_documentFilename := c_documentFilename (content result);
                                  c_caption := Some (orElse t "") |} |}
     else Return result);
  result ←
    (if hasDocument result
     then let fname := orElse (default "" documentFilename) "document" in
          t ← textTrim text;
          Return {| hasText := false; hasMedia := hasMedia result;
                    hasDocument := hasDocument result;
                    content := {| c_text := c_text (content result);
                                  c_media := c_media (content result);
                                  c_document := document;
                                  c_documentFilename := Some fname;
                                  c_caption := Some (orElse t "") |} |}
     else Return result);
  Return result.

End AnyText.

(** ** utils/helpers.js: MIME type of a data URI *)

Module DataUri.
Import Helpers.

(** The longest prefix of [s] without the character [c], and the rest. *)
Fixpoint spanNot (c : ascii) (s : string) : string * string :=
  match s with
  | EmptyString => (EmptyString, EmptyString)
  | String a r =>
      if Ascii.eqb a c then (EmptyString, s)
      else let '(p, t) := spanNot c r in (String a p, t)
  end.

Definition notSemicolon (c : ascii) : bool := negb (Ascii.eqb c ";").

(** [s.slice(n)] *)
Fixpoint dropChars (n : nat) (s : string) : string :=
  match n, s with
  | S n, String _ r => dropChars n r
  | _, _ => s
  end.

(** [getMimeTypeFromBase64] for a string argument; [None] is [null]. The
    regular expression [^data:([^;]+);base64,] matches when [data:] is
    followed by a non-empty run of characters other than [;] and that run
    by [;base64,]; the group is the whole run. *)
Definition getMimeTypeFromBase64 (base64String : string) : option string :=
  if negb (truthy base64String) then None
  else if negb (Whatsapp.startsWith "data:" base64String) then None
  else
    let '(mime, rest) := spanNot ";" (dropChars 5 base64String) in
    if negb (truthy mime && Whatsapp.startsWith ";base64," rest) then None
    else Some mime.

End DataUri.

(** ** middlewares/auth.js and the token of config/index.js *)

Module Auth.
Import Helpers.

(** [config.security.apiToken]:
    [process.env.API_TOKEN || 'default-api-token-please-change'] *)
Definition apiToken (API_TOKEN : option string) : string :=
  orElse (default "" API_TOKEN) "default-api-token-please-change".

Inductive AuthResult :=
  | Status401 (message : string)
  | Status403 (message : string)
  | CallNext.

(** [authenticateToken], for the value of the header [x-api-token]. *)
Definition authenticateToken (configured : string) (token : option string) : AuthResult :=
  if negb (MessageController.optTruthy token)
  then Status401 "Access denied. API token is required"
  else if negb (bool_decide (token = Some configured))
  then Status403 "Access denied. Invalid API token"
  else CallNext.

End Auth.

(** ** routes/messageRoutes.js and the queue handlers of
    controllers/messageController.js *)

Module QueueRoutes.
Import Helpers Queue.

(** [req.params]: the values bound by the placeholders of the route. *)
Inductive QueueResponse :=
  | Stats200 (data : Stats)
  | AllStats200 (count : nat) (data : list Stats)
  | Cleared200 (removedCount : nat) (unit_id : string)
  | Status400 (message : string).

(** [getQueueStats] of the controller. The service calls cannot throw in
    this model, so the 404 answers of the two [catch] blocks do not occur. *)
Definition getQueueStats (params : gmap string string) (st : State)
    : QueueResponse * State :=
  match params !! "unit_id" with
  | Some unit_id =>
      if truthy unit_id
      then let '(stats, st) := Queue.getQueueStats unit_id st in (Stats200 stats, st)
      else let '(stats, st) := Queue.getAllQueuesStats st in
           (AllStats200 (length stats) stats, st)
  | None =>
      let '(stats, st) := Queue.getAllQueuesStats st in
      (AllStats200 (length stats) stats, st)
  end.

(** [clearQueue] of the controller; [Cleared200 n u] stands for the message
    [Cleared <n> jobs from queue for unitId <u>]. *)
Definition clearQueue (config : Config.Config) (params : gmap string string)
    (beforeWaiting beforeDelayed : list Op) (beforeRemove : nat -> list Op)
    (st : State) : QueueResponse * State :=
  match params !! "unit_id" with
  | Some unit_id =>
      if negb (truthy unit_id) then (Status400 "unitId is required", st)
      else let '(result, st) :=
             Queue.clearQueue config unit_id beforeWaiting beforeDelayed beforeRemove st
           in (Cleared200 (removedCount result) unit_id, st)
  | None => (Status400 "unitId is required", st)
  end.

(** The routes: [GET /queue], [GET /queue/:unitId], [DELETE /queue/:unitId]. *)
Inductive Route :=
  | GetQueue
  | GetQueueOf (unitId : string)
  | DeleteQueueOf (unitId : string).

(** Express binds the path segment to the name of the placeholder. *)
Definition paramsOf (r : Route) : gmap string string :=
  match r with
  | GetQueue => ∅
  | GetQueueOf unitId => {[ "unitId" := unitId ]}
  | DeleteQueueOf unitId => {[ "unitId" := unitId ]}
  end.

(** The handler of the route runs; the steps that fall between the steps
    of its [clearQueue] call are as for [Queue.clearQueue]. *)
Definition handle (config : Config.Config) (r : Route)
    (beforeWaiting beforeDelayed : list Op) (beforeRemove : nat -> list Op)
    (st : State) : QueueResponse * State :=
  match r with
  | GetQueue => getQueueStats (paramsOf r) st
  | GetQueueOf _ => getQueueStats (paramsOf r) st
  | DeleteQueueOf _ =>
      clearQueue config (paramsOf r) beforeWaiting beforeDelayed beforeRemove st
  end.

End QueueRoutes.

(** ** services/session.js *)

Module Session.
Import Helpers.

Inductive Status :=
  | Initializing
  | QrReceived
  | Ready
  | Authenticated
  | AuthFailed
  | Disconnected.

#[global] Instance Status_eq_dec : EqDecision Status.
Proof. solve_decision. Defined.

(** A whatsapp-web.js client as the session service uses it: the part the
    send capability calls, and what [initialize()] and [destroy()] resolve
    to for this client. *)
Record SessionClient := {
  wa : Whatsapp.Client;
  initialize : outcome unit;
  destroy : outcome unit
}.

(** [sessionData]; the session id [uuidv4()] is the number of the draw. *)
Record SessionData := {
  s_id : nat;
  s_client : SessionClient;
  s_status : Status;
  s_createdAt : Z;
  s_whatsappNumber : option string;
  s_qrCode : option string
}.

(** The two Maps of the module and the uuid supply. *)
Record SessionState := {
  sessions : gmap string SessionData;
  qrCodes : gmap string string;
  next_session : nat
}.

Definition noSessions : SessionState :=
  {| sessions := ∅; qrCodes := ∅; next_session := 0 |}.

(** What [createSession] resolves to. *)
Record SessionInfo := {
  i_id : nat;
  i_unit_id : string;
  i_status : Status
}.

(** What [getSessionByUnitId] returns. *)
Record SessionDetails := {
  d_unitId : string;
  d_id : nat;
  d_status : Status;
  d_whatsappNumber : option string;
  d_createdAt : Z;
  d_qrCode : option string
}.

Definition setStatus (status : Status) (s : SessionData) : SessionData :=
  {| s_id := s_id s; s_client := s_client s; s_status := status;
     s_createdAt := s_createdAt s; s_whatsappNumber := s_whatsappNumber s;
     s_qrCode := s_qrCode s |}.

(** The events of a client that [setupSessionEvents] listens to. [EvReady]
    carries [client.info.wid.user], or [None] when reading it throws. *)
Inductive Event :=
  | EvQr (qr : string)
  | EvReady (whatsappNumber : option string)
  | EvAuthenticated
  | EvAuthFailure
  | EvDisconnected.

(** [const session = sessions.get(unitId); if (session) { ... }]: the
    session object stored under [unitId], if any, is updated in place. *)
Definition updateSession (unitId : string) (f : SessionData -> SessionData)
    (ss : SessionState) : SessionState :=
  {| sessions := alter f unitId (sessions ss); qrCodes := qrCodes ss;
     next_session := next_session ss |}.

(** A listener that [setupSessionEvents] registered for [unitId] runs for
    the event. The listeners look the session up by unit id, so the event
    of any client created for [unitId] reaches the session stored under it
    now. *)
Definition onEvent (unitId : string) (ev : Event) (ss : SessionState) : SessionState :=
  match ev with
  | EvQr qr =>
      let ss := {| sessions := sessions ss; qrCodes := <[unitId := qr]> (qrCodes ss);
                   next_session := next_session ss |} in
      updateSession unitId
        (fun s => {| s_id := s_id s; s_client := s_client s; s_status := QrReceived;
                     s_createdAt := s_createdAt s;
                     s_whatsappNumber := s_whatsappNumber s; s_qrCode := Some qr |}) ss
  | EvReady (Some whatsappNumber) =>
      updateSession unitId
        (fun s => {| s_id := s_id s; s_client := s_client s; s_status := Ready;
                     s_createdAt := s_createdAt s;
                     s_whatsappNumber := Some whatsappNumber; s_qrCode := None |}) ss
  | EvReady None => ss
  | EvAuthenticated => updateSession unitId (setStatus Authenticated) ss
  | EvAuthFailure => updateSession unitId (setStatus AuthFailed) ss
  | EvDisconnected => updateSession unitId (setStatus Disconnected) ss
  end.

(** What no event changes of a session. *)
Definition sameSession (s s' : SessionData) : Prop :=
  s_id s' = s_id s /\ s_client s' = s_client s /\ s_createdAt s' = s_createdAt s.

(** The events that arrive, in order, while a call is waiting at an
    [await]; each one comes with the unit id its listener was registered
    for. *)
Definition onEvents (evs : list (string * Event)) (ss : SessionState) : SessionState :=
  foldl (fun ss e => onEvent e.1 e.2 ss) ss evs.

(** [deleteSession]; [whileDestroying] are the events that arrive while
    [session.client.destroy()] is pending. Calls of the service do not
    overlap one another. *)
Definition deleteSession (unitId : string) (whileDestroying : list (string * Event))
    (ss : SessionState) : outcome bool * SessionState :=
  match sessions ss !! unitId with
  | None => (Return false, ss)
  | Some session =>
      let ss := onEvents whileDestroying ss in
      match destroy (s_client session) with
      | Return _ =>
          (Return true,
           {| sessions := delete unitId (sessions ss);
              qrCodes := delete unitId (qrCodes ss);
              next_session := next_session ss |})
      | Throw error => (Throw error, ss)
      end
  end.

(** [['ready', 'authenticated'].includes(status)] *)
Definition isActive (status : Status) : bool :=
  match status with
  | Ready | Authenticated => true
  | _ => false
  end.

(** [createSession], for the client that [new Client(...)] builds and the
    time [new Date()] reads; [whileDestroying] and [whileInitializing] are
    the events that arrive while the client of a replaced session is
    destroyed and while [client.initialize()] is pending. The directories
    it makes are not modelled. *)
Definition createSession (client : SessionClient) (now : Z) (unitId : string)
    (whileDestroying whileInitializing : list (string * Event))
    (ss : SessionState) : outcome SessionInfo * SessionState :=
  let create (ss : SessionState) :=
    let sessionId := next_session ss in
    let sessionData :=
      {| s_id := sessionId; s_client := client; s_status := Initializing;
         s_createdAt := now; s_whatsappNumber := None; s_qrCode := None |} in
    let ss := {| sessions := <[unitId := sessionData]> (sessions ss);
                 qrCodes := qrCodes ss;
                 next_session := S (next_session ss) |} in
    let ss := onEvents whileInitializing ss in
    match initialize client with
    | Return _ =>
        (Return {| i_id := sessionId; i_unit_id := unitId; i_status := Initializing |},
         ss)
    | Throw error =>
        (Throw error,
         {| sessions := delete unitId (sessions ss); qrCodes := qrCodes ss;
            next_session := next_session ss |})
    end in
  match sessions ss !! unitId with
  | Some existingSession =>
      if isActive (s_status existingSession)
      then (Return {| i_id := s_id existingSession; i_unit_id := unitId;
                      i_status := s_status existingSession |}, ss)
      else
        match deleteSession unitId whileDestroying ss with
        | (Return _, ss) => create ss
        | (Throw error, ss) => (Throw error, ss)
        end
  | None => create ss
  end.

(** The stretches of [createSession] between its [await]s, each of which
    runs without anything in between. They tell what calls that overlap
    do: while one call waits, the stretches of other calls run. *)

(** Where a call that has not returned waits. *)
Inductive Awaiting :=
  | AwaitDestroy (session : SessionData)   (* for [session.client.destroy()] *)
  | AwaitInitialize (sessionId : nat).     (* for [client.initialize()] *)

(** The session is made and stored, and [client.initialize()] is called. *)
Definition createSession_store (client : SessionClient) (now : Z) (unitId : string)
    (ss : SessionState) : nat * SessionState :=
  let sessionId := next_session ss in
  let sessionData :=
    {| s_id := sessionId; s_client := client; s_status := Initializing;
       s_createdAt := now; s_whatsappNumber := None; s_qrCode := None |} in
  (sessionId,
   {| sessions := <[unitId := sessionData]> (sessions ss);
      qrCodes := qrCodes ss;
      next_session := S (next_session ss) |}).

(** From the call to its first [await], or to its [return]. *)
Definition createSession_begin (client : SessionClient) (now : Z) (unitId : string)
    (ss : SessionState) : (SessionInfo + Awaiting) * SessionState :=
  match sessions ss !! unitId with
  | Some existingSession =>
      if isActive (s_status existingSession)
      then (inl {| i_id := s_id existingSession; i_unit_id := unitId;
                   i_status := s_status existingSession |}, ss)
      else (inr (AwaitDestroy existingSession), ss)
  | None =>
      let '(sessionId, ss) := createSession_store client now unitId ss in
      (inr (AwaitInitialize sessionId), ss)
  end.

(** [session.client.destroy()] has settled with [r]: the rest of
    [deleteSession], then on to [client.initialize()]. *)
Definition createSession_destroyed (client : SessionClient) (now : Z)
    (unitId : string) (r : outcome unit) (ss : SessionState)
    : outcome nat * SessionState :=
  match r with
  | Return _ =>
      let ss := {| sessions := delete unitId (sessions ss);
                   qrCodes := delete unitId (qrCodes ss);
                   next_session := next_session ss |} in
      let '(sessionId, ss) := createSession_store client now unitId ss in
      (Return sessionId, ss)
  | Throw error => (Throw error, ss)
  end.

(** [client.initialize()] has settled with [r]. *)
Definition createSession_initialized (unitId : string) (sessionId : nat)
    (r : outcome unit) (ss : SessionState) : outcome SessionInfo * SessionState :=
  match r with
  | Return _ =>
      (Return {| i_id := sessionId; i_unit_id := unitId; i_status := Initializing |},
       ss)
  | Throw error =>
      (Throw error,
       {| sessions := delete unitId (sessions ss); qrCodes := qrCodes ss;
          next_session := next_session ss |})
  end.

(** A call of [createSession] from its beginning to its end, whatever
    happens while it waits: [whileDestroying] and [whileInitializing] are
    what the events of the clients and the stretches of other calls do to
    the state meanwhile. *)
Definition createSession_amid (client : SessionClient) (now : Z) (unitId : string)
    (whileDestroying whileInitializing : SessionState -> SessionState)
    (ss : SessionState) : outcome SessionInfo * SessionState :=
  match createSession_begin client now unitId ss with
  | (inl info, ss) => (Return info, ss)
  | (inr (AwaitInitialize sessionId), ss) =>
      createSession_initialized unitId sessionId (initialize client)
        (whileInitializing ss)
  | (inr (AwaitDestroy session), ss) =>
      match createSession_destroyed client now unitId (destroy (s_client session))
              (whileDestroying ss) with
      | (Return sessionId, ss) =>
          createSession_initialized unitId sessionId (initialize client)
            (whileInitializing ss)
      | (Throw error, ss) => (Throw error, ss)
      end
  end.


Definition getSessionByUnitId (unitId : string) (ss : SessionState)
    : option SessionDetails :=
  match sessions ss !! unitId with
  | None => None
  | Some session =>
      Some {| d_unitId := unitId; d_id := s_id session; d_status := s_status session;
              d_whatsappNumber := s_whatsappNumber session;
              d_createdAt := s_createdAt session; d_qrCode := s_qrCode session |}
  end.

(** [qrCodes.get(unitId) || null] *)
Definition getSessionQR (unitId : string) (ss : SessionState) : option string :=
  match qrCodes ss !! unitId with
  | Some qr => if truthy qr then Some qr else None
  | None => None
  end.

Definition getClientByUnitId (unitId : string) (ss : SessionState)
    : option SessionClient :=
  match sessions ss !! unitId with
  | Some session => Some (s_client session)
  | None => None
  end.

(** [session && session.status === 'ready'], as a truth value. *)
Definition isSessionReady (unitId : string) (ss : SessionState) : bool :=
  match sessions ss !! unitId with
  | Some session => bool_decide (s_status session = Ready)
  | None => false
  end.

(** The send capability reads the session and the client off the session
    service; the media loader and the file system are those of [w]. *)
Definition worldOf (ss : SessionState) (w : Whatsapp.World) : Whatsapp.World :=
  {| Whatsapp.isSessionReady := fun unitId => isSessionReady unitId ss;
     Whatsapp.getClientByUnitId := fun unitId => wa <$> getClientByUnitId unitId ss;
     Whatsapp.fromUrl := Whatsapp.fromUrl w;
     Whatsapp.pathResolve := Whatsapp.pathResolve w;
     Whatsapp.fsAccess := Whatsapp.fsAccess w;
     Whatsapp.loadFile := Whatsapp.loadFile w;
     Whatsapp.mathRandom := Whatsapp.mathRandom w |}.

(** What can happen to the sessions. *)
Inductive SessionOp :=
  | OpCreate (client : SessionClient) (now : Z) (unitId : string)
      (whileDestroying whileInitializing : list (string * Event))
  | OpDelete (unitId : string) (whileDestroying : list (string * Event))
  | OpEvent (unitId : string) (ev : Event).

Definition step (o : SessionOp) (ss : SessionState) : SessionState :=
  match o with
  | OpCreate client now unitId whileDestroying whileInitializing =>
      snd (createSession client now unitId whileDestroying whileInitializing ss)
  | OpDelete unitId whileDestroying => snd (deleteSession unitId whileDestroying ss)
  | OpEvent unitId ev => onEvent unitId ev ss
  end.

Definition steps (ops : list SessionOp) (ss : SessionState) : SessionState :=
  foldl (fun ss o => step o ss) ss ops.

End Session.

(** ** controllers/sessionController.js: the QR code of a session *)

Module SessionController.
Import Helpers Session.

Inductive QrResponse :=
  | Qr200 (unitId qrCode : string)
  | Qr400 (unitId : string) (status : Status)  (* Session <unitId> is in <status> state *)
  | Qr404NoSession (unitId : string)
  | Qr404NoCode.

Definition getSessionQR (unitId : string) (ss : SessionState) : QrResponse :=
  match Session.getSessionByUnitId unitId ss with
  | None => Qr404NoSession unitId
  | Some session =>
      if negb (bool_decide (d_status session = QrReceived))
      then Qr400 unitId (d_status session)
      else
        match d_qrCode session with
        | Some qrCode => if truthy qrCode then Qr200 unitId qrCode else Qr404NoCode
        | None => Qr404NoCode
        end
  end.

(** The answers of the other handlers; [Status404 u] stands for the message
    [No session found for unitId: <u>] and [Deleted200 u] for
    [Session for unitId <u> deleted successfully]. *)
Inductive SessionResponse :=
  | Created201 (data : SessionInfo)
  | Found200 (data : SessionDetails)
  | Deleted200 (unitId : string)
  | Status400 (message : string)
  | Status404 (unitId : string)
  | Status409 (message : string)
  | Next (e : error).

(** A character of the class [[a-zA-Z0-9-_]]. *)
Definition isUnitIdChar (c : ascii) : bool :=
  let n := nat_of_ascii c in
  (Nat.leb 97 n && Nat.leb n 122) || (Nat.leb 65 n && Nat.leb n 90) || isDigit c
  || Nat.eqb n 45 || Nat.eqb n 95.

(** [error.message] *)
Definition errorMessage (e : error) : string :=
  match e with
  | TypeError msg => msg
  | Error msg => msg
  end.

(** [s.includes(needle)] *)
Fixpoint includes (needle s : string) : bool :=
  Whatsapp.startsWith needle s
  || match s with
     | EmptyString => false
     | String _ r => includes needle r
     end.

(** [createSession] of the controller, for a string [req.body.unit_id] or
    none; the regular expression [^[a-zA-Z0-9-_]+$] accepts the non-empty
    strings of characters of the class. *)
Definition createSession (unit_id : option string) (client : SessionClient) (now : Z)
    (whileDestroying whileInitializing : list (string * Event)) (ss : SessionState)
    : SessionResponse * SessionState :=
  if negb (MessageController.optTruthy unit_id)
  then (Status400 "unit_id is required", ss)
  else
    let unit_id := default "" unit_id in
    if negb (truthy unit_id && allChars isUnitIdChar unit_id)
    then (Status400
            "unitId must contain only alphanumeric characters, dashes, and underscores",
          ss)
    else
      match Session.createSession client now unit_id whileDestroying whileInitializing ss
      with
      | (Return session, ss) => (Created201 session, ss)
      | (Throw error, ss) =>
          if includes "already exists" (errorMessage error)
          then (Status409 (errorMessage error), ss)
          else (Next error, ss)
      end.

Definition getSessionByUnitId (unitId : string) (ss : SessionState) : SessionResponse :=
  match Session.getSessionByUnitId unitId ss with
  | None => Status404 unitId
  | Some session => Found200 session
  end.

Definition deleteSession (unitId : string) (whileDestroying : list (string * Event))
    (ss : SessionState) : SessionResponse * SessionState :=
  match Session.deleteSession unitId whileDestroying ss with
  | (Return result, ss) =>
      if negb result then (Status404 unitId, ss) else (Deleted200 unitId, ss)
  | (Throw error, ss) => (Next error, ss)
  end.

End SessionController.

(** ** Example sessions *)

Module SessionExamples.
Import Helpers Session.

Definition exampleSessionClient (initialized destroyed : bool) : SessionClient :=
  {| wa := Examples.exampleClient true;
     initialize := if initialized then Return tt
                   else Throw (Error "Failed to launch the browser process");
     destroy := if destroyed then Return tt else Throw (Error "Target closed") |}.

(** The unit [u1] has a session that received a QR code. *)
Definition pairing : SessionState :=
  steps [OpCreate (exampleSessionClient true true) 1700000000 "u1" [] [];
         OpEvent "u1" (EvQr "2@abc")] noSessions.

(** The unit [u1] has a session that is ready. *)
Definition connected : SessionState :=
  steps [OpEvent "u1" EvAuthenticated; OpEvent "u1" (EvReady (Some "15550001111"))]
    pairing.

End SessionExamples.

(** * Properties *)

(** ** Content classification *)

Section Classification.
Import Helpers.

Lemma orElse_empty (t : string) : orElse t "" = t.
Proof. by destruct t. Qed.

Lemma truthy_trim (s : string) : truthy (trim s) = true -> truthy s = true.
Proof. by destruct s. Qed.

(** With a text that is a string, classification never throws: an
    attachment forces [hasText] to false and moves the trimmed text into
    the caption; a text alone is kept as the text, without a caption. *)
Lemma processMessageContent_text_given (m : Message) (s : string) :
  text m = Some s ->
  exists pm, processMessageContent m = Return pm
    /\ hasMedia pm = attTruthy (media m)
    /\ hasDocument pm = attTruthy (document m)
    /\ (attTruthy (media m) || attTruthy (document m) = true ->
        hasText pm = false /\ c_caption (content pm) = Some (trim s)
        /\ c_text (content pm) = None)
    /\ (attTruthy (media m) = false -> attTruthy (document m) = false ->
        truthy (trim s) = true ->
        hasText pm = true /\ c_text (content pm) = Some (trim s)
        /\ c_caption (content pm) = None).
Proof.
  intros Ht. unfold processMessageContent. rewrite Ht. cbn.
  destruct (attTruthy (media m)) eqn:Hm, (attTruthy (document m)) eqn:Hd;
    cbn; rewrite ?andb_false_r; cbn; rewrite ?Hm, ?Hd; cbn;
    rewrite ?orElse_empty.
  - eexists; repeat split; try done; cbn; by rewrite ?Hm, ?Hd.
  - eexists; repeat split; try done; cbn; by rewrite ?Hm, ?Hd.
  - eexists; repeat split; try done; cbn; by rewrite ?Hm, ?Hd.
  - destruct (truthy s && truthy (trim s)) eqn:Hs; cbn; rewrite ?Hm, ?Hd; cbn.
    + eexists; repeat split; try done.
    + eexists. do 4 (split; [done |]).
      intros _ _ Htr. rewrite Htr, (truthy_trim _ Htr) in Hs. done.
Qed.

(** C4. A message that carries a media or document reference and no text
    is not classified with an empty caption: reading [trim] off the
    missing text throws a [TypeError]. *)
Theorem processMessageContent_attachment_without_text (m : Message) :
  text m = None ->
  attTruthy (media m) || attTruthy (document m) = true ->
  processMessageContent m
  = Throw (TypeError "Cannot read properties of undefined (reading 'trim')").
Proof.
  intros Ht Ha. unfold processMessageContent. rewrite Ht. cbn.
  destruct (attTruthy (media m)) eqn:Hm; cbn; [done |].
  cbn in Ha. rewrite Ha. reflexivity.
Qed.

Lemma processMessageContent_attachment_without_text_witness :
  processMessageContent
    {| text := None; media := Some (AttString "http://x/y.png");
       document := None; documentFilename := None |}
  = Throw (TypeError "Cannot read properties of undefined (reading 'trim')").
Proof.
  apply processMessageContent_attachment_without_text; reflexivity.
Defined.

End Classification.

(** ** The invariant of the queues *)

Section QueueInvariant.
Import Helpers Whatsapp Queue.

Lemma NoDup_submseteq_inv {A} (l k : list A) : l ⊆+ k -> NoDup k -> NoDup l.
Proof.
  intros Hs Hk. apply submseteq_sublist_l in Hs as (k' & Hsub & Hp).
  assert (NoDup k') by (by rewrite Hp). eauto using sublist_NoDup.
Qed.

Lemma Forall_submseteq_inv {A} (P : A -> Prop) (l k : list A) :
  l ⊆+ k -> Forall P k -> Forall P l.
Proof.
  rewrite !Forall_forall. intros Hs Hk x Hx. eauto using elem_of_submseteq.
Qed.

Lemma ids_allJobs (q : BullQueue) :
  ids (allJobs q)
  = ids (q_waiting q) ++ ids (q_active q) ++ ids (q_delayed q)
    ++ ids (q_completed q) ++ ids (q_failed q).
Proof. unfold ids, allJobs. by rewrite !fmap_app. Qed.

Lemma wfq_submseteq (n : nat) (q q' : BullQueue) :
  ids (allJobs q') ⊆+ ids (allJobs q) -> wfq n q -> wfq n q'.
Proof.
  intros Hs [Hn Hf]. split; eauto using NoDup_submseteq_inv, Forall_submseteq_inv.
Qed.

Lemma wfq_mono (n m : nat) (q : BullQueue) : n <= m -> wfq n q -> wfq m q.
Proof.
  intros Hle [Hn Hf]. split; [done |].
  eapply Forall_impl; [exact Hf |]. cbn. lia.
Qed.

Lemma wfq_newQueue (n ref : nat) (unitId : string) : wfq n (newQueue ref unitId).
Proof. split; cbn; constructor. Qed.

Lemma without_submseteq (i : JobId) (l : list Job) : ids (without i l) ⊆+ ids l.
Proof.
  apply sublist_submseteq. unfold ids, without.
  apply fmap_sublist, sublist_filter.
Qed.

Lemma without_cons_submseteq (j : Job) (l : list Job) :
  j ∈ l -> id j :: ids (without (id j) l) ⊆+ ids l.
Proof.
  induction l as [| x l IH]; intros Hj; [by apply elem_of_nil in Hj |].
  unfold without in *. destruct (decide (id x = id j)) as [He | Hne].
  - rewrite filter_cons_False by (intros H; by apply H).
    cbn. rewrite He. apply submseteq_skip, without_submseteq.
  - rewrite filter_cons_True by done.
    apply elem_of_cons in Hj as [-> | Hj]; [done |].
    cbn. etrans; [apply submseteq_swap |]. apply submseteq_skip, IH, Hj.
Qed.

Lemma take_submseteq (n : nat) (l : list Job) : ids (take n l) ⊆+ ids l.
Proof. apply sublist_submseteq, fmap_sublist, sublist_take. Qed.

Lemma find_id_None (i : JobId) (l : list Job) :
  i ∉ ids l -> List.find (fun j => bool_decide (id j = i)) l = None.
Proof.
  induction l as [| x l IH]; [done |]. cbn. intros Hn.
  apply not_elem_of_cons in Hn as [Hne Hn].
  rewrite bool_decide_eq_false_2 by done. by apply IH.
Qed.

Lemma find_id_Some (i : JobId) (l : list Job) (j : Job) :
  List.find (fun j => bool_decide (id j = i)) l = Some j -> j ∈ l /\ id j = i.
Proof.
  intros H. apply List.find_some in H as [Hin Hb].
  apply bool_decide_eq_true in Hb. split; [by apply list_elem_of_In | done].
Qed.

Lemma fresh_not_in (n : nat) (q : BullQueue) :
  wfq n q -> MsgId n ∉ ids (allJobs q).
Proof.
  intros [_ Hf] Hin. rewrite Forall_forall in Hf. apply Hf in Hin. cbn in Hin. lia.
Qed.

Lemma bull_add_fresh (n : nat) (j : Job) (q : BullQueue) :
  wfq n q -> id j = MsgId n -> bull_add j q = (j, enqueue [j] q).
Proof.
  intros Hq Hid. unfold bull_add. rewrite Hid.
  by rewrite (find_id_None _ _ (fresh_not_in _ _ Hq)).
Qed.

Lemma wfq_enqueue_fresh (n : nat) (j : Job) (q : BullQueue) :
  wfq n q -> id j = MsgId n -> wfq (S n) (enqueue [j] q).
Proof.
  intros Hq Hid. pose proof (fresh_not_in _ _ Hq) as Hfresh.
  destruct Hq as [Hn Hf]. unfold wfq.
  assert (Hp : ids (allJobs (enqueue [j] q)) ≡ₚ MsgId n :: ids (allJobs q)).
  { rewrite !ids_allJobs. cbn. unfold ids at 1. rewrite fmap_app. cbn.
    rewrite Hid, <- app_assoc. cbn. by rewrite <- Permutation_middle. }
  rewrite Hp. split.
  - by apply NoDup_cons.
  - constructor; [cbn; lia |]. eapply Forall_impl; [exact Hf |]. cbn. lia.
Qed.

Lemma wfq_remove (n : nat) (i : JobId) (q : BullQueue) :
  wfq n q -> wfq n (bull_remove i q).
Proof.
  apply wfq_submseteq. rewrite !ids_allJobs. cbn.
  repeat apply submseteq_app; try apply without_submseteq; reflexivity.
Qed.

Lemma wfq_claim (n : nat) (q : BullQueue) : wfq n q -> wfq n (bull_claim q).
Proof.
  unfold bull_claim.
  destruct (q_closed q) eqn:Hc, (q_active q) eqn:Ha, (q_waiting q) eqn:Hw; try done.
  apply wfq_submseteq. rewrite !ids_allJobs. cbn. rewrite Ha, Hw. cbn.
  apply Permutation_submseteq. by rewrite <- Permutation_middle.
Qed.

Lemma move_submseteq (i : JobId) (W A A' R R' : list JobId) :
  i :: A' ⊆+ A -> R' ⊆+ i :: R -> W ++ A' ++ R' ⊆+ W ++ A ++ R.
Proof.
  intros HA HR. apply submseteq_skips_l.
  etrans; [apply submseteq_skips_l, HR |].
  rewrite <- Permutation_middle. by apply (submseteq_skips_r R) in HA.
Qed.

Lemma wfq_settle (n : nat) (j : Job) (r : outcome HandlerResult) (q : BullQueue) :
  j ∈ q_active q -> wfq n q -> wfq n (bull_settle j r q).
Proof.
  intros Hj. apply wfq_submseteq.
  pose proof (without_cons_submseteq j _ Hj) as HA.
  unfold bull_settle. destruct r as [v | e]; [| case_match];
    rewrite !ids_allJobs; cbn -[take]; apply (move_submseteq (id j)); try done.
  - etrans; [apply submseteq_skips_l, submseteq_skips_r, take_submseteq |].
    cbn. by rewrite <- Permutation_middle.
  - unfold ids at 1. rewrite fmap_app. cbn. rewrite <- app_assoc. cbn.
    by rewrite <- Permutation_middle.
  - etrans; [do 2 apply submseteq_skips_l; apply take_submseteq |].
    cbn. by rewrite <- !Permutation_middle.
Qed.

Lemma wfq_promote (n : nat) (i : JobId) (q : BullQueue) :
  wfq n q -> wfq n (bull_promote i q).
Proof.
  unfold bull_promote.
  destruct (List.find _ (q_delayed q)) as [j |] eqn:Hf; [| done].
  apply find_id_Some in Hf as [Hj <-].
  apply wfq_submseteq. rewrite !ids_allJobs. cbn.
  unfold ids at 1. rewrite fmap_app. cbn. rewrite <- app_assoc. cbn.
  pose proof (without_cons_submseteq j _ Hj) as HD.
  apply submseteq_skips_l.
  rewrite (Permutation_middle (ids (q_active q))).
  apply submseteq_skips_l.
  by apply (submseteq_skips_r (ids (q_completed q) ++ ids (q_failed q))) in HD.
Qed.

Lemma wfq_close (n : nat) (q : BullQueue) : wfq n q -> wfq n (bull_close q).
Proof. by destruct q. Qed.

Variable config : Config.Config.

Lemma getMessageQueue_Some (unitId : string) (st : State) (q : BullQueue) :
  queues st !! unitId = Some q -> getMessageQueue unitId st = (q, st).
Proof. intros H. unfold getMessageQueue. by rewrite H. Qed.

Lemma getMessageQueue_lookup (unitId : string) (st st' : State) (q : BullQueue) :
  getMessageQueue unitId st = (q, st') ->
  queues st' !! unitId = Some q
  /\ next_uuid st' = next_uuid st
  /\ processed st' = processed st
  /\ (forall u, u ≠ unitId -> queues st' !! u = queues st !! u)
  /\ (queues st !! unitId = None -> q = newQueue (next_ref st) unitId).
Proof.
  unfold getMessageQueue. destruct (queues st !! unitId) as [q0 |] eqn:Hq;
    intros [= <- <-]; cbn.
  - done.
  - rewrite lookup_insert_eq. repeat split; try done.
    intros u Hu. by rewrite lookup_insert_ne.
Qed.

Lemma wf_getMessageQueue (unitId : string) (st : State) :
  wf st -> wf (snd (getMessageQueue unitId st)).
Proof.
  intros Hwf. unfold getMessageQueue.
  destruct (queues st !! unitId) as [q0 |] eqn:Hq; [done |]. cbn.
  intros u q. cbn. destruct (decide (unitId = u)) as [<- | Hne].
  - rewrite lookup_insert_eq. intros [= <-]. apply wfq_newQueue.
  - rewrite lookup_insert_ne by done. apply Hwf.
Qed.

Lemma wf_setQueue (unitId : string) (q : BullQueue) (st : State) :
  wf st -> wfq (next_uuid st) q -> wf (setQueue unitId q st).
Proof.
  intros Hwf Hq u q'. cbn. destruct (decide (unitId = u)) as [<- | Hne].
  - rewrite lookup_insert_eq. by intros [= <-].
  - rewrite lookup_insert_ne by done. apply Hwf.
Qed.

Lemma enqueue_enqueue (js ks : list Job) (q : BullQueue) :
  enqueue ks (enqueue js q) = enqueue (js ++ ks) q.
Proof. unfold enqueue. cbn. by rewrite app_assoc. Qed.

Lemma enqueue_nil (q : BullQueue) : enqueue [] q = q.
Proof. destruct q. unfold enqueue. cbn. by rewrite app_nil_r. Qed.

Lemma addFor_spec (unitId : string) (pm : ProcessedMessage) (d : bool)
    (r : string) (st : State) (q : BullQueue) :
  wf st -> queues st !! unitId = Some q ->
  addFor config unitId pm d r st
  = ((MsgId (next_uuid st), r),
     {| queues := <[unitId := enqueue [newJob config (MsgId (next_uuid st)) r pm d] q]>
                    (queues st);
        next_ref := next_ref st; next_uuid := S (next_uuid st);
        processed := processed st |}).
Proof.
  intros Hwf Hq. unfold addFor. cbn. rewrite Hq.
  by rewrite (bull_add_fresh (next_uuid st)) by eauto.
Qed.

Lemma wf_addFor (unitId : string) (pm : ProcessedMessage) (d : bool)
    (r : string) (st : State) :
  wf st -> wf (snd (addFor config unitId pm d r st)).
Proof.
  intros Hwf. destruct (queues st !! unitId) as [q |] eqn:Hq.
  - rewrite (addFor_spec _ _ _ _ _ q) by done. cbn.
    intros u q'. cbn. destruct (decide (unitId = u)) as [<- | Hne].
    + rewrite lookup_insert_eq. intros [= <-].
      apply wfq_enqueue_fresh; eauto.
    + rewrite lookup_insert_ne by done. intros Hu.
      eapply wfq_mono; [| by eapply Hwf]. lia.
  - unfold addFor. cbn. rewrite Hq. cbn. intros u q' Hu. cbn in *.
    eapply wfq_mono; [| by eapply Hwf]. lia.
Qed.

Lemma addAll_spec (unitId : string) (pm : ProcessedMessage) (d : bool)
    (rs : list string) (st : State) (q : BullQueue) :
  wf st -> queues st !! unitId = Some q ->
  addAll config unitId pm d rs st
  = (zip (MsgId <$> seq (next_uuid st) (length rs)) rs,
     {| queues := <[unitId := enqueue (newJobsFrom config (next_uuid st) rs pm d) q]>
                    (queues st);
        next_ref := next_ref st; next_uuid := next_uuid st + length rs;
        processed := processed st |}).
Proof.
  revert st q. induction rs as [| r rs IH]; intros st q Hwf Hq.
  - cbn. rewrite enqueue_nil, insert_id by done. rewrite Nat.add_0_r.
    by destruct st.
  - cbn [addAll]. pose proof (wf_addFor unitId pm d r st Hwf) as Hwf1.
    rewrite (addFor_spec _ _ _ _ _ q) in * by done. cbn [snd] in Hwf1.
    erewrite IH; [| exact Hwf1 | cbn; apply lookup_insert_eq].
    cbn. rewrite insert_insert_eq, enqueue_enqueue. cbn.
    by rewrite Nat.add_succ_r.
Qed.

Lemma wf_addAll (unitId : string) (pm : ProcessedMessage) (d : bool)
    (rs : list string) (st : State) :
  wf st -> wf (snd (addAll config unitId pm d rs st)).
Proof.
  revert st. induction rs as [| r rs IH]; intros st Hwf; [done |].
  cbn [addAll]. pose proof (wf_addFor unitId pm d r st Hwf) as Hwf1.
  destruct (addFor config unitId pm d r st) as [j st1]. cbn [snd] in Hwf1.
  specialize (IH st1 Hwf1).
  by destruct (addAll config unitId pm d rs st1) as [js st2].
Qed.

Lemma wf_queueMessage (unitId : string) (rs : Recipients) (m : Message)
    (d : bool) (st : State) :
  wf st -> wf (snd (queueMessage config unitId rs m d st)).
Proof.
  intros Hwf. unfold queueMessage.
  pose proof (wf_getMessageQueue unitId st Hwf) as Hwf1.
  destruct (getMessageQueue unitId st) as [q st1]. cbn [snd] in Hwf1.
  destruct (processMessageContent m) as [pm | e]; [| done].
  pose proof (wf_addAll unitId pm d (recipientList rs) st1 Hwf1) as Hwf2.
  by destruct (addAll config unitId pm d (recipientList rs) st1) as [js st2].
Qed.

Lemma getQueueStats_state (unitId : string) (st : State) :
  snd (getQueueStats unitId st) = snd (getMessageQueue unitId st).
Proof. unfold getQueueStats. by destruct (getMessageQueue unitId st). Qed.

Lemma wf_statsOf (units : list string) (st : State) :
  wf st -> wf (snd (statsOf units st)).
Proof.
  revert st. induction units as [| u units IH]; intros st Hwf; [done |].
  cbn [statsOf]. pose proof (wf_getMessageQueue u st Hwf) as Hwf1.
  rewrite <- getQueueStats_state in Hwf1.
  destruct (getQueueStats u st) as [s st1]. cbn [snd] in Hwf1.
  specialize (IH st1 Hwf1). by destruct (statsOf units st1).
Qed.

Lemma wf_removeJob (unitId : string) (i : JobId) (st : State) :
  wf st -> wf (removeJob unitId i st).
Proof.
  intros Hwf. unfold removeJob. destruct (queues st !! unitId) as [q |] eqn:Hq; [| done].
  apply wf_setQueue; [done |]. apply wfq_remove. by eapply Hwf.
Qed.

Lemma wf_closeAllQueues (st : State) : wf st -> wf (closeAllQueues st).
Proof.
  intros Hwf u q. cbn. rewrite lookup_fmap.
  destruct (queues st !! u) as [q0 |] eqn:Hq; [| done].
  intros [= <-]. apply wfq_close. by eapply Hwf.
Qed.

Lemma wf_claim (unitId : string) (st : State) : wf st -> wf (claim unitId st).
Proof.
  intros Hwf. unfold claim. destruct (queues st !! unitId) as [q |] eqn:Hq; [| done].
  apply wf_setQueue; [done |]. apply wfq_claim. by eapply Hwf.
Qed.

Lemma wf_settle (w : World) (unitId : string) (st : State) :
  wf st -> wf (settle config w unitId st).
Proof.
  intros Hwf. unfold settle. destruct (queues st !! unitId) as [q |] eqn:Hq; [| done].
  destruct (q_active q) as [| j rest] eqn:Ha; [done |].
  destruct (processor config w unitId j) as [t r].
  apply (wf_setQueue unitId _ {| queues := queues st; next_ref := next_ref st;
                                 next_uuid := next_uuid st;
                                 processed := processed st ++ [(unitId, id j)] |});
    [done |].
  cbn. apply wfq_settle; [rewrite Ha; left | by eapply Hwf].
Qed.

Lemma wf_promote (unitId : string) (i : JobId) (st : State) :
  wf st -> wf (promote unitId i st).
Proof.
  intros Hwf. unfold promote. destruct (queues st !! unitId) as [q |] eqn:Hq; [| done].
  apply wf_setQueue; [done |]. apply wfq_promote. by eapply Hwf.
Qed.

Lemma wf_exec (o : Op) (st : State) : wf st -> wf (exec config o st).
Proof.
  destruct o; cbn; intros Hwf.
  - by apply wf_queueMessage.
  - rewrite getQueueStats_state. by apply wf_getMessageQueue.
  - by apply wf_statsOf.
  - by apply wf_getMessageQueue.
  - by apply wf_removeJob.
  - by apply wf_closeAllQueues.
  - by apply wf_claim.
  - by apply wf_settle.
  - by apply wf_promote.
Qed.

Lemma wf_run (ops : list Op) (st : State) : wf st -> wf (run config ops st).
Proof.
  revert st. induction ops as [| o ops IH]; intros st Hwf; [done |].
  cbn. apply IH. by apply wf_exec.
Qed.

Lemma wf_init : wf init.
Proof. intros u q. cbn. by rewrite lookup_empty. Qed.

End QueueInvariant.

(** ** The registry of queues *)

Section Registry.
Import Helpers Whatsapp Queue.
Variable config : Config.Config.

Lemma keeps_refl (st : State) : keeps st st.
Proof. intros u q Hq. eauto. Qed.

Lemma keeps_trans (st1 st2 st3 : State) :
  keeps st1 st2 -> keeps st2 st3 -> keeps st1 st3.
Proof.
  intros H12 H23 u q Hq. apply H12 in Hq as (q2 & Hq2 & <-).
  apply H23 in Hq2 as (q3 & Hq3 & <-). eauto.
Qed.

Lemma keeps_setQueue (unitId : string) (q q' : BullQueue) (st : State) :
  queues st !! unitId = Some q -> q_ref q' = q_ref q ->
  keeps st (setQueue unitId q' st).
Proof.
  intros Hq Href u q0 Hu. cbn. destruct (decide (unitId = u)) as [<- | Hne].
  - rewrite lookup_insert_eq. exists q'. split; [done |]. congruence.
  - rewrite lookup_insert_ne by done. eauto.
Qed.

Lemma keeps_getMessageQueue (unitId : string) (st : State) :
  keeps st (snd (getMessageQueue unitId st)).
Proof.
  unfold getMessageQueue. destruct (queues st !! unitId) as [q |] eqn:Hq; cbn.
  - apply keeps_refl.
  - intros u q0 Hu. cbn. rewrite lookup_insert_ne by congruence. eauto.
Qed.

Lemma bull_add_ref (j : Job) (q : BullQueue) : q_ref (snd (bull_add j q)) = q_ref q.
Proof. unfold bull_add. by destruct (List.find _ _). Qed.

Lemma bull_claim_ref (q : BullQueue) : q_ref (bull_claim q) = q_ref q.
Proof. unfold bull_claim. by repeat case_match. Qed.

Lemma bull_settle_ref (j : Job) (r : outcome HandlerResult) (q : BullQueue) :
  q_ref (bull_settle j r q) = q_ref q.
Proof. unfold bull_settle. by repeat case_match. Qed.

Lemma bull_promote_ref (i : JobId) (q : BullQueue) : q_ref (bull_promote i q) = q_ref q.
Proof. unfold bull_promote. by case_match. Qed.

Lemma keeps_addFor (unitId : string) (pm : ProcessedMessage) (d : bool)
    (r : string) (st : State) :
  keeps st (snd (addFor config unitId pm d r st)).
Proof.
  unfold addFor. cbn. destruct (queues st !! unitId) as [q |] eqn:Hq.
  - pose proof (bull_add_ref (newJob config (MsgId (next_uuid st)) r pm d) q) as Href.
    destruct (bull_add _ q) as [j q']. cbn in *.
    intros u q0 Hu. cbn. destruct (decide (unitId = u)) as [<- | Hne].
    + rewrite lookup_insert_eq. exists q'. split; [done |]. congruence.
    + rewrite lookup_insert_ne by done. eauto.
  - cbn. intros u q0 Hu. eauto.
Qed.

Lemma keeps_addAll (unitId : string) (pm : ProcessedMessage) (d : bool)
    (rs : list string) (st : State) :
  keeps st (snd (addAll config unitId pm d rs st)).
Proof.
  revert st. induction rs as [| r rs IH]; intros st; [apply keeps_refl |].
  cbn [addAll]. pose proof (keeps_addFor unitId pm d r st) as H1.
  destruct (addFor config unitId pm d r st) as [j st1]. cbn [snd] in H1.
  specialize (IH st1). destruct (addAll config unitId pm d rs st1) as [js st2].
  cbn [snd] in *. by eapply keeps_trans.
Qed.

Lemma keeps_statsOf (units : list string) (st : State) :
  keeps st (snd (statsOf units st)).
Proof.
  revert st. induction units as [| u units IH]; intros st; [apply keeps_refl |].
  cbn [statsOf]. pose proof (keeps_getMessageQueue u st) as H1.
  rewrite <- getQueueStats_state in H1.
  destruct (getQueueStats u st) as [s st1]. cbn [snd] in H1.
  specialize (IH st1). destruct (statsOf units st1) as [ss st2].
  cbn [snd] in *. by eapply keeps_trans.
Qed.

Lemma keeps_exec (o : Op) (st : State) : keeps st (exec config o st).
Proof.
  destruct o as [u rs m d | u | | u | u i | | u | w u | u i]; cbn.
  - unfold queueMessage. pose proof (keeps_getMessageQueue u st) as H1.
    destruct (getMessageQueue u st) as [q st1]. cbn [snd] in H1.
    destruct (processMessageContent m) as [pm | e]; [| done].
    pose proof (keeps_addAll u pm d (recipientList rs) st1) as H2.
    destruct (addAll _ _ _ _ _ st1) as [js st2]. cbn [snd] in *.
    by eapply keeps_trans.
  - rewrite getQueueStats_state. apply keeps_getMessageQueue.
  - apply keeps_statsOf.
  - apply keeps_getMessageQueue.
  - unfold removeJob. destruct (queues st !! u) as [q |] eqn:Hq; [| apply keeps_refl].
    by eapply keeps_setQueue.
  - intros u q Hq. cbn. rewrite lookup_fmap, Hq. cbn. eauto.
  - unfold claim. destruct (queues st !! u) as [q |] eqn:Hq; [| apply keeps_refl].
    eapply keeps_setQueue; [exact Hq | apply bull_claim_ref].
  - unfold settle. destruct (queues st !! u) as [q |] eqn:Hq; [| apply keeps_refl].
    destruct (q_active q) as [| j rest]; [apply keeps_refl |].
    destruct (processor config w u j) as [t r].
    intros u' q0 Hu. cbn. destruct (decide (u = u')) as [<- | Hne].
    + rewrite lookup_insert_eq. eexists. split; [done |].
      rewrite bull_settle_ref. congruence.
    + rewrite lookup_insert_ne by done. eauto.
  - unfold promote. destruct (queues st !! u) as [q |] eqn:Hq; [| apply keeps_refl].
    eapply keeps_setQueue; [exact Hq | apply bull_promote_ref].
Qed.

Lemma keeps_run (ops : list Op) (st : State) : keeps st (run config ops st).
Proof.
  revert st. induction ops as [| o ops IH]; intros st; [apply keeps_refl |].
  cbn. eapply keeps_trans; [apply keeps_exec | apply IH].
Qed.

(** C9. Asking twice for the queue of a unit id returns the same queue
    object and leaves the registry as it is after the first call; and
    whatever the service does afterwards, the unit id stays registered
    with that same object, which is what the next call returns. *)
Theorem getMessageQueue_same_instance (unitId : string) (st : State) (ops : list Op) :
  let '(queue, st1) := getMessageQueue unitId st in
  getMessageQueue unitId st1 = (queue, st1)
  /\ exists queue',
       queues (run config ops st1) !! unitId = Some queue'
       /\ q_ref queue' = q_ref queue
       /\ getMessageQueue unitId (run config ops st1) = (queue', run config ops st1).
Proof.
  destruct (getMessageQueue unitId st) as [queue st1] eqn:Hg.
  apply getMessageQueue_lookup in Hg as (Hq & _). split.
  - by apply getMessageQueue_Some.
  - destruct (keeps_run ops st1 _ _ Hq) as (queue' & Hq' & Href).
    exists queue'. repeat split; try done. by apply getMessageQueue_Some.
Qed.

(** C2. For a unit id that has no queue, the statistics query does not
    fail: it registers a new queue for the unit id and answers with zero
    counts; and likewise clearing answers with [removedCount = 0] after
    registering the queue. *)
Theorem stats_and_clear_of_unknown_unit_register_it (unitId : string) (st : State) :
  queues st !! unitId = None ->
  let st' := {| queues := <[unitId := newQueue (next_ref st) unitId]> (queues st);
                next_ref := S (next_ref st); next_uuid := next_uuid st;
                processed := processed st |} in
  getQueueStats unitId st = (zeroStats unitId, st')
  /\ clearQueue config unitId [] [] uninterrupted st
     = ({| cr_success := true; removedCount := 0 |}, st')
  /\ queues st' !! unitId = Some (newQueue (next_ref st) unitId)
  /\ queues st' ≠ queues st.
Proof.
  intros Hq. cbn. unfold getQueueStats, clearQueue, getMessageQueue, jobsOf.
  rewrite Hq. cbn. rewrite lookup_insert_eq.
  repeat split; try done.
  intros Heq. by rewrite <- Heq, lookup_insert_eq in Hq.
Qed.

End Registry.

Section RegistryExamples.
Import Helpers Whatsapp Queue Examples.

Lemma stats_and_clear_of_unknown_unit_register_it_witness :
  queues init !! "ghost" = None
  /\ getQueueStats "ghost" init
      = (zeroStats "ghost",
         {| queues := <["ghost" := newQueue 0 "ghost"]> ∅; next_ref := 1;
            next_uuid := 0; processed := [] |})
  /\ removedCount (fst (clearQueue exampleConfig "ghost" [] [] uninterrupted init)) = 0.
Proof.
  split; [reflexivity |].
  destruct (stats_and_clear_of_unknown_unit_register_it exampleConfig "ghost" init)
    as (Hs & Hc & _); [reflexivity |].
  split; [exact Hs | by rewrite Hc].
Defined.

End RegistryExamples.

(** ** Clearing a queue *)

Section Clearing.
Import Helpers Whatsapp Queue Examples.
Variable config : Config.Config.






(** A call of [clearQueue], interrupted or not, is a sequence of steps, so
    what every sequence of steps keeps, the call keeps. *)
Lemma removeAll_steps (unitId : string) (beforeRemove : nat -> list Op) (k : nat)
    (rm : list JobId) (st : State) :
  exists ops, removeAll config unitId beforeRemove k rm st = run config ops st.
Proof.
  revert k st. induction rm as [| i rm IH]; intros k st; [by exists [] |].
  cbn [removeAll].
  destruct (IH (S k) (removeJob unitId i (run config (beforeRemove k) st))) as [ops ->].
  exists (beforeRemove k ++ OpRemoveJob unitId i :: ops).
  unfold run. by rewrite foldl_app.
Qed.

Lemma clearQueue_steps (unitId : string) (beforeWaiting beforeDelayed : list Op)
    (beforeRemove : nat -> list Op) (st : State) :
  exists ops,
    snd (clearQueue config unitId beforeWaiting beforeDelayed beforeRemove st)
    = run config ops st.
Proof.
  unfold clearQueue. destruct (getMessageQueue unitId st) as [q st0] eqn:Hg. cbn [snd].
  destruct (removeAll_steps unitId beforeRemove 0
              (ids (jobsOf unitId q_waiting (run config beforeWaiting st0))
               ++ ids (jobsOf unitId q_delayed
                         (run config beforeDelayed (run config beforeWaiting st0))))
              (run config beforeDelayed (run config beforeWaiting st0))) as [ops ->].
  exists (OpGetMessageQueue unitId :: beforeWaiting ++ beforeDelayed ++ ops).
  unfold run. cbn [foldl exec]. rewrite Hg. cbn [snd]. by rewrite !foldl_app.
Qed.


End Clearing.

Section ClearingExamples.
Import Helpers Whatsapp Queue Examples.



End ClearingExamples.

(** ** Queueing a message *)

Section Enqueue.
Import Helpers Whatsapp Queue Examples.
Variable config : Config.Config.

Lemma ids_newJobsFrom (n : nat) (rs : list string) (pm : ProcessedMessage) (d : bool) :
  ids (newJobsFrom config n rs pm d) = MsgId <$> seq n (length rs).
Proof.
  revert n. induction rs as [| r rs IH]; intros n; [done |].
  cbn. f_equal. apply IH.
Qed.

Lemma recipients_newJobsFrom (n : nat) (rs : list string) (pm : ProcessedMessage)
    (d : bool) :
  (fun j => recipient (data j)) <$> newJobsFrom config n rs pm d = rs.
Proof.
  revert n. induction rs as [| r rs IH]; intros n; [done |].
  cbn. f_equal. apply IH.
Qed.

Lemma newJobsFrom_fresh (n : nat) (rs : list string) (pm : ProcessedMessage)
    (d : bool) (j : Job) :
  j ∈ newJobsFrom config n rs pm d ->
  n <= uuidOf (id j)
  /\ data j = {| recipient := recipient (data j); message := pm; debugMode := d |}
  /\ attemptsMade j = 0 /\ attempts j = Config.retryCount config
  /\ backoffDelay j = Config.retryDelay config.
Proof.
  revert n. induction rs as [| r rs IH]; intros n Hj; [by apply elem_of_nil in Hj |].
  cbn in Hj. apply elem_of_cons in Hj as [-> | Hj]; [cbn; by repeat split |].
  apply IH in Hj as (Hle & ?). split; [lia | done].
Qed.

Lemma created_job (n : nat) (rs : list string) (pm : ProcessedMessage) (d : bool)
    (i : JobId) (r : string) :
  (i, r) ∈ zip (ids (newJobsFrom config n rs pm d)) rs ->
  exists j, j ∈ newJobsFrom config n rs pm d
    /\ id j = i /\ recipient (data j) = r /\ debugMode (data j) = d.
Proof.
  intros Hin. apply elem_of_lookup_zip_with in Hin as (k & i' & r' & [= <- <-] & Hi & Hr).
  unfold ids in Hi. apply list_lookup_fmap_Some in Hi as (j & -> & Hj).
  pose proof (recipients_newJobsFrom n rs pm d) as Hrs.
  apply (f_equal (fun l => l !! k)) in Hrs.
  rewrite list_lookup_fmap, Hj, Hr in Hrs. injection Hrs as Hrs.
  apply list_elem_of_lookup_2 in Hj. exists j. repeat split; try done.
  apply newJobsFrom_fresh in Hj as (_ & -> & _). done.
Qed.

Lemma settle_frame (w : World) (unitId : string) (st : State) (q : BullQueue) :
  queues st !! unitId = Some q ->
  exists q', queues (settle config w unitId st) !! unitId = Some q'
    /\ q_waiting q' = q_waiting q
    /\ q_delayed q `prefix_of` q_delayed q'.
Proof.
  intros Hq. unfold settle. rewrite Hq.
  destruct (q_active q) as [| j rest]; [by exists q |].
  destruct (processor config w unitId j) as [t r]. cbn.
  rewrite lookup_insert_eq. eexists. split; [done |].
  unfold bull_settle. destruct r as [v | e]; [| case_match]; cbn;
    split; try done. by apply prefix_app_r.
Qed.

Lemma queueMessage_spec (unitId : string) (recipients : Recipients) (m : Message)
    (d : bool) (st : State) (pm : ProcessedMessage) :
  wf st -> processMessageContent m = Return pm ->
  let rs := recipientList recipients in
  let created := newJobsFrom config (next_uuid st) rs pm d in
  queueMessage config unitId recipients m d st
  = (Return {| jobCount := length rs; jobs := zip (ids created) rs |},
     {| queues := <[unitId := enqueue created (fst (getMessageQueue unitId st))]>
                    (queues (snd (getMessageQueue unitId st)));
        next_ref := next_ref (snd (getMessageQueue unitId st));
        next_uuid := next_uuid st + length rs;
        processed := processed st |}).
Proof.
  intros Hwf Hpm rs created.
  pose proof (wf_getMessageQueue unitId st Hwf) as Hwf0.
  unfold queueMessage.
  destruct (getMessageQueue unitId st) as [q st0] eqn:Hg. cbn [fst snd] in *.
  apply getMessageQueue_lookup in Hg as (Hq & Hu & Hp & _).
  rewrite Hpm. fold rs.
  rewrite (addAll_spec config unitId pm d rs st0 q Hwf0 Hq).
  rewrite length_zip_with_r_eq; [| by rewrite length_fmap, length_seq].
  subst created. by rewrite ids_newJobsFrom, Hu, Hp.
Qed.

(** C6. A request whose content classifies creates one waiting job per
    recipient (the one recipient of a request that names a single number,
    every element of the array otherwise), in the order of the recipients
    and behind the jobs already waiting, each with a job id of its own
    that no job of the queue has and with its own attempts still to make,
    and returns their number as [jobCount]; the queues of other units are
    untouched, the total of the statistics grows by that number, and
    settling the job the worker holds, whatever its outcome, changes no
    waiting job and keeps every delayed job. *)
Theorem queueMessage_one_job_per_recipient (unitId : string)
    (recipients : Recipients) (m : Message) (d : bool) (st : State)
    (pm : ProcessedMessage) :
  wf st -> processMessageContent m = Return pm ->
  let rs := match recipients with
            | One recipient => [recipient]
            | Many recipients => recipients
            end in
  let q := fst (getMessageQueue unitId st) in
  let created := newJobsFrom config (next_uuid st) rs pm d in
  exists st',
    queueMessage config unitId recipients m d st
    = (Return {| jobCount := length rs; jobs := zip (ids created) rs |}, st')
    /\ queues st' !! unitId = Some (enqueue created q)
    /\ (forall u, u ≠ unitId -> queues st' !! u = queues st !! u)
    /\ length created = length rs
    /\ (fun j => recipient (data j)) <$> created = rs
    /\ NoDup (ids created)
    /\ (forall i, i ∈ ids created -> i ∉ ids (allJobs q))
    /\ (forall j, j ∈ created ->
          attemptsMade j = 0 /\ attempts j = Config.retryCount config)
    /\ total (fst (getQueueStats unitId st'))
       = total (fst (getQueueStats unitId st)) + length rs
    /\ (forall w s q0, queues s !! unitId = Some q0 ->
          exists q1, queues (settle config w unitId s) !! unitId = Some q1
            /\ q_waiting q1 = q_waiting q0
            /\ q_delayed q0 `prefix_of` q_delayed q1).
Proof.
  intros Hwf Hpm rs q created.
  pose proof (wf_getMessageQueue unitId st Hwf) as Hwf0.
  rewrite (queueMessage_spec unitId recipients m d st pm Hwf Hpm).
  assert (Hrs : recipientList recipients = rs) by (by destruct recipients).
  rewrite Hrs. fold created. unfold getQueueStats. subst q.
  destruct (getMessageQueue unitId st) as [q st0] eqn:Hg. cbn [fst snd] in *.
  apply getMessageQueue_lookup in Hg as (Hq & Hu & Hp & Hother & _).
  assert (Hlen : length created = length rs).
  { rewrite <- (length_fmap id). fold (ids created). unfold created.
    by rewrite ids_newJobsFrom, length_fmap, length_seq. }
  eexists. split; [done |].
  split; [cbn; by rewrite lookup_insert_eq |].
  split; [intros u Hne; cbn; rewrite lookup_insert_ne by done; by apply Hother |].
  split; [done |].
  split; [unfold created; apply recipients_newJobsFrom |].
  split.
  { unfold created. rewrite ids_newJobsFrom.
    apply NoDup_fmap_2; [by intros ?? [=] | apply NoDup_seq]. }
  split.
  { intros i Hi Hin. unfold created in Hi. rewrite ids_newJobsFrom in Hi.
    apply list_elem_of_fmap in Hi as (n & -> & Hn). apply elem_of_seq in Hn.
    destruct (Hwf0 _ _ Hq) as [_ Hf]. rewrite Forall_forall in Hf.
    apply Hf in Hin. cbn in Hin. lia. }
  split.
  { intros j Hj. by apply newJobsFrom_fresh in Hj as (_ & _ & ? & ? & _). }
  split.
  { subst created. unfold getMessageQueue. cbn. rewrite lookup_insert_eq. cbn.
    rewrite length_app, Hlen. lia. }
  intros w s q0 Hq0. by apply settle_frame.
Qed.

End Enqueue.

Section EnqueueExamples.
Import Helpers Whatsapp Queue Examples.

Lemma queueMessage_one_job_per_recipient_witness :
  wf init
  /\ processMessageContent textMessage = Return textContent
  /\ (exists st',
        queueMessage exampleConfig "u1" (Many ["15551230001"; "15551230002"])
          textMessage false init
        = (Return {| jobCount := 2;
                     jobs := [(MsgId 0, "15551230001"); (MsgId 1, "15551230002")] |},
           st'))
  /\ (exists st',
        queueMessage exampleConfig "u1" (One "15551234567") textMessage false init
        = (Return {| jobCount := 1; jobs := [(MsgId 0, "15551234567")] |}, st')
        /\ q_waiting (queueOf "u1" st')
           = [newJob exampleConfig (MsgId 0) "15551234567" textContent false]).
Proof.
  assert (Hpm : processMessageContent textMessage = Return textContent)
    by (vm_compute; reflexivity).
  split; [apply wf_init |]. split; [exact Hpm |]. split.
  - destruct (queueMessage_one_job_per_recipient exampleConfig "u1"
                (Many ["15551230001"; "15551230002"]) textMessage false init
                textContent wf_init Hpm) as (st' & Hq & _).
    exists st'. exact Hq.
  - destruct (queueMessage_one_job_per_recipient exampleConfig "u1"
                (One "15551234567") textMessage false init
                textContent wf_init Hpm) as (st' & Hq & Hst & _).
    exists st'. split; [exact Hq |]. unfold queueOf. rewrite Hst. reflexivity.
Defined.

End EnqueueExamples.

(** ** Jobs that are done *)

Section Retirement.
Import Helpers Whatsapp Queue.
Variable config : Config.Config.

Lemma pendingIds_eq (q : BullQueue) :
  pendingIds q = ids (q_waiting q) ++ ids (q_active q) ++ ids (q_delayed q).
Proof. unfold pendingIds, ids. by rewrite !fmap_app. Qed.

Lemma elem_of_without (i k : JobId) (l : list Job) :
  k ∈ ids (without i l) -> k ∈ ids l.
Proof. intros H. eapply elem_of_submseteq; [exact H | apply without_submseteq]. Qed.

Lemma pending_remove (i k : JobId) (q : BullQueue) :
  k ∈ pendingIds (bull_remove i q) -> k ∈ pendingIds q.
Proof.
  rewrite !pendingIds_eq. cbn. rewrite !elem_of_app.
  intros [H | [H | H]]; eauto using elem_of_without.
Qed.

Lemma pending_claim (k : JobId) (q : BullQueue) :
  k ∈ pendingIds (bull_claim q) -> k ∈ pendingIds q.
Proof.
  unfold bull_claim.
  destruct (q_closed q) eqn:Hc, (q_active q) eqn:Ha, (q_waiting q) eqn:Hw; try done.
  rewrite !pendingIds_eq. cbn. rewrite Ha, Hw. cbn.
  unfold ids. rewrite ?elem_of_app, ?elem_of_cons, ?elem_of_app. tauto.
Qed.

Lemma pending_settle (k : JobId) (j : Job) (r : outcome HandlerResult) (q : BullQueue) :
  j ∈ q_active q -> k ∈ pendingIds (bull_settle j r q) -> k ∈ pendingIds q.
Proof.
  intros Hj. unfold bull_settle.
  destruct r as [v | e]; [| destruct (Z.of_nat _ <? _)%Z];
    rewrite !pendingIds_eq; cbn; rewrite !elem_of_app.
  - intros [Hk | [Hk | Hk]]; eauto using elem_of_without.
  - unfold ids at 3. rewrite fmap_app, elem_of_app. cbn.
    rewrite elem_of_cons, elem_of_nil.
    intros [Hk | [Hk | [Hk | [-> | []]]]]; eauto using elem_of_without.
    right. left. by apply list_elem_of_fmap_2.
  - intros [Hk | [Hk | Hk]]; eauto using elem_of_without.
Qed.

Lemma pending_promote (i k : JobId) (q : BullQueue) :
  k ∈ pendingIds (bull_promote i q) -> k ∈ pendingIds q.
Proof.
  unfold bull_promote.
  destruct (List.find _ (q_delayed q)) as [j |] eqn:Hf; [| done].
  apply find_id_Some in Hf as [Hj <-].
  rewrite !pendingIds_eq. cbn. unfold ids at 1. rewrite fmap_app. cbn.
  rewrite !elem_of_app, elem_of_cons, elem_of_nil.
  intros [[H | [-> | []]] | [H | H]]; eauto using elem_of_without.
  right. right. by apply list_elem_of_fmap_2.
Qed.

Lemma retired_setQueue (unitId u : string) (i : JobId) (q q' : BullQueue) (st : State) :
  queues st !! u = Some q ->
  (forall k, k ∈ pendingIds q' -> k ∈ pendingIds q) ->
  retired unitId i st -> retired unitId i (setQueue u q' st).
Proof.
  intros Hq Hsub [Hlt Hr]. split; [done |]. cbn. intros q0.
  destruct (decide (u = unitId)) as [-> | Hne].
  - rewrite lookup_insert_eq. intros [= <-] Hin. by eapply Hr, Hsub.
  - rewrite lookup_insert_ne by done. apply Hr.
Qed.

Lemma retired_getMessageQueue (unitId u : string) (i : JobId) (st : State) :
  retired unitId i st -> retired unitId i (snd (getMessageQueue u st)).
Proof.
  intros [Hlt Hr]. unfold getMessageQueue.
  destruct (queues st !! u) as [q |] eqn:Hq; [done |]. split; [done |].
  cbn. intros q0. destruct (decide (u = unitId)) as [-> | Hne].
  - rewrite lookup_insert_eq. intros [= <-]. apply not_elem_of_nil.
  - rewrite lookup_insert_ne by done. apply Hr.
Qed.

Lemma retired_addFor (unitId u : string) (i : JobId) (pm : ProcessedMessage)
    (d : bool) (r : string) (st : State) :
  retired unitId i st -> retired unitId i (snd (addFor config u pm d r st)).
Proof.
  intros [Hlt Hr]. unfold addFor. cbn.
  destruct (queues st !! u) as [q |] eqn:Hq; [| split; cbn; [lia | done]].
  unfold bull_add. destruct (List.find _ (allJobs q)) as [j |]; cbn.
  - split; cbn; [lia |]. intros q0. destruct (decide (u = unitId)) as [-> | Hne].
    + rewrite lookup_insert_eq. intros [= <-]. by apply Hr.
    + rewrite lookup_insert_ne by done. apply Hr.
  - split; cbn; [lia |]. intros q0. destruct (decide (u = unitId)) as [-> | Hne].
    + rewrite lookup_insert_eq. intros [= <-]. rewrite pendingIds_eq. cbn.
      rewrite fmap_app. cbn.
      rewrite !elem_of_app, elem_of_cons, elem_of_nil.
      intros [[Hk | [-> | []]] | Hk].
      * apply (Hr _ Hq). rewrite pendingIds_eq, !elem_of_app. tauto.
      * cbn in Hlt. lia.
      * apply (Hr _ Hq). rewrite pendingIds_eq, !elem_of_app. tauto.
    + rewrite lookup_insert_ne by done. apply Hr.
Qed.

Lemma processed_addFor (u : string) (pm : ProcessedMessage) (d : bool)
    (r : string) (st : State) :
  processed (snd (addFor config u pm d r st)) = processed st.
Proof.
  unfold addFor. cbn. destruct (queues st !! u); [| done].
  by destruct (bull_add _ _).
Qed.

Lemma retired_addAll (unitId u : string) (i : JobId) (pm : ProcessedMessage)
    (d : bool) (rs : list string) (st : State) :
  retired unitId i st ->
  retired unitId i (snd (addAll config u pm d rs st))
  /\ processed (snd (addAll config u pm d rs st)) = processed st.
Proof.
  revert st. induction rs as [| r rs IH]; intros st Hr; [done |].
  cbn [addAll]. pose proof (retired_addFor unitId u i pm d r st Hr) as H1.
  pose proof (processed_addFor u pm d r st) as P1.
  destruct (addFor config u pm d r st) as [j st1]. cbn [snd] in *.
  destruct (IH st1 H1) as [H2 P2].
  destruct (addAll config u pm d rs st1) as [js st2]. cbn [snd] in *.
  split; [done | congruence].
Qed.

Lemma processed_getMessageQueue (u : string) (st : State) :
  processed (snd (getMessageQueue u st)) = processed st.
Proof. unfold getMessageQueue. by destruct (queues st !! u). Qed.

Lemma retired_statsOf (unitId : string) (i : JobId) (units : list string) (st : State) :
  retired unitId i st ->
  retired unitId i (snd (statsOf units st))
  /\ processed (snd (statsOf units st)) = processed st.
Proof.
  revert st. induction units as [| u units IH]; intros st Hr; [done |].
  cbn [statsOf]. pose proof (retired_getMessageQueue unitId u i st Hr) as H1.
  pose proof (processed_getMessageQueue u st) as P1.
  rewrite <- getQueueStats_state in H1, P1.
  destruct (getQueueStats u st) as [s st1]. cbn [snd] in *.
  destruct (IH st1 H1) as [H2 P2].
  destruct (statsOf units st1) as [ss st2]. cbn [snd] in *.
  split; [done | congruence].
Qed.

Lemma attemptsOf_processed (unitId : string) (i : JobId) (st st' : State) :
  processed st' = processed st -> attemptsOf unitId i st' = attemptsOf unitId i st.
Proof. unfold attemptsOf. by intros ->. Qed.

(** A retired job stays retired, and the processor never runs for it
    again. *)
Lemma retired_exec (unitId : string) (i : JobId) (o : Op) (st : State) :
  retired unitId i st ->
  retired unitId i (exec config o st)
  /\ attemptsOf unitId i (exec config o st) = attemptsOf unitId i st.
Proof.
  intros Hr. destruct o as [u rs m d | u | | u | u k | | u | w u | u k]; cbn.
  - unfold queueMessage. pose proof (retired_getMessageQueue unitId u i st Hr) as H1.
    pose proof (processed_getMessageQueue u st) as P1.
    destruct (getMessageQueue u st) as [q st1]. cbn [snd] in *.
    destruct (processMessageContent m) as [pm | e];
      [| split; [done | by apply attemptsOf_processed]].
    destruct (retired_addAll unitId u i pm d (recipientList rs) st1 H1) as [H2 P2].
    destruct (addAll _ _ _ _ _ st1) as [js st2]. cbn [snd] in *.
    split; [done |]. apply attemptsOf_processed. congruence.
  - rewrite getQueueStats_state.
    split; [by apply retired_getMessageQueue |].
    apply attemptsOf_processed, processed_getMessageQueue.
  - destruct (retired_statsOf unitId i (unitIds st) st Hr) as [H P].
    split; [done | by apply attemptsOf_processed].
  - split; [by apply retired_getMessageQueue |].
    apply attemptsOf_processed, processed_getMessageQueue.
  - unfold removeJob. destruct (queues st !! u) as [q |] eqn:Hq; [| done].
    split; [| done].
    eapply retired_setQueue; [exact Hq | intros k'; apply pending_remove | done].
  - split; [| done]. destruct Hr as [Hlt Hr]. split; [done |]. cbn.
    intros q. rewrite lookup_fmap.
    destruct (queues st !! unitId) as [q0 |] eqn:Hq; [| done].
    intros [= <-]. exact (Hr q0 eq_refl).
  - unfold claim. destruct (queues st !! u) as [q |] eqn:Hq; [| done].
    split; [| done]. eapply retired_setQueue; [exact Hq | intros k'; apply pending_claim | done].
  - unfold settle. destruct (queues st !! u) as [q |] eqn:Hq; [| done].
    destruct (q_active q) as [| j rest] eqn:Ha; [done |].
    destruct (processor config w u j) as [t r].
    assert (Hj : j ∈ q_active q) by (rewrite Ha; left).
    split.
    + apply (retired_setQueue unitId u i q _
               {| queues := queues st; next_ref := next_ref st;
                  next_uuid := next_uuid st;
                  processed := processed st ++ [(u, id j)] |}); [done | | done].
      intros k. by apply pending_settle.
    + unfold attemptsOf. cbn. rewrite filter_app, length_app.
      rewrite filter_cons_False; [cbn; lia |].
      intros [= -> <-]. destruct Hr as [_ Hr]. apply (Hr _ Hq).
      rewrite pendingIds_eq, !elem_of_app. right. left.
      by apply list_elem_of_fmap_2.
  - unfold promote. destruct (queues st !! u) as [q |] eqn:Hq; [| done].
    split; [| done]. eapply retired_setQueue; [exact Hq | intros k'; apply pending_promote | done].
Qed.

Lemma retired_run (unitId : string) (i : JobId) (ops : list Op) (st : State) :
  retired unitId i st ->
  attemptsOf unitId i (run config ops st) = attemptsOf unitId i st.
Proof.
  revert st. induction ops as [| o ops IH]; intros st Hr; [done |].
  cbn. destruct (retired_exec unitId i o st Hr) as [H1 E1].
  fold (run config ops (exec config o st)). by rewrite IH.
Qed.

End Retirement.

(** ** Delivery attempts *)

Section Delivery.
Import Helpers Whatsapp Queue Examples.
Variable config : Config.Config.

Lemma sendMessage_not_registered (w : World) (unitId recipient number : string)
    (pm : ProcessedMessage) (client : Client) :
  isSessionReady w unitId = true ->
  getClientByUnitId w unitId = Some client ->
  validatePhoneNumber recipient = Some number ->
  isRegisteredUser client (number +:+ "@c.us") = Return false ->
  sendMessage w unitId recipient pm
  = ([], Return (NotRegistered ("Phone number " +:+ number
                                +:+ " is not registered on WhatsApp"))).
Proof.
  intros Hr Hc Hv Hreg. unfold sendMessage. rewrite Hr, Hc, Hv. cbn.
  unfold io_lift. rewrite Hreg. reflexivity.
Qed.

Lemma hasId_head (j : Job) (l : list Job) : hasId (id j) (j :: l) = true.
Proof. cbn. by rewrite bool_decide_eq_true_2. Qed.

Lemma active_not_elsewhere (n : nat) (q : BullQueue) (j : Job) :
  wfq n q -> j ∈ q_active q ->
  (id j ∉ ids (q_waiting q)) /\ (id j ∉ ids (q_delayed q)).
Proof.
  intros [Hn _] Hj. rewrite ids_allJobs in Hn.
  assert (Hi : id j ∈ ids (q_active q)) by (by apply list_elem_of_fmap_2).
  apply NoDup_app in Hn as (_ & HW & Hn).
  apply NoDup_app in Hn as (_ & HA & _). split.
  - intros Hin. apply (HW _ Hin). rewrite elem_of_app. by left.
  - intros Hin. apply (HA _ Hi). rewrite elem_of_app. by left.
Qed.

Lemma head_active_once (n : nat) (q : BullQueue) (j : Job) (rest : list Job) :
  wfq n q -> q_active q = j :: rest -> id j ∉ ids (without (id j) (q_active q)).
Proof.
  intros _ Ha Hin. unfold ids, without in Hin.
  apply list_elem_of_fmap in Hin as (j' & He & Hin).
  apply list_elem_of_filter in Hin as [Hne _]. by apply Hne.
Qed.

(** C1, as amended. A job whose send reports that the recipient is not
    registered is settled on its first run: the processor makes no send
    and no pacing pause and returns the [not_registered] result, so the
    job ends in state [completed] with that result and no failed attempt
    recorded; the processor has run once for it and never runs for it
    again, whatever the service does afterwards. *)
Theorem not_registered_completes_after_one_attempt (w : World) (unitId : string)
    (st : State) (q : BullQueue) (job : Job) (rest : list Job)
    (client : Client) (number : string) :
  wf st ->
  queues st !! unitId = Some q -> q_active q = job :: rest ->
  debugMode (data job) = false ->
  isSessionReady w unitId = true ->
  getClientByUnitId w unitId = Some client ->
  validatePhoneNumber (recipient (data job)) = Some number ->
  isRegisteredUser client (number +:+ "@c.us") = Return false ->
  attemptsOf unitId (id job) st = 0 ->
  let st' := settle config w unitId st in
  let result := SendResultOf (NotRegistered ("Phone number " +:+ number
                                             +:+ " is not registered on WhatsApp")) in
  processor config w unitId job = ([], Return result)
  /\ (exists q' job',
        queues st' !! unitId = Some q'
        /\ stateOf q' (id job) = Some Completed
        /\ head (q_completed q') = Some job'
        /\ id job' = id job
        /\ returnvalue job' = Some result
        /\ attemptsMade job' = attemptsMade job)
  /\ attemptsOf unitId (id job) st' = 1
  /\ forall ops, attemptsOf unitId (id job) (run config ops st') = 1.
Proof.
  intros Hwf Hq Ha Hd Hr Hc Hv Hreg H0 st' result.
  assert (Hp : processor config w unitId job = ([], Return result)).
  { unfold processor. rewrite Hd.
    by rewrite (sendMessage_not_registered w unitId _ number _ client). }
  assert (Hst : st' = {| queues := <[unitId := bull_settle job (Return result) q]> (queues st);
                         next_ref := next_ref st; next_uuid := next_uuid st;
                         processed := processed st ++ [(unitId, id job)] |}).
  { unfold st', settle. by rewrite Hq, Ha, Hp. }
  assert (H1 : attemptsOf unitId (id job) st' = 1).
  { rewrite Hst. unfold attemptsOf in *. cbn.
    rewrite filter_app, length_app, H0. by rewrite filter_cons_True. }
  pose proof (Hwf _ _ Hq) as Hwfq.
  assert (Hj : job ∈ q_active q) by (rewrite Ha; left).
  split; [done |]. split; [| split; [done |]].
  - eexists _, _. split; [rewrite Hst; cbn; apply lookup_insert_eq |].
    cbn. unfold stateOf. cbn. rewrite bool_decide_eq_true_2 by done. done.
  - intros ops. rewrite retired_run; [done |]. rewrite Hst. split.
    + cbn. destruct Hwfq as [_ Hf]. rewrite Forall_forall in Hf. apply Hf.
      rewrite ids_allJobs, !elem_of_app. right. left.
      by apply list_elem_of_fmap_2.
    + cbn. rewrite lookup_insert_eq. intros q0 [= <-].
      destruct (active_not_elsewhere _ _ _ Hwfq Hj) as [HW HD].
      rewrite pendingIds_eq. cbn. rewrite !elem_of_app.
      intros [Hk | [Hk | Hk]]; [done | | done].
      by eapply head_active_once.
Qed.

Lemma cleanup_sends (a : option attachment) :
  exists t, cleanup a = (t, Return tt) /\ sends t = [].
Proof.
  unfold cleanup. destruct a as [[s | p mt fn] |]; [by eexists | | by eexists].
  destruct (truthy p); by eexists.
Qed.

Lemma sends_app (t1 t2 : list Effect) : sends (t1 ++ t2) = sends t1 ++ sends t2.
Proof. apply omap_app. Qed.

(** C7. A delivery attempt for content classified from a message with
    both a media and a document reference sends nothing but the media
    (not as a document) and then the document (as a document), both to
    the recipient's chat with the trimmed text as caption: its sends are
    none, the media alone, or the media followed by the document. When
    the attempt succeeds it has made exactly these two sends, and the
    [messageId] of the result is the id of the message the document send,
    the last one, resolved to. *)
Theorem sendMessage_media_then_document (w : World) (unitId recipient : string)
    (m : Message) (pm : ProcessedMessage) (trace : list Effect)
    (r : outcome SendResult) :
  processMessageContent m = Return pm ->
  attTruthy (media m) = true -> attTruthy (document m) = true ->
  sendMessage w unitId recipient pm = (trace, r) ->
  exists chat caption,
    c_caption (content pm) = Some caption
    /\ (sends trace = []
        \/ (exists mediaObject, sends trace = [(chat, PMedia mediaObject caption false)])
        \/ (exists mediaObject documentObject,
              sends trace = [(chat, PMedia mediaObject caption false);
                             (chat, PMedia documentObject caption true)]))
    /\ forall number messageId, r = Return (Sent number messageId) ->
         exists client mediaObject documentObject sentDocument,
           getClientByUnitId w unitId = Some client
           /\ validatePhoneNumber recipient = Some number
           /\ chat = number +:+ "@c.us"
           /\ loadMedia w (media m) = Return mediaObject
           /\ loadDocument w (document m) = Return documentObject
           /\ sends trace = [(chat, PMedia mediaObject caption false);
                             (chat, PMedia documentObject caption true)]
           /\ clientSendMessage client chat (PMedia documentObject caption true)
              = Return sentDocument
           /\ messageId = messageIdOf sentDocument.
Proof.
  intros Hpm Hm Hd Hs.
  destruct (text m) as [s |] eqn:Ht.
  2:{ unfold processMessageContent in Hpm. by rewrite Ht, Hm in Hpm. }
  unfold processMessageContent in Hpm. rewrite Ht, Hm, Hd in Hpm. cbn in Hpm.
  rewrite andb_false_r in Hpm. cbn in Hpm. injection Hpm as <-.
  rewrite orElse_empty in *. cbn [content c_caption].
  unfold sendMessage in Hs. cbn in Hs. rewrite ?orElse_empty in Hs.
  exists (default "" (validatePhoneNumber recipient) +:+ "@c.us"), (trim s).
  split; [done |].
  destruct (isSessionReady w unitId); cbn in Hs;
    [| injection Hs as <- <-; split; [by left | done]].
  destruct (getClientByUnitId w unitId) as [client |];
    [| injection Hs as <- <-; split; [by left | done]].
  destruct (validatePhoneNumber recipient) as [number' |];
    [| injection Hs as <- <-; split; [by left | done]].
  unfold io_lift, send in Hs. cbn in Hs.
  destruct (isRegisteredUser client _) as [[|] | e]; cbn in Hs;
    try (injection Hs as <- <-; split; [by left | done]).
  destruct (loadMedia w (media m)) as [mediaObject | e] eqn:Hlm; cbn in Hs;
    [| injection Hs as <- <-; split; [by left | done]].
  destruct (clientSendMessage client _ (PMedia mediaObject _ false))
    as [sentMedia | e] eqn:Hsm; cbn in Hs;
    [| injection Hs as <- <-; split; [right; left; by eexists | done]].
  destruct (cleanup_sends (media m)) as (t1 & Hc1 & Hn1). rewrite Hc1 in Hs.
  cbn in Hs.
  destruct (loadDocument w (document m)) as [documentObject | e] eqn:Hld;
    cbn in Hs.
  2:{ injection Hs as <- <-. cbn. rewrite !sends_app, Hn1.
      split; [right; left; by eexists | done]. }
  destruct (clientSendMessage client _ (PMedia documentObject _ true))
    as [sentDocument | e] eqn:Hsd; cbn in Hs.
  2:{ injection Hs as <- <-. cbn. rewrite !sends_app, Hn1. cbn.
      split; [right; right; by eexists _, _ | done]. }
  destruct (cleanup_sends (document m)) as (t2 & Hc2 & Hn2). rewrite Hc2 in Hs.
  cbn in Hs. injection Hs as <- <-.
  assert (Hsends : sends ([CallSend (number' +:+ "@c.us") (PMedia mediaObject (trim s) false)]
                          ++ (t1 ++ [])
                          ++ (CallSend (number' +:+ "@c.us")
                                (PMedia documentObject (trim s) true) :: t2 ++ [])
                          ++ [])
                   = [(number' +:+ "@c.us", PMedia mediaObject (trim s) false);
                      (number' +:+ "@c.us", PMedia documentObject (trim s) true)]).
  { rewrite !sends_app. cbn. rewrite !sends_app, Hn1, Hn2. done. }
  cbn in Hsends |- *. split; [right; right; by eexists _, _ |].
  intros number messageId [= <- <-].
  by exists client, mediaObject, documentObject, sentDocument.
Qed.

End Delivery.

Section DeliveryExamples.
Import Helpers Whatsapp Queue Examples.

Lemma not_registered_completes_after_one_attempt_witness :
  wf oneActive
  /\ q_active (queueOf "u1" oneActive)
     = [newJob exampleConfig (MsgId 0) "15551234567" textContent false]
  /\ attemptsOf "u1" (MsgId 0) oneActive = 0
  /\ attemptsOf "u1" (MsgId 0)
       (settle exampleConfig (exampleWorld false) "u1" oneActive) = 1
  /\ forall ops,
       attemptsOf "u1" (MsgId 0)
         (run exampleConfig ops
            (settle exampleConfig (exampleWorld false) "u1" oneActive)) = 1.
Proof.
  assert (Hwf : wf oneActive) by apply wf_run, wf_init.
  assert (Hq : queues oneActive !! "u1" = Some (queueOf "u1" oneActive))
    by (vm_compute; reflexivity).
  assert (Ha : q_active (queueOf "u1" oneActive)
               = [newJob exampleConfig (MsgId 0) "15551234567" textContent false])
    by (vm_compute; reflexivity).
  destruct (not_registered_completes_after_one_attempt exampleConfig
              (exampleWorld false) "u1" oneActive _ _ [] (exampleClient false)
              "15551234567" Hwf Hq Ha eq_refl eq_refl eq_refl eq_refl eq_refl eq_refl)
    as (_ & _ & H1 & Hn).
  split; [exact Hwf |]. split; [exact Ha |].
  split; [vm_compute; reflexivity |]. split; [exact H1 | exact Hn].
Defined.

(** C1, as stated, fails: the job whose send reported that the recipient
    is not registered is in state [completed], not [failed]. *)
Lemma not_registered_job_is_not_failed :
  processor exampleConfig (exampleWorld false) "u1"
    (newJob exampleConfig (MsgId 0) "15551234567" textContent false)
  = ([], Return (SendResultOf
                   (NotRegistered
                      "Phone number 15551234567 is not registered on WhatsApp")))
  /\ stateOf (queueOf "u1" oneActive) (MsgId 0) = Some Active
  /\ stateOf (queueOf "u1" (settle exampleConfig (exampleWorld false) "u1" oneActive))
       (MsgId 0) = Some Completed
  /\ stateOf (queueOf "u1" (settle exampleConfig (exampleWorld false) "u1" oneActive))
       (MsgId 0) <> Some Failed.
Proof.
  split; [vm_compute; reflexivity |]. split; [vm_compute; reflexivity |].
  split; [vm_compute; reflexivity |]. vm_compute. discriminate.
Qed.

Lemma sendMessage_media_then_document_witness :
  processMessageContent bothMessage = Return bothContent
  /\ sendMessage (exampleWorld true) "u1" "15551234567" bothContent
     = (bothTrace, Return (Sent "15551234567" (Some "id-document")))
  /\ exists mediaObject documentObject sentDocument,
       sends bothTrace
       = [("15551234567@c.us", PMedia mediaObject "see attached" false);
          ("15551234567@c.us", PMedia documentObject "see attached" true)]
       /\ clientSendMessage (exampleClient true) "15551234567@c.us"
            (PMedia documentObject "see attached" true) = Return sentDocument
       /\ Some "id-document" = messageIdOf sentDocument.
Proof.
  assert (Hpm : processMessageContent bothMessage = Return bothContent)
    by (vm_compute; reflexivity).
  assert (Hs : sendMessage (exampleWorld true) "u1" "15551234567" bothContent
               = (bothTrace, Return (Sent "15551234567" (Some "id-document"))))
    by (vm_compute; reflexivity).
  split; [exact Hpm |]. split; [exact Hs |].
  destruct (sendMessage_media_then_document (exampleWorld true) "u1" "15551234567"
              bothMessage bothContent bothTrace _ Hpm eq_refl eq_refl Hs)
    as (chat & caption & Hcap & _ & Hok).
  destruct (Hok _ _ eq_refl)
    as (client & mo & dobj & sd & Hc & _ & -> & _ & _ & Hsends & Hsd & Hid).
  injection Hcap as <-. injection Hc as <-.
  by exists mo, dobj, sd.
Defined.

End DeliveryExamples.

(** ** Validation of a request *)

Section Validation.
Import Helpers Queue MessageController Examples.
Variable isSessionReady : string -> bool.

(** C3. A request with a unit id and recipients whose [message] text is
    missing or empty is rejected with status 400 and no effect on the
    queues, also when it supplies a media or a document reference. *)
Theorem sendMessage_rejects_missing_text (config : Config.Config) (req : Request)
    (st : State) :
  optTruthy (unit_id req) = true ->
  noRecipients (recipients req) = false ->
  optTruthy (message req) = false ->
  sendMessage config isSessionReady req st
  = (Status400 "Message content is required (text, media, or document)" [], st).
Proof.
  intros Hu Hr Hm. unfold sendMessage. by rewrite Hu, Hr, Hm.
Qed.

Lemma invalid_number_found (bad : string) (l : list string) :
  bad ∈ l -> String.length (stripNonDigits bad) < 10 ->
  Nat.ltb 0
    (length (List.filter
               (fun num => negb (bool_decide (is_Some (validatePhoneNumber num)))) l))
  = true.
Proof.
  intros Hin Hlen. apply Nat.ltb_lt.
  assert (Hf : In bad (List.filter
               (fun num => negb (bool_decide (is_Some (validatePhoneNumber num)))) l)).
  { apply List.filter_In. split; [by apply list_elem_of_In |].
    unfold validatePhoneNumber. apply Nat.ltb_lt in Hlen. rewrite Hlen.
    rewrite bool_decide_eq_false_2; [done |]. by intros [? ?]. }
  destruct (List.filter _ l); [done | cbn; lia].
Qed.

(** C5. A request with a recipient whose number has fewer than ten digits
    once the non-digits are stripped is answered with status 400, and the
    queues are left as they were: no job is created for any recipient. *)
Theorem sendMessage_rejects_all_when_one_number_invalid (config : Config.Config)
    (req : Request) (st : State) (rs : Recipients) (bad : string) :
  recipients req = Some rs ->
  bad ∈ recipientList rs ->
  String.length (stripNonDigits bad) < 10 ->
  exists message invalidNumbers,
    sendMessage config isSessionReady req st = (Status400 message invalidNumbers, st).
Proof.
  intros Hrs Hin Hlen. unfold sendMessage. rewrite Hrs.
  destruct (negb (optTruthy (unit_id req))); [by eauto |].
  destruct (noRecipients (Some rs)); [by eauto |].
  destruct (_ || _); [by eauto |].
  destruct (negb (isSessionReady _)); [by eauto |].
  rewrite (invalid_number_found bad) by done. by eauto.
Qed.

Lemma no_invalid_number (l : list string) :
  Nat.ltb 0
    (length (List.filter
               (fun num => negb (bool_decide (is_Some (validatePhoneNumber num)))) l))
  = false
  <-> Forall (fun num => is_Some (validatePhoneNumber num)) l.
Proof.
  induction l as [| x l IH]; [by split |].
  cbn [List.filter]. destruct (bool_decide (is_Some (validatePhoneNumber x))) eqn:Hx; cbn.
  - apply bool_decide_eq_true in Hx. rewrite IH. split.
    + by constructor.
    + by inversion 1.
  - apply bool_decide_eq_false in Hx. split; [done |]. by inversion 1.
Qed.

Lemma optTruthy_Some (o : option string) :
  optTruthy o = true -> exists s, o = Some s.
Proof. destruct o; [eauto | done]. Qed.

(** X12. The checks of the controller: a request is queued (status 202) exactly
    when it has a unit id, at least one recipient, a non-empty text, a ready
    session, and only recipients whose number validates. *)
Lemma sendMessage_accepted_iff (config : Config.Config) (req : Request) (st : State) :
  (exists result st',
     sendMessage config isSessionReady req st = (Status202 result, st'))
  <-> optTruthy (unit_id req) = true
      /\ noRecipients (recipients req) = false
      /\ optTruthy (message req) = true
      /\ isSessionReady (default "" (unit_id req)) = true
      /\ Forall (fun num => is_Some (validatePhoneNumber num))
           match recipients req with
           | Some r => recipientList r
           | None => []
           end.
Proof.
  unfold sendMessage.
  destruct (optTruthy (unit_id req)); cbn [negb];
    [| split; [by intros (? & ? & ?) | by intros (? & _)]].
  destruct (noRecipients (recipients req));
    [split; [by intros (? & ? & ?) | by intros (_ & ? & _)] |].
  destruct (optTruthy (message req)) eqn:Hm; cbn [negb orb andb];
    [| split; [by intros (? & ? & ?) | by intros (_ & _ & ? & _)]].
  destruct (isSessionReady _); cbn [negb];
    [| split; [by intros (? & ? & ?) | by intros (_ & _ & _ & ? & _)]].
  destruct (Nat.ltb 0 _) eqn:Hn.
  - split; [by intros (? & ? & ?) |]. intros (_ & _ & _ & _ & Hall).
    apply no_invalid_number in Hall. congruence.
  - apply no_invalid_number in Hn. split; [done |]. intros _.
    apply optTruthy_Some in Hm as [s Hm].
    edestruct (processMessageContent_text_given
                 {| text := message req; Helpers.media := media req;
                    Helpers.document := document req; documentFilename := None |} s Hm)
      as (pm & Hpm & _).
    unfold queueMessage. destruct (getMessageQueue _ st) as [q st0].
    rewrite Hpm. destruct (addAll _ _ _ _ _ st0) as [js st1]. eauto.
Qed.

(** C10. The debug mode of the jobs of an accepted request is resolved
    from the request's flag after string coercion: a missing flag takes
    the configured default, which is whether [DEBUG_MODE] is the string
    [true]; an explicit [false] gives [false] whatever the default; the
    strings [true] and [false] count as the booleans. *)
Theorem debug_mode_resolution (env : Config.Env) (req : Request) (st st' : State)
    (result : QueueResult) :
  let config := Config.load env in
  let resolved := useDebugMode config (coerceDebug (debug_mode req)) in
  wf st ->
  sendMessage config isSessionReady req st = (Status202 result, st') ->
  (forall i r, (i, r) ∈ jobs result ->
     exists q j, queues st' !! default "" (unit_id req) = Some q
       /\ j ∈ q_waiting q /\ id j = i /\ recipient (data j) = r
       /\ debugMode (data j) = resolved)
  /\ resolved
     = match debug_mode req with
       | DebugUndefined => bool_decide (Config.DEBUG_MODE env = Some "true")
       | DebugBool b => b
       | DebugString s => bool_decide (toLowerCase s = "true")
       | DebugOther => false
       end
  /\ useDebugMode config (coerceDebug DebugUndefined) = Config.debugMode config
  /\ useDebugMode config (coerceDebug (DebugBool false)) = false
  /\ useDebugMode config (coerceDebug (DebugString "true")) = true
  /\ useDebugMode config (coerceDebug (DebugString "false")) = false.
Proof.
  intros config resolved Hwf Hs. subst resolved.
  split; [| split; [| repeat split; reflexivity]].
  2:{ destruct (debug_mode req) as [| [|] | s |]; cbn; try done.
      by destruct (bool_decide _). }
  intros i r Hir. unfold sendMessage in Hs.
  destruct (negb (optTruthy (unit_id req))); [done |].
  destruct (noRecipients (recipients req)); [done |].
  destruct (optTruthy (message req)) eqn:Hm; [cbn [negb orb andb] in Hs | done].
  destruct (negb (isSessionReady _)); [done |].
  destruct (Nat.ltb 0 _); [done |].
  apply optTruthy_Some in Hm as [s Hm].
  set (m := {| text := message req; Helpers.media := media req;
               Helpers.document := document req; documentFilename := None |}) in *.
  destruct (processMessageContent_text_given m s Hm) as (pm & Hpm & _).
  rewrite (queueMessage_spec config _ _ m _ st pm Hwf Hpm) in Hs.
  injection Hs as <- <-. cbn [jobs recipientList] in Hir. cbn.
  rewrite lookup_insert_eq.
  apply created_job in Hir as (j & Hj & Hi & Hr & Hd).
  eexists _, j. split; [done |]. cbn. rewrite elem_of_app. eauto.
Qed.

End Validation.

Section ValidationExamples.
Import Helpers Queue MessageController Examples.

Lemma sendMessage_rejects_missing_text_witness :
  sendMessage exampleConfig (fun _ => true) mediaOnlyRequest init
  = (Status400 "Message content is required (text, media, or document)" [], init).
Proof.
  apply sendMessage_rejects_missing_text; vm_compute; reflexivity.
Defined.

Lemma sendMessage_rejects_all_when_one_number_invalid_witness :
  validatePhoneNumber "bad" = None
  /\ exists message invalidNumbers,
       sendMessage exampleConfig (fun _ => true) badRecipientRequest init
       = (Status400 message invalidNumbers, init).
Proof.
  split; [reflexivity |].
  apply (sendMessage_rejects_all_when_one_number_invalid (fun _ => true)
           exampleConfig badRecipientRequest init
           (Many ["15551234567"; "bad"]) "bad").
  - reflexivity.
  - apply list_elem_of_further, list_elem_of_here.
  - apply Nat.ltb_lt. vm_compute. reflexivity.
Defined.

Lemma debug_mode_resolution_witness :
  wf init
  /\ Config.DEBUG_MODE exampleEnv = Some "true"
  /\ fst (sendMessage exampleConfig (fun _ => true) textRequest init)
     = Status202 {| jobCount := 1; jobs := [(MsgId 0, "15551234567")] |}
  /\ exists q j,
       queues (snd (sendMessage exampleConfig (fun _ => true) textRequest init)) !! "u1"
       = Some q
       /\ j ∈ q_waiting q /\ id j = MsgId 0 /\ recipient (data j) = "15551234567"
       /\ debugMode (data j) = true.
Proof.
  split; [apply wf_init |]. split; [reflexivity |].
  split; [vm_compute; reflexivity |].
  destruct (debug_mode_resolution (fun _ => true) exampleEnv textRequest init
              (snd (sendMessage exampleConfig (fun _ => true) textRequest init))
              {| jobCount := 1; jobs := [(MsgId 0, "15551234567")] |}
              wf_init) as (Hjobs & _).
  - vm_compute. reflexivity.
  - apply (Hjobs (MsgId 0) "15551234567"). apply list_elem_of_here.
Defined.

End ValidationExamples.

(** * Further properties *)

(** ** Phone numbers and pacing *)

Section Numbers.
Import Helpers.

Lemma stripNonDigits_allDigits (s : string) : allChars isDigit (stripNonDigits s) = true.
Proof.
  induction s as [| c r IH]; [done |]. cbn.
  destruct (isDigit c) eqn:Hc; [cbn; by rewrite Hc | done].
Qed.

Lemma stripNonDigits_fixed (s : string) :
  allChars isDigit s = true -> stripNonDigits s = s.
Proof.
  induction s as [| c r IH]; [done |]. cbn.
  intros [Hc Hr]%andb_true_iff. rewrite Hc. f_equal. by apply IH.
Qed.

(** X1. A phone number that validates is the input with every non-digit
    removed: it consists of digits only, has at least ten of them, and
    validating it again returns it unchanged. *)
Theorem validatePhoneNumber_normal_form (phoneNumber number : string) :
  validatePhoneNumber phoneNumber = Some number ->
  number = stripNonDigits phoneNumber
  /\ allChars isDigit number = true
  /\ 10 <= String.length number
  /\ validatePhoneNumber number = Some number.
Proof.
  unfold validatePhoneNumber.
  destruct (Nat.ltb (String.length (stripNonDigits phoneNumber)) 10) eqn:Hlen; [done |].
  intros [= <-].
  pose proof (stripNonDigits_allDigits phoneNumber) as Hd.
  rewrite (stripNonDigits_fixed _ Hd), Hlen.
  apply Nat.ltb_ge in Hlen. done.
Qed.

Lemma validatePhoneNumber_normal_form_witness :
  validatePhoneNumber "+1 (555) 123-4567" = Some "15551234567"
  /\ validatePhoneNumber "15551234567" = Some "15551234567".
Proof.
  assert (H : validatePhoneNumber "+1 (555) 123-4567" = Some "15551234567")
    by (vm_compute; reflexivity).
  split; [exact H |].
  by destruct (validatePhoneNumber_normal_form _ _ H) as (_ & _ & _ & ?).
Defined.

(** X2. The pacing delay can exceed the configured maximum. With the
    delays 2000 and 5000, the defaults of config/index.js, and the value
    [1 - 2^-52] of [Math.random()], which is below 1, the product with
    3001 and then the sum with 2000 are each rounded up, to [5001] in the
    end, and the delay is 5001. *)
Theorem getRandomDelay_can_exceed_the_maximum (config : Config.Config) :
  Config.minMessageDelay config = 2000%Z ->
  Config.maxMessageDelay config = 5000%Z ->
  exists r,
    Number.leb (Number.ofZ 0) r = true
    /\ Number.ltb r (Number.ofZ 1) = true
    /\ Config.getRandomDelay config r = Number.ofZ 5001
    /\ Number.ltb (Number.ofZ (Config.maxMessageDelay config))
         (Config.getRandomDelay config r) = true.
Proof.
  intros Hmin Hmax. exists Examples.almostOne.
  unfold Config.getRandomDelay. rewrite Hmin, Hmax.
  repeat split; vm_compute; reflexivity.
Qed.

Lemma getRandomDelay_can_exceed_the_maximum_witness :
  exists r,
    Number.ltb r (Number.ofZ 1) = true
    /\ Config.getRandomDelay Examples.exampleConfig r = Number.ofZ 5001.
Proof.
  destruct (getRandomDelay_can_exceed_the_maximum Examples.exampleConfig
              eq_refl eq_refl) as (r & _ & Hlt & Hd & _).
  exists r. split; [exact Hlt | exact Hd].
Defined.

End Numbers.

(** ** Classified content *)

Section ClassifiedContent.
Import Helpers.

Lemma processMessageContent_no_attachment (m : Message) :
  attTruthy (media m) = false -> attTruthy (document m) = false ->
  processMessageContent m
  = Return {| hasText := textPresent (text m); hasMedia := false; hasDocument := false;
              content := {| c_text := if textPresent (text m)
                                      then trim <$> text m else None;
                            c_media := None; c_document := None;
                            c_documentFilename := None; c_caption := None |} |}.
Proof.
  intros Hm Hd. unfold processMessageContent. rewrite Hm, Hd. cbn.
  rewrite !andb_true_r.
  destruct (text m) as [s |]; cbn; [| done].
  destruct (truthy s && truthy (trim s)) eqn:Hs; cbn; by rewrite ?Hs.
Qed.

(** X3. Whatever is classified, text and attachments exclude each other
    and the content holds exactly the fields that are flagged: a text only
    with [hasText], which rules out [hasMedia] and [hasDocument]; the media
    only with [hasMedia]; the document only with [hasDocument]; a caption
    exactly when one of the two attachments is present. *)
Theorem processMessageContent_exclusive (m : Message) (pm : ProcessedMessage) :
  processMessageContent m = Return pm ->
  (hasText pm = true -> hasMedia pm = false /\ hasDocument pm = false)
  /\ (is_Some (c_text (content pm)) <-> hasText pm = true)
  /\ (is_Some (c_media (content pm)) <-> hasMedia pm = true)
  /\ (is_Some (c_document (content pm)) <-> hasDocument pm = true)
  /\ (is_Some (c_caption (content pm)) <-> hasMedia pm || hasDocument pm = true)
  /\ (forall t, c_text (content pm) = Some t -> truthy t = true).
Proof.
  intros Hpm. unfold processMessageContent in Hpm.
  destruct (text m) as [s |]; cbn in Hpm;
    destruct (attTruthy (media m)) eqn:Hm; cbn in Hpm;
    destruct (attTruthy (document m)) eqn:Hd; cbn in Hpm;
    rewrite ?andb_true_r, ?andb_false_r, ?Hm, ?Hd in Hpm; cbn in Hpm;
    rewrite ?Hm, ?Hd in Hpm; cbn in Hpm; try done.
  4:{ destruct (truthy s && truthy (trim s)) eqn:Hs; cbn in Hpm; rewrite ?Hs in Hpm;
      cbn in Hpm; injection Hpm as <-; cbn.
      - apply andb_true_iff in Hs as [_ Hs].
        repeat split; intros; simplify_eq; try done; try (by eexists);
          by match goal with H : is_Some None |- _ => destruct H end.
      - repeat split; intros; simplify_eq; try done;
          by match goal with H : is_Some None |- _ => destruct H end. }
  all: injection Hpm as <-; cbn;
    repeat split; intros; simplify_eq; try done;
    try (by match goal with H : is_Some None |- _ => destruct H end);
    try (destruct (media m) as [[|] |]; by eauto);
    try (destruct (document m) as [[|] |]; by eauto); try (by eexists).
Qed.

Lemma processMessageContent_exclusive_witness :
  processMessageContent Examples.bothMessage = Return Examples.bothContent
  /\ (hasText Examples.bothContent = true ->
      hasMedia Examples.bothContent = false /\ hasDocument Examples.bothContent = false)
  /\ (is_Some (c_caption (content Examples.bothContent))
      <-> hasMedia Examples.bothContent || hasDocument Examples.bothContent = true).
Proof.
  assert (H : processMessageContent Examples.bothMessage = Return Examples.bothContent)
    by (vm_compute; reflexivity).
  split; [exact H |].
  by destruct (processMessageContent_exclusive _ _ H) as (? & _ & _ & _ & ? & _).
Defined.

(** On a text that is a string or missing, the classification of a text
    of any type is the one of [Helpers]. *)
Lemma processMessageContent_ofText (m : Message) :
  AnyText.processMessageContent (AnyText.ofText (text m)) (media m) (document m)
    (documentFilename m)
  = processMessageContent m.
Proof. unfold AnyText.processMessageContent, processMessageContent. by destruct (text m). Qed.

(** X4. Whatever the type of the text, classification returns exactly in
    two cases: the text is a string, or the text is missing, null, false or
    0 and neither a media nor a document reference is present. In every
    other case it throws a TypeError: for a truthy text that is not a
    string, and for an attachment without a string as text. *)
Theorem processMessageContent_returns_iff (t : AnyText.value)
    (media document : option attachment) (documentFilename : option string) :
  ((exists pm,
      AnyText.processMessageContent t media document documentFilename = Return pm)
   <-> (exists s, t = AnyText.VString s)
       \/ (t ≠ AnyText.VTruthy /\ attTruthy media || attTruthy document = false))
  /\ ((exists msg,
         AnyText.processMessageContent t media document documentFilename
         = Throw (TypeError msg))
      \/ exists pm,
           AnyText.processMessageContent t media document documentFilename
           = Return pm).
Proof.
  unfold AnyText.processMessageContent.
  destruct t as [| | s | |]; cbn;
    destruct (attTruthy media) eqn:Hm; cbn;
    destruct (attTruthy document) eqn:Hd; cbn;
    try destruct (truthy s && truthy (trim s)); cbn;
    (split; [split | by eauto]);
    try (by intros [pm [=]]); try (by intros [[s' [=]] | [? [=]]]);
    try (by intros _; eauto); by eauto.
Qed.

End ClassifiedContent.

(** ** What a delivery attempt does on the outside *)

Section OutsideCalls.
Import Helpers Whatsapp.

Lemma io_bind_Forall {A B} (P : Effect -> Prop) (m : io A) (f : A -> io B) :
  Forall P (fst m) -> (forall a, Forall P (fst (f a))) ->
  Forall P (fst (io_bind m f)).
Proof.
  intros Hm Hf. destruct m as [t1 [a | e]]; cbn in *; [| done].
  specialize (Hf a). destruct (f a) as [t2 r]. cbn in *. by apply Forall_app.
Qed.

Lemma send_Forall (P : Effect -> Prop) (client : Client) (chatId : string) (p : Payload) :
  P (CallSend chatId p) -> Forall P (fst (send client chatId p)).
Proof.
  intros HP. unfold send, io_emit, io_lift. cbn.
  destruct (clientSendMessage client chatId p); cbn; by repeat constructor.
Qed.

Lemma cleanup_Forall (P : Effect -> Prop) (a : option attachment) :
  (forall p mt fn, a = Some (AttFile p mt fn) -> P (CallUnlink p)) ->
  Forall P (fst (cleanup a)).
Proof.
  intros HP. unfold cleanup. destruct a as [[s | p mt fn] |]; cbn; try constructor.
  destruct (truthy p); cbn; repeat constructor. by eapply HP.
Qed.

Lemma io_lift_Forall {A} (P : Effect -> Prop) (o : outcome A) : Forall P (fst (io_lift o)).
Proof. constructor. Qed.

Lemma io_ret_Forall {A} (P : Effect -> Prop) (a : A) : Forall P (fst (io_ret a)).
Proof. constructor. Qed.

Lemma io_bind_lift_Return {A B} (a : A) (f : A -> io B) :
  io_bind (io_lift (Return a)) f = f a.
Proof. unfold io_bind, io_lift. by destruct (f a). Qed.

Lemma io_bind_lift_Throw {A B} (e : error) (f : A -> io B) :
  io_bind (io_lift (Throw e)) f = ([], Throw e).
Proof. done. Qed.

(** The outside calls of the body of [sendMessage], once the session, the
    client, the number and the registration have been checked. *)
Lemma sendMessage_calls (P : Effect -> Prop) (w : World) (unitId recipient : string)
    (pm : ProcessedMessage) :
  (forall client number,
     isSessionReady w unitId = true ->
     getClientByUnitId w unitId = Some client ->
     validatePhoneNumber recipient = Some number ->
     isRegisteredUser client (number +:+ "@c.us") = Return true ->
     (forall p, P (CallSend (number +:+ "@c.us") p))) ->
  (forall p mt fn,
     (hasMedia pm = true /\ c_media (content pm) = Some (AttFile p mt fn))
     \/ (hasDocument pm = true /\ c_document (content pm) = Some (AttFile p mt fn)) ->
     P (CallUnlink p)) ->
  Forall P (fst (sendMessage w unitId recipient pm)).
Proof.
  intros Hsend Hunlink. unfold sendMessage.
  destruct (isSessionReady w unitId) eqn:Hr; cbn [negb]; [| constructor].
  destruct (getClientByUnitId w unitId) as [client |] eqn:Hc; [| constructor].
  destruct (validatePhoneNumber recipient) as [number |] eqn:Hv; [| constructor].
  cbv zeta.
  destruct (isRegisteredUser client (number +:+ "@c.us")) as [[|] | e] eqn:Hreg;
    rewrite ?io_bind_lift_Return, ?io_bind_lift_Throw; cbn [negb];
    try constructor.
  specialize (Hsend client number eq_refl eq_refl eq_refl Hreg).
  apply io_bind_Forall.
  { destruct (hasText pm); [by apply send_Forall | apply io_ret_Forall]. }
  intros r1. apply io_bind_Forall.
  { destruct (hasMedia pm) eqn:Hm; [| apply io_ret_Forall].
    apply io_bind_Forall; [apply io_lift_Forall |]. intros mo.
    apply io_bind_Forall; [by apply send_Forall |]. intros r2.
    apply io_bind_Forall; [| intros; apply io_ret_Forall].
    apply cleanup_Forall. intros p mt fn Ha. apply (Hunlink p mt fn). by left. }
  intros r2. apply io_bind_Forall; [| intros; apply io_ret_Forall].
  destruct (hasDocument pm) eqn:Hd; [| apply io_ret_Forall].
  apply io_bind_Forall; [apply io_lift_Forall |]. intros dobj.
  apply io_bind_Forall; [by apply send_Forall |]. intros r3.
  apply io_bind_Forall; [| intros; apply io_ret_Forall].
  apply cleanup_Forall. intros p mt fn Ha. apply (Hunlink p mt fn). by right.
Qed.

(** X5. A delivery attempt hands a message to the client only when the
    session is ready, the unit has a client, the recipient validates and
    the client reports the number as registered; and every such send goes to
    the chat [<digits>@c.us] of the validated number. *)
Theorem sendMessage_sends_only_when_checked (w : World) (unitId recipient : string)
    (pm : ProcessedMessage) (chatId : string) (p : Payload) :
  CallSend chatId p ∈ fst (sendMessage w unitId recipient pm) ->
  isSessionReady w unitId = true
  /\ exists client number,
       getClientByUnitId w unitId = Some client
       /\ validatePhoneNumber recipient = Some number
       /\ chatId = number +:+ "@c.us"
       /\ isRegisteredUser client chatId = Return true.
Proof.
  intros Hin.
  pose proof (sendMessage_calls
    (fun e => match e with
              | CallSend c _ =>
                  isSessionReady w unitId = true
                  /\ exists client number,
                       getClientByUnitId w unitId = Some client
                       /\ validatePhoneNumber recipient = Some number
                       /\ c = number +:+ "@c.us"
                       /\ isRegisteredUser client c = Return true
              | _ => True
              end) w unitId recipient pm) as Hall.
  rewrite Forall_forall in Hall. apply (Hall ltac:(naive_solver) ltac:(done) _ Hin).
Qed.

Lemma sendMessage_sends_only_when_checked_witness :
  CallSend "15551234567@c.us"
    (PMedia (Examples.exampleMedia "http://x/y.png") "see attached" false)
    ∈ fst (sendMessage (Examples.exampleWorld true) "u1" "15551234567"
             Examples.bothContent)
  /\ exists client number,
       getClientByUnitId (Examples.exampleWorld true) "u1" = Some client
       /\ validatePhoneNumber "15551234567" = Some number
       /\ "15551234567@c.us" = number +:+ "@c.us"
       /\ isRegisteredUser client "15551234567@c.us" = Return true.
Proof.
  assert (Hin : CallSend "15551234567@c.us"
                  (PMedia (Examples.exampleMedia "http://x/y.png") "see attached" false)
                ∈ fst (sendMessage (Examples.exampleWorld true) "u1" "15551234567"
                         Examples.bothContent))
    by (vm_compute; apply list_elem_of_here).
  split; [exact Hin |].
  exact (proj2 (sendMessage_sends_only_when_checked _ _ _ _ _ _ Hin)).
Defined.



End OutsideCalls.

(** ** Text messages, blank messages and debug jobs *)

Section TextAndDebug.
Import Helpers Whatsapp Queue.
Variable config : Config.Config.

(** X7. A successful delivery of a message that has a non-blank text and no
    attachment makes exactly one send, of the trimmed text, to the chat of
    the validated number, and reports the id of the message that send
    resolved to. *)
Theorem sendMessage_text_only (w : World) (unitId recipient : string) (m : Message)
    (s : string) (pm : ProcessedMessage) (trace : list Effect) (number : string)
    (messageId : option string) :
  text m = Some s -> truthy (trim s) = true ->
  attTruthy (media m) = false -> attTruthy (document m) = false ->
  processMessageContent m = Return pm ->
  sendMessage w unitId recipient pm = (trace, Return (Sent number messageId)) ->
  exists client sent,
    getClientByUnitId w unitId = Some client
    /\ validatePhoneNumber recipient = Some number
    /\ trace = [CallSend (number +:+ "@c.us") (PText (Some (trim s)))]
    /\ clientSendMessage client (number +:+ "@c.us") (PText (Some (trim s))) = Return sent
    /\ messageId = messageIdOf sent.
Proof.
  intros Ht Htr Hm Hd Hpm Hs.
  rewrite (processMessageContent_no_attachment m Hm Hd), Ht in Hpm. cbn in Hpm.
  rewrite Htr, (truthy_trim _ Htr) in Hpm. cbn in Hpm. injection Hpm as <-.
  unfold sendMessage in Hs. cbn in Hs.
  destruct (isSessionReady w unitId); [cbn in Hs | done].
  destruct (getClientByUnitId w unitId) as [client |]; [| done].
  destruct (validatePhoneNumber recipient) as [number' |]; [| done].
  unfold io_lift, send in Hs. cbn in Hs.
  destruct (isRegisteredUser client _) as [[|] | e]; cbn in Hs; try done.
  destruct (clientSendMessage client _ (PText _)) as [sent | e] eqn:Hsent;
    cbn in Hs; [| done].
  injection Hs as <- <- <-. by exists client, sent.
Qed.

Lemma sendMessage_text_only_witness :
  processMessageContent Examples.textMessage = Return Examples.textContent
  /\ exists client sent,
       getClientByUnitId (Examples.exampleWorld true) "u1" = Some client
       /\ validatePhoneNumber "15551234567" = Some "15551234567"
       /\ [CallSend "15551234567@c.us" (PText (Some "hi"))]
          = [CallSend ("15551234567" +:+ "@c.us") (PText (Some (trim "hi")))]
       /\ clientSendMessage client ("15551234567" +:+ "@c.us") (PText (Some (trim "hi")))
          = Return sent
       /\ Some "id-text" = messageIdOf sent.
Proof.
  assert (Hpm : processMessageContent Examples.textMessage = Return Examples.textContent)
    by (vm_compute; reflexivity).
  split; [exact Hpm |].
  apply (sendMessage_text_only (Examples.exampleWorld true) "u1" "15551234567"
           Examples.textMessage "hi" Examples.textContent);
    try exact Hpm; vm_compute; reflexivity.
Defined.

(** X8. A message without attachment whose text is missing, empty or blank
    is classified as having neither text nor media nor document. Its
    delivery to a registered recipient makes no send at all and still
    reports success, with no message id, and the worker then pauses for
    the pacing delay as after a real send. *)
Theorem blank_message_succeeds_without_a_send (w : World) (unitId recipient : string)
    (m : Message) (client : Client) (number : string) (i : JobId) :
  textPresent (text m) = false ->
  attTruthy (media m) = false -> attTruthy (document m) = false ->
  isSessionReady w unitId = true ->
  getClientByUnitId w unitId = Some client ->
  validatePhoneNumber recipient = Some number ->
  isRegisteredUser client (number +:+ "@c.us") = Return true ->
  exists pm,
    processMessageContent m = Return pm
    /\ hasText pm = false /\ hasMedia pm = false /\ hasDocument pm = false
    /\ sendMessage w unitId recipient pm = ([], Return (Sent number None))
    /\ processor config w unitId (newJob config i recipient pm false)
       = ([CallSleep (Config.getRandomDelay config (mathRandom w))],
          Return (SendResultOf (Sent number None))).
Proof.
  intros Ht Hm Hd Hr Hc Hv Hreg.
  rewrite (processMessageContent_no_attachment m Hm Hd), Ht.
  eexists. split; [done |]. do 3 (split; [done |]).
  assert (Hs : sendMessage w unitId recipient
                 {| hasText := false; hasMedia := false; hasDocument := false;
                    content := {| c_text := None; c_media := None; c_document := None;
                                  c_documentFilename := None; c_caption := None |} |}
               = ([], Return (Sent number None))).
  { unfold sendMessage. rewrite Hr, Hc, Hv. cbn. unfold io_lift. by rewrite Hreg. }
  split; [exact Hs |]. unfold processor. cbn. by rewrite Hs.
Qed.

(** X9. A job in debug mode is settled on its first run whatever the
    session, the client and the recipient are: the processor makes no
    outside call and returns the debug result, and the job ends in state
    [completed] with that result and no failed attempt. *)
Theorem debug_job_completes_without_outside_calls (w : World) (unitId : string)
    (st : State) (q : BullQueue) (job : Job) (rest : list Job) :
  queues st !! unitId = Some q -> q_active q = job :: rest ->
  debugMode (data job) = true ->
  processor config w unitId job = ([], Return (DebugResult (recipient (data job))))
  /\ exists q' job',
       queues (settle config w unitId st) !! unitId = Some q'
       /\ stateOf q' (id job) = Some Completed
       /\ head (q_completed q') = Some job'
       /\ id job' = id job /\ data job' = data job
       /\ returnvalue job' = Some (DebugResult (recipient (data job)))
       /\ attemptsMade job' = attemptsMade job
       /\ q_waiting q' = q_waiting q /\ q_delayed q' = q_delayed q
       /\ q_failed q' = q_failed q.
Proof.
  intros Hq Ha Hd.
  assert (Hp : processor config w unitId job
               = ([], Return (DebugResult (recipient (data job)))))
    by (unfold processor; by rewrite Hd).
  split; [exact Hp |]. unfold settle. rewrite Hq, Ha, Hp. cbn.
  rewrite lookup_insert_eq. eexists _, _. split; [done |]. cbn.
  unfold stateOf. cbn. by rewrite bool_decide_eq_true_2.
Qed.

End TextAndDebug.

Section TextAndDebugExamples.
Import Helpers Whatsapp Queue Examples.

Lemma blank_message_succeeds_without_a_send_witness :
  textPresent (Some "   ") = false
  /\ exists pm,
       processMessageContent
         {| text := Some "   "; media := None; document := None;
            documentFilename := None |} = Return pm
       /\ hasText pm = false /\ hasMedia pm = false /\ hasDocument pm = false
       /\ sendMessage (exampleWorld true) "u1" "15551234567" pm
          = ([], Return (Sent "15551234567" None))
       /\ processor exampleConfig (exampleWorld true) "u1"
            (newJob exampleConfig (MsgId 0) "15551234567" pm false)
          = ([CallSleep (Config.getRandomDelay exampleConfig
                           (mathRandom (exampleWorld true)))],
             Return (SendResultOf (Sent "15551234567" None))).
Proof.
  split; [vm_compute; reflexivity |].
  apply (blank_message_succeeds_without_a_send exampleConfig
           (exampleWorld true) "u1" "15551234567"
           {| text := Some "   "; media := None; document := None;
              documentFilename := None |}
           (exampleClient true) "15551234567" (MsgId 0));
    vm_compute; reflexivity.
Defined.

Lemma debug_job_completes_without_outside_calls_witness :
  let st := run exampleConfig
              [OpQueueMessage "u1" (One "15551234567") textMessage true; OpClaim "u1"]
              init in
  queues st !! "u1" = Some (queueOf "u1" st)
  /\ processor exampleConfig offlineWorld "u1"
       (newJob exampleConfig (MsgId 0) "15551234567" textContent true)
     = ([], Return (DebugResult "15551234567"))
  /\ stateOf (queueOf "u1" (settle exampleConfig offlineWorld "u1" st)) (MsgId 0)
     = Some Completed.
Proof.
  intros st.
  assert (Hq : queues st !! "u1" = Some (queueOf "u1" st)) by (vm_compute; reflexivity).
  assert (Ha : q_active (queueOf "u1" st)
               = [newJob exampleConfig (MsgId 0) "15551234567" textContent true])
    by (vm_compute; reflexivity).
  destruct (debug_job_completes_without_outside_calls exampleConfig offlineWorld
              "u1" st _ _ [] Hq Ha eq_refl) as (Hp & q' & job' & Hq' & Hs & _).
  split; [exact Hq |]. split; [exact Hp |].
  unfold queueOf at 1. rewrite Hq'. exact Hs.
Defined.

End TextAndDebugExamples.

(** ** Statistics of all queues, and a failing enqueue *)

Section AllQueues.
Import Helpers Whatsapp Queue.
Variable config : Config.Config.

Lemma map_fmap {A B} (f : A -> B) (l : list A) : map f l = f <$> l.
Proof. induction l as [| x l IH]; [done |]. cbn. by rewrite IH. Qed.

Lemma unitIds_Permutation (st : State) : unitIds st ≡ₚ (map_to_list (queues st)).*1.
Proof. unfold unitIds. by rewrite map_fmap, merge_sort_Permutation. Qed.

Lemma elem_of_unitIds (st : State) (unitId : string) :
  unitId ∈ unitIds st <-> is_Some (queues st !! unitId).
Proof.
  rewrite unitIds_Permutation, list_elem_of_fmap. split.
  - intros ([u q] & -> & Hin). apply elem_of_map_to_list in Hin. by exists q.
  - intros [q Hq]. exists (unitId, q). split; [done |]. by apply elem_of_map_to_list.
Qed.

Lemma statsOf_registered (units : list string) (st : State) :
  Forall (fun u => is_Some (queues st !! u)) units ->
  exists ss,
    statsOf units st = (ss, st)
    /\ s_unitId <$> ss = units
    /\ Forall (fun s => getQueueStats (s_unitId s) st = (s, st)) ss.
Proof.
  induction 1 as [| u units [q Hq] _ (ss & Hss & Hids & Hall)]; [by exists [] |].
  cbn [statsOf]. unfold getQueueStats at 1. rewrite (getMessageQueue_Some _ _ _ Hq).
  rewrite Hss. eexists. split; [done |]. split; [cbn; by rewrite Hids |].
  constructor; [| done]. cbn. unfold getQueueStats.
  by rewrite (getMessageQueue_Some _ _ _ Hq).
Qed.

(** X10. The statistics of all queues are a pure read: the state is left
    as it is, there is one entry per registered unit id, each unit id
    occurring once, and each entry is what the single-unit query returns
    for that unit id. *)
Theorem getAllQueuesStats_reads_every_queue (st : State) :
  exists ss,
    getAllQueuesStats st = (ss, st)
    /\ length ss = size (queues st)
    /\ NoDup (s_unitId <$> ss)
    /\ (forall unitId, unitId ∈ (s_unitId <$> ss) <-> is_Some (queues st !! unitId))
    /\ Forall (fun s => getQueueStats (s_unitId s) st = (s, st)
                        /\ total s = waiting s + active s + delayed s) ss.
Proof.
  destruct (statsOf_registered (unitIds st) st) as (ss & Hss & Hids & Hall).
  { apply Forall_forall. intros u. by rewrite elem_of_unitIds. }
  exists ss. split; [exact Hss |]. rewrite Hids. split.
  { rewrite <- (length_fmap s_unitId), Hids, unitIds_Permutation, length_fmap.
    apply length_map_to_list. }
  split. { rewrite unitIds_Permutation. apply NoDup_fst_map_to_list. }
  split. { apply elem_of_unitIds. }
  eapply Forall_impl; [exact Hall |]. intros s Hs. split; [done |].
  unfold getQueueStats in Hs. destruct (getMessageQueue _ st) as [q st0].
  by injection Hs as <- _.
Qed.

(** X11. When the content of a message cannot be classified, [queueMessage]
    throws the classification error and creates no job: every queue that
    existed keeps its jobs. The queue of the unit id has nevertheless been
    looked up, which registers an empty queue for a unit id that had none. *)
Theorem queueMessage_failure_creates_no_job (unitId : string) (recipients : Recipients)
    (m : Message) (d : bool) (st : State) (e : error) :
  processMessageContent m = Throw e ->
  exists st',
    queueMessage config unitId recipients m d st = (Throw e, st')
    /\ (forall u q, queues st !! u = Some q -> queues st' !! u = Some q)
    /\ (queues st !! unitId = None ->
        queues st' !! unitId = Some (newQueue (next_ref st) unitId))
    /\ next_uuid st' = next_uuid st.
Proof.
  intros Hpm. unfold queueMessage, getMessageQueue.
  destruct (queues st !! unitId) as [q |] eqn:Hq; rewrite Hpm.
  - exists st. by repeat split.
  - eexists. split; [done |]. cbn. split; [| split; [| done]].
    + intros u q0 Hu. rewrite lookup_insert_ne; [done | congruence].
    + intros _. apply lookup_insert_eq.
Qed.

End AllQueues.

Section AllQueuesExamples.
Import Helpers Whatsapp Queue.

Lemma queueMessage_failure_creates_no_job_witness :
  processMessageContent Examples.mediaOnlyMessage
  = Throw (TypeError "Cannot read properties of undefined (reading 'trim')")
  /\ exists st',
       queueMessage Examples.exampleConfig "u1" (One "15551234567")
         Examples.mediaOnlyMessage false init
       = (Throw (TypeError "Cannot read properties of undefined (reading 'trim')"), st')
       /\ queues st' !! "u1" = Some (newQueue 0 "u1").
Proof.
  assert (Hpm : processMessageContent Examples.mediaOnlyMessage
                = Throw (TypeError "Cannot read properties of undefined (reading 'trim')"))
    by (vm_compute; reflexivity).
  split; [exact Hpm |].
  destruct (queueMessage_failure_creates_no_job Examples.exampleConfig "u1"
              (One "15551234567") Examples.mediaOnlyMessage false init _ Hpm)
    as (st' & Hq & _ & Hnew & _).
  exists st'. split; [exact Hq |]. apply Hnew. reflexivity.
Defined.

End AllQueuesExamples.

(** ** Responses of the message controller *)

Section Responses.
Import Helpers Queue MessageController.
Variable config : Config.Config.
Variable isSessionReady : string -> bool.

Lemma length_addAll (unitId : string) (pm : ProcessedMessage) (d : bool)
    (rs : list string) (st : State) :
  length (fst (addAll config unitId pm d rs st)) = length rs.
Proof.
  revert st. induction rs as [| r rs IH]; intros st; [done |].
  cbn [addAll]. destruct (addFor config unitId pm d r st) as [j st1].
  specialize (IH st1). destruct (addAll config unitId pm d rs st1) as [js st2].
  cbn in *. by rewrite IH.
Qed.

(** X13. What an answer of the handler tells about the queues. When a
    request is answered with status 400, no queue was registered and no
    job added: the queues are exactly as they were. When it is answered
    with status 202, [jobCount] is the number of recipients and [jobs]
    lists the recipients in their order. *)
Theorem sendMessage_answers_and_queues (req : Request) (st st' : State)
    (response : Response) :
  sendMessage config isSessionReady req st = (response, st') ->
  (forall message invalidNumbers,
     response = Status400 message invalidNumbers -> st' = st)
  /\ (forall result,
        response = Status202 result ->
        exists rs,
          recipients req = Some rs
          /\ jobCount result = length (recipientList rs)
          /\ snd <$> jobs result = recipientList rs).
Proof.
  unfold sendMessage.
  destruct (negb (optTruthy (unit_id req))); [by intros [= <- <-]; split |].
  destruct (recipients req) as [rs |] eqn:Hrs; [| by intros [= <- <-]; split].
  destruct (noRecipients (Some rs)); [by intros [= <- <-]; split |].
  destruct (optTruthy (message req)) eqn:Hm; cbn [negb orb andb];
    [| by intros [= <- <-]; split].
  destruct (negb (isSessionReady _)); [by intros [= <- <-]; split |].
  destruct (Nat.ltb 0 _); [by intros [= <- <-]; split |].
  unfold queueMessage. destruct (getMessageQueue _ st) as [q st0].
  destruct (processMessageContent _) as [pm | e]; [| by intros [= <- <-]; split].
  pose proof (length_addAll (default "" (unit_id req)) pm
                (useDebugMode config (coerceDebug (debug_mode req)))
                (recipientList (Many (recipientList rs))) st0) as Hlen.
  assert (Hsnd : snd <$> fst (addAll config (default "" (unit_id req)) pm
                               (useDebugMode config (coerceDebug (debug_mode req)))
                               (recipientList (Many (recipientList rs))) st0)
                 = recipientList rs).
  { cbn [recipientList]. generalize (recipientList rs) as l. clear.
    intros l. revert st0. induction l as [| r l IH]; intros st0; [done |].
    cbn [addAll]. destruct (addFor _ _ _ _ r st0) as [j st1] eqn:Ha.
    specialize (IH st1). destruct (addAll _ _ _ _ l st1) as [js st2]. cbn in *.
    rewrite IH. f_equal. unfold addFor in Ha. cbn in Ha.
    destruct (queues st0 !! _); [| by injection Ha as <- _].
    destruct (bull_add _ _). by injection Ha as <- _. }
  destruct (addAll _ _ _ _ _ st0) as [js st1]. cbn in *.
  intros [= <- <-]. split; [done |]. intros result [= <-]. by exists rs.
Qed.

(** X14. When a request is refused for its phone numbers, the numbers
    reported are exactly the recipients that do not validate, in the order
    of the request; there is at least one, and no valid recipient is
    reported. *)
Theorem sendMessage_reports_the_invalid_numbers (req : Request) (st st' : State)
    (invalidNumbers : list string) :
  sendMessage config isSessionReady req st
  = (Status400 "Invalid phone number(s) found" invalidNumbers, st') ->
  exists rs,
    recipients req = Some rs
    /\ invalidNumbers
       = List.filter (fun num => negb (bool_decide (is_Some (validatePhoneNumber num))))
           (recipientList rs)
    /\ invalidNumbers ≠ []
    /\ (forall num, num ∈ invalidNumbers <->
                    num ∈ recipientList rs /\ validatePhoneNumber num = None).
Proof.
  unfold sendMessage.
  destruct (negb (optTruthy (unit_id req))); [done |].
  destruct (recipients req) as [rs |] eqn:Hrs; [| done].
  destruct (noRecipients (Some rs)); [done |].
  destruct (optTruthy (message req)) eqn:Hm; cbn [negb orb andb]; [| done].
  destruct (negb (isSessionReady _)); [by intros [=] |].
  destruct (Nat.ltb 0 _) eqn:Hn.
  - intros [= <- <-]. exists rs. split; [done |]. split; [done |]. split.
    + intros Hnil. rewrite Hnil in Hn. done.
    + intros num. rewrite list_elem_of_In, List.filter_In, <- list_elem_of_In.
      rewrite negb_true_iff, bool_decide_eq_false, <- eq_None_not_Some. done.
  - destruct (queueMessage _ _ _ _ _ st) as [[result | e] st1]; done.
Qed.

End Responses.

Section ResponsesExamples.
Import Helpers Queue MessageController Examples.

Lemma sendMessage_answers_and_queues_witness :
  sendMessage exampleConfig (fun _ => true) textRequest init
  = (fst (sendMessage exampleConfig (fun _ => true) textRequest init),
     snd (sendMessage exampleConfig (fun _ => true) textRequest init))
  /\ exists result rs,
       fst (sendMessage exampleConfig (fun _ => true) textRequest init)
       = Status202 result
       /\ recipients textRequest = Some rs
       /\ jobCount result = length (recipientList rs).
Proof.
  assert (H : sendMessage exampleConfig (fun _ => true) textRequest init
              = (fst (sendMessage exampleConfig (fun _ => true) textRequest init),
                 snd (sendMessage exampleConfig (fun _ => true) textRequest init)))
    by (vm_compute; reflexivity).
  split; [exact H |].
  destruct (sendMessage_answers_and_queues exampleConfig (fun _ => true) _ _ _ _ H)
    as [_ H202].
  destruct (fst (sendMessage exampleConfig (fun _ => true) textRequest init))
    as [m l | result | e] eqn:Hr; [vm_compute in Hr; discriminate Hr | |
                                    vm_compute in Hr; discriminate Hr].
  destruct (H202 result eq_refl) as (rs & Hrs & Hn & _).
  by exists result, rs.
Defined.

Lemma sendMessage_reports_the_invalid_numbers_witness :
  sendMessage exampleConfig (fun _ => true) badRecipientRequest init
  = (Status400 "Invalid phone number(s) found" ["bad"], init)
  /\ exists rs,
       recipients badRecipientRequest = Some rs
       /\ ["bad"]
          = List.filter (fun num => negb (bool_decide (is_Some (validatePhoneNumber num))))
              (recipientList rs)
       /\ ["bad"] ≠ []
       /\ (forall num, num ∈ ["bad"] <->
                       num ∈ recipientList rs /\ validatePhoneNumber num = None).
Proof.
  assert (H : sendMessage exampleConfig (fun _ => true) badRecipientRequest init
              = (Status400 "Invalid phone number(s) found" ["bad"], init))
    by (vm_compute; reflexivity).
  split; [exact H |].
  exact (sendMessage_reports_the_invalid_numbers exampleConfig (fun _ => true) _ _ _ _ H).
Defined.

End ResponsesExamples.

(** ** The MIME type of a data URI *)

Section DataUris.
Import Helpers DataUri.

Lemma prefix_app (p r : string) : String.prefix p (p +:+ r) = true.
Proof.
  induction p as [| a p IH]; [by destruct r |].
  change (String a p +:+ r) with (String a (p +:+ r)). cbn.
  destruct (ascii_dec a a); [exact IH | done].
Qed.

Lemma prefix_inv (p s : string) :
  String.prefix p s = true -> exists r, s = p +:+ r.
Proof.
  revert s. induction p as [| a p IH]; intros s Hp; [by exists s |].
  destruct s as [| b s]; [done |]. simpl in Hp.
  destruct (ascii_dec a b) as [<- |]; [| done].
  apply IH in Hp as [r ->]. by exists r.
Qed.

Lemma dropChars_app (p r : string) : dropChars (String.length p) (p +:+ r) = r.
Proof. induction p as [| a p IH]; simpl; [by destruct r | exact IH]. Qed.

Lemma spanNot_app (p t : string) :
  allChars notSemicolon p = true ->
  spanNot ";" (p +:+ String ";" t) = (p, String ";" t).
Proof.
  induction p as [| a p IH]; simpl; [done |].
  intros [Ha Hp]%andb_true_iff. unfold notSemicolon in Ha.
  apply negb_true_iff in Ha. rewrite Ha. by rewrite (IH Hp).
Qed.

Lemma spanNot_inv (s p t : string) :
  spanNot ";" s = (p, t) ->
  s = p +:+ t /\ allChars notSemicolon p = true.
Proof.
  revert p t. induction s as [| a s IH]; intros p t; cbn.
  - by intros [= <- <-].
  - destruct (Ascii.eqb a ";") eqn:Ha; [by intros [= <- <-] |].
    destruct (spanNot ";" s) as [p' t']. intros [= <- <-].
    destruct (IH p' t' eq_refl) as [-> Hp]. split; [done |].
    cbn. unfold notSemicolon at 1. by rewrite Ha.
Qed.

(** X15. [getMimeTypeFromBase64] returns a MIME type exactly for the strings
    of the form [data:<type>;base64,<payload>] with a non-empty type that
    has no semicolon, and what it returns is that type: it reads back the
    type a data URI was built with, and answers null for everything else. *)
Theorem getMimeTypeFromBase64_reads_the_type (base64String mime : string) :
  getMimeTypeFromBase64 base64String = Some mime
  <-> (exists payload, base64String = "data:" +:+ mime +:+ ";base64," +:+ payload)
      /\ truthy mime = true
      /\ allChars notSemicolon mime = true.
Proof.
  unfold getMimeTypeFromBase64, Whatsapp.startsWith. split.
  - destruct (truthy base64String); cbn [negb]; [| done].
    destruct (String.prefix "data:" base64String) eqn:Hp; cbn [negb]; [| done].
    apply prefix_inv in Hp as [r ->].
    change (dropChars 5 ("data:" +:+ r)) with r.
    destruct (spanNot ";" r) as [p t] eqn:Hs.
    apply spanNot_inv in Hs as [-> Hall].
    destruct (truthy p) eqn:Ht; cbn [andb negb]; [| done].
    destruct (String.prefix ";base64," t) eqn:Hb; cbn [negb]; [| done].
    intros [= ->]. apply prefix_inv in Hb as [payload ->].
    split; [by exists payload | done].
  - intros ([payload ->] & Ht & Hall).
    change (truthy ("data:" +:+ mime +:+ ";base64," +:+ payload)) with true.
    cbn [negb]. rewrite (prefix_app "data:"). cbn [negb].
    change (dropChars 5 ("data:" +:+ mime +:+ ";base64," +:+ payload))
      with (mime +:+ String ";" ("base64," +:+ payload)).
    rewrite (spanNot_app _ _ Hall), Ht.
    change (String ";" ("base64," +:+ payload)) with (";base64," +:+ payload).
    by rewrite (prefix_app ";base64,").
Qed.

End DataUris.

(** ** The API token *)

Section ApiToken.
Import Helpers Auth.

Lemma apiToken_truthy (API_TOKEN : option string) : truthy (apiToken API_TOKEN) = true.
Proof.
  unfold apiToken, orElse. by destruct (truthy (default "" API_TOKEN)) eqn:Ht.
Qed.

(** X16. A request passes the token check exactly when its [x-api-token]
    header is the configured token, which is never empty; a missing or
    empty header is answered 401 and every other header 403. When
    [API_TOKEN] is not set or empty, the configured token is the built-in
    default, so that default is what lets a request through. *)
Theorem authenticateToken_passes_the_configured_token (API_TOKEN token : option string) :
  let configured := apiToken API_TOKEN in
  (authenticateToken configured token = CallNext <-> token = Some configured)
  /\ (authenticateToken configured token
      = Status401 "Access denied. API token is required"
      <-> token = None \/ token = Some "")
  /\ (authenticateToken configured token
      = Status403 "Access denied. Invalid API token"
      <-> exists t, token = Some t /\ t ≠ "" /\ t ≠ configured)
  /\ configured ≠ ""
  /\ (MessageController.optTruthy API_TOKEN = false ->
      configured = "default-api-token-please-change")
  /\ (MessageController.optTruthy API_TOKEN = true -> Some configured = API_TOKEN).
Proof.
  intros configured. pose proof (apiToken_truthy API_TOKEN) as Hc. fold configured in Hc.
  unfold authenticateToken. repeat split.
  - destruct token as [[| a t] |]; cbn; try done. case_bool_decide; [by intros _ | done].
  - intros ->. cbn. rewrite Hc. cbn. by rewrite bool_decide_eq_true_2.
  - destruct token as [[| a t] |]; cbn; eauto. by case_bool_decide.
  - intros [-> | ->]; done.
  - destruct token as [[| a t] |]; cbn; try done.
    case_bool_decide as Ht; [done |]. intros _. exists (String a t).
    repeat split; [done |]. intros E. apply Ht. by rewrite E.
  - intros (t & -> & Hne & Hc'). destruct t as [| a t]; [done |]. cbn.
    rewrite bool_decide_eq_false_2; [done |]. by intros [= E].
  - intros He. by rewrite He in Hc.
  - unfold configured, apiToken, orElse. by destruct API_TOKEN as [[|] |].
  - unfold configured, apiToken, orElse. by destruct API_TOKEN as [[|] |].
Qed.

End ApiToken.

(** ** The queue routes *)

Section QueueRouting.
Import Helpers Queue QueueRoutes.

(** X17. The two routes with a [:unitId] placeholder never reach the
    handlers' unit-specific branch, because the handlers read the parameter
    [unit_id]: [GET /queue/:unitId] answers exactly as [GET /queue] does,
    with the statistics of every queue and no change of state, and
    [DELETE /queue/:unitId] answers 400 and removes no job, whatever the
    unit id and the state. *)
Theorem unit_queue_routes_ignore_the_unit (config : Config.Config) (unitId : string)
    (beforeWaiting beforeDelayed : list Op) (beforeRemove : nat -> list Op)
    (st : State) :
  let handle r := handle config r beforeWaiting beforeDelayed beforeRemove st in
  handle (GetQueueOf unitId) = handle GetQueue
  /\ snd (handle (GetQueueOf unitId)) = st
  /\ (exists ss, fst (handle (GetQueueOf unitId)) = AllStats200 (length ss) ss
                 /\ length ss = size (queues st))
  /\ handle (DeleteQueueOf unitId) = (Status400 "unitId is required", st).
Proof.
  assert (Hp : ({[ "unitId" := unitId ]} : gmap string string) !! "unit_id" = None)
    by (by apply lookup_singleton_ne).
  cbn zeta. unfold handle, getQueueStats, clearQueue, paramsOf.
  rewrite Hp, lookup_empty. split; [done |].
  destruct (statsOf_registered (unitIds st) st) as (ss & Hss & Hids & _).
  { apply Forall_forall. intros u. by rewrite elem_of_unitIds. }
  unfold getAllQueuesStats. rewrite Hss. cbn. split; [done |]. split; [| done].
  exists ss. split; [done |].
  rewrite <- (length_fmap s_unitId), Hids, unitIds_Permutation, length_fmap.
  apply length_map_to_list.
Qed.

End QueueRouting.

(** ** Sessions *)

Section Sessions.
Import Helpers Session SessionExamples.

Lemma lookup_updateSession (unitId u : string) (f : SessionData -> SessionData)
    (ss : SessionState) :
  sessions (updateSession unitId f ss) !! u
  = if decide (unitId = u) then f <$> sessions ss !! u else sessions ss !! u.
Proof.
  unfold updateSession. cbn. rewrite lookup_alter. by repeat case_decide; subst.
Qed.

Lemma onEvent_frame (unitId : string) (ev : Event) (ss : SessionState) (u : string) :
  next_session (onEvent unitId ev ss) = next_session ss
  /\ (u ≠ unitId ->
      sessions (onEvent unitId ev ss) !! u = sessions ss !! u
      /\ qrCodes (onEvent unitId ev ss) !! u = qrCodes ss !! u)
  /\ (forall s, sessions ss !! u = Some s ->
        exists s', sessions (onEvent unitId ev ss) !! u = Some s' /\ sameSession s s')
  /\ (sessions ss !! u = None -> sessions (onEvent unitId ev ss) !! u = None).
Proof.
  unfold sameSession.
  destruct ev as [qr | [n |] | | |]; cbn [onEvent];
    (split; [done |]); rewrite ?lookup_updateSession;
    cbn [sessions qrCodes updateSession];
    (split; [by intros Hne; rewrite ?decide_False by done;
                rewrite ?lookup_insert_ne by done |]);
    (split; [intros s Hs; rewrite Hs; try case_decide; cbn; eexists;
               (split; [reflexivity | done])
            | intros Hs; rewrite Hs; by try case_decide]).
Qed.

Lemma onEvents_snoc (evs : list (string * Event)) (e : string * Event)
    (ss : SessionState) :
  onEvents (evs ++ [e]) ss = onEvent e.1 e.2 (onEvents evs ss).
Proof. unfold onEvents. by rewrite foldl_app. Qed.

Lemma onEvents_frame (evs : list (string * Event)) (ss : SessionState) (u : string) :
  next_session (onEvents evs ss) = next_session ss
  /\ (Forall (fun e => e.1 ≠ u) evs ->
      sessions (onEvents evs ss) !! u = sessions ss !! u
      /\ qrCodes (onEvents evs ss) !! u = qrCodes ss !! u)
  /\ (forall s, sessions ss !! u = Some s ->
        exists s', sessions (onEvents evs ss) !! u = Some s' /\ sameSession s s')
  /\ (sessions ss !! u = None -> sessions (onEvents evs ss) !! u = None).
Proof.
  induction evs as [| e evs IH] using rev_ind.
  - cbn. unfold sameSession. by eauto 10.
  - rewrite onEvents_snoc. destruct IH as (IHn & IHo & IHs & IHe).
    destruct (onEvent_frame e.1 e.2 (onEvents evs ss) u) as (Hn & Ho & Hs & He).
    split; [congruence |]. split; [| split].
    + intros [Hevs He1]%Forall_app. rewrite Forall_singleton in He1.
      destruct (IHo Hevs) as [E1 E2].
      destruct (Ho (fun E => He1 (eq_sym E))) as [E3 E4].
      split; congruence.
    + intros s Hsu. destruct (IHs s Hsu) as (s1 & Hs1 & H1 & H2 & H3).
      destruct (Hs s1 Hs1) as (s2 & Hs2 & H4 & H5 & H6).
      exists s2. unfold sameSession. split; [done |]. repeat split; congruence.
    + by eauto.
Qed.

Lemma onEvents_is_Some (evs : list (string * Event)) (ss : SessionState) (u : string) :
  is_Some (sessions (onEvents evs ss) !! u) <-> is_Some (sessions ss !! u).
Proof.
  destruct (onEvents_frame evs ss u) as (_ & _ & Hs & He).
  destruct (sessions ss !! u) as [s |] eqn:Hu.
  - destruct (Hs s eq_refl) as (s' & -> & _). by split; eauto.
  - rewrite He by done. done.
Qed.

(** X18. The events of the clients change nothing but the status, the
    number and the QR code of sessions: however many arrive, they create
    no session and remove none, every session keeps its id, its client and
    its creation time, no session id is drawn, and a unit id none of the
    events is for keeps its session and its QR code as they are. *)
Theorem onEvents_keep_the_sessions (evs : list (string * Event)) (ss : SessionState)
    (u : string) :
  next_session (onEvents evs ss) = next_session ss
  /\ (is_Some (sessions (onEvents evs ss) !! u) <-> is_Some (sessions ss !! u))
  /\ (forall s', sessions (onEvents evs ss) !! u = Some s' ->
        exists s, sessions ss !! u = Some s
          /\ s_id s' = s_id s /\ s_client s' = s_client s
          /\ s_createdAt s' = s_createdAt s)
  /\ (Forall (fun e => e.1 ≠ u) evs ->
      sessions (onEvents evs ss) !! u = sessions ss !! u
      /\ qrCodes (onEvents evs ss) !! u = qrCodes ss !! u).
Proof.
  destruct (onEvents_frame evs ss u) as (Hn & Ho & Hs & He).
  split; [done |]. split; [apply onEvents_is_Some |]. split; [| done].
  intros s' Hs'. destruct (sessions ss !! u) as [s |] eqn:Hu.
  - destruct (Hs s eq_refl) as (s1 & Hs1 & H1). exists s. split; [done |].
    by simplify_eq.
  - rewrite He in Hs' by done. done.
Qed.

(** X19. After an event of the client of a unit id, its session is ready
    exactly in these cases: the event is [ready] with the client's number
    readable and the session exists, or the event is [ready] without a
    readable number and the session was ready before. Every other event,
    also [authenticated] or a new QR code, leaves it not ready; the
    readiness of other unit ids does not change. *)
Theorem isSessionReady_after_event (unitId : string) (ev : Event) (ss : SessionState)
    (u : string) :
  isSessionReady unitId (onEvent unitId ev ss)
  = match ev with
    | EvReady (Some _) => bool_decide (is_Some (sessions ss !! unitId))
    | EvReady None => isSessionReady unitId ss
    | _ => false
    end
  /\ (u ≠ unitId -> isSessionReady u (onEvent unitId ev ss) = isSessionReady u ss).
Proof.
  unfold isSessionReady.
  destruct ev as [qr | [n |] | | |]; cbn [onEvent]; try (by split);
    rewrite !lookup_updateSession; cbn [sessions];
    rewrite decide_True by done;
    (split; [| by intros Hne; rewrite decide_False]);
    by destruct (sessions ss !! unitId) as [s |].
Qed.

(** X20. Deleting a session has three outcomes. For a unit id without a
    session it answers false and changes nothing. When the client is
    destroyed it answers true and the unit id is gone from both Maps: no
    details, no QR code, no client, not ready, whatever events arrived
    while the client was being destroyed; every other unit id is left as
    those events left it. When destroying the client throws, the error is
    passed on and the session stays, as the events left it. *)
Theorem deleteSession_outcomes (unitId : string) (whileDestroying : list (string * Event))
    (ss : SessionState) :
  let '(r, ss') := deleteSession unitId whileDestroying ss in
  match r with
  | Return false => sessions ss !! unitId = None /\ ss' = ss
  | Return true =>
      (exists s, sessions ss !! unitId = Some s /\ destroy (s_client s) = Return tt)
      /\ getSessionByUnitId unitId ss' = None
      /\ getSessionQR unitId ss' = None
      /\ getClientByUnitId unitId ss' = None
      /\ isSessionReady unitId ss' = false
      /\ (forall u, u ≠ unitId ->
            sessions ss' !! u = sessions (onEvents whileDestroying ss) !! u
            /\ qrCodes ss' !! u = qrCodes (onEvents whileDestroying ss) !! u)
  | Throw e =>
      ss' = onEvents whileDestroying ss
      /\ is_Some (sessions ss' !! unitId)
      /\ exists s, sessions ss !! unitId = Some s /\ destroy (s_client s) = Throw e
  end.
Proof.
  unfold deleteSession. destruct (sessions ss !! unitId) as [s |] eqn:Hs; [| done].
  destruct (destroy (s_client s)) as [[] | e] eqn:Hd.
  - unfold getSessionByUnitId, getSessionQR, getClientByUnitId, isSessionReady. cbn.
    rewrite !lookup_delete_eq. split; [by eauto |]. do 4 (split; [done |]).
    intros u Hne. by rewrite !lookup_delete_ne.
  - split; [done |]. split; [| by eauto]. apply onEvents_is_Some. by rewrite Hs.
Qed.

(** The state in which [createSession] stores the new session: the one it
    was called in, or the one left by deleting the inactive session. *)
Lemma createSession_cases (client : SessionClient) (now : Z) (unitId : string)
    (d i : list (string * Event)) (ss ss' : SessionState) (r : outcome SessionInfo) :
  createSession client now unitId d i ss = (r, ss') ->
  (exists s, sessions ss !! unitId = Some s /\ isActive (s_status s) = true
     /\ ss' = ss
     /\ r = Return {| i_id := s_id s; i_unit_id := unitId; i_status := s_status s |})
  \/ (exists s e, sessions ss !! unitId = Some s /\ isActive (s_status s) = false
        /\ destroy (s_client s) = Throw e /\ ss' = onEvents d ss /\ r = Throw e)
  \/ (exists base,
        (forall s, sessions ss !! unitId = Some s ->
           isActive (s_status s) = false /\ destroy (s_client s) = Return tt)
        /\ next_session base = next_session ss
        /\ (forall u, u ≠ unitId ->
              is_Some (sessions base !! u) <-> is_Some (sessions ss !! u))
        /\ let stored :=
             onEvents i
               {| sessions :=
                    <[unitId := {| s_id := next_session base; s_client := client;
                                   s_status := Initializing; s_createdAt := now;
                                   s_whatsappNumber := None; s_qrCode := None |}]>
                      (sessions base);
                  qrCodes := qrCodes base;
                  next_session := S (next_session base) |} in
           match initialize client with
           | Return _ =>
               ss' = stored
               /\ r = Return {| i_id := next_session base; i_unit_id := unitId;
                                i_status := Initializing |}
           | Throw e =>
               ss' = {| sessions := delete unitId (sessions stored);
                        qrCodes := qrCodes stored;
                        next_session := next_session stored |}
               /\ r = Throw e
           end).
Proof.
  unfold createSession, deleteSession.
  destruct (sessions ss !! unitId) as [s |] eqn:Hs.
  - destruct (isActive (s_status s)) eqn:Ha.
    + intros [= <- <-]. left. by exists s.
    + destruct (destroy (s_client s)) as [[] | e] eqn:Hd.
      * intros H. right; right.
        eexists {| sessions := delete unitId (sessions (onEvents d ss));
                   qrCodes := delete unitId (qrCodes (onEvents d ss));
                   next_session := next_session (onEvents d ss) |}.
        split; [by intros s0 [= <-] |].
        split; [cbn; apply (onEvents_frame d ss unitId) |].
        split; [intros u Hne; cbn; rewrite lookup_delete_ne by done;
                apply onEvents_is_Some |].
        cbn zeta. cbn [sessions qrCodes next_session].
        destruct (initialize client) as [[] | e]; by injection H as <- <-.
      * intros [= <- <-]. right; left. by exists s, e.
  - intros H. right; right. exists ss.
    split; [by intros s0 [=] |]. split; [done |]. split; [done |]. cbn zeta.
    destruct (initialize client) as [[] | e]; by injection H as <- <-.
Qed.

Lemma createSession_others (client : SessionClient) (now : Z) (unitId : string)
    (d i : list (string * Event)) (ss ss' : SessionState) (r : outcome SessionInfo)
    (u : string) :
  createSession client now unitId d i ss = (r, ss') -> u ≠ unitId ->
  is_Some (sessions ss' !! u) <-> is_Some (sessions ss !! u).
Proof.
  intros H Hne. apply createSession_cases in H
    as [(s & _ & _ & -> & _) | [(s & e & _ & _ & _ & -> & _)
        | (base & _ & _ & Hother & H)]]; [done | apply onEvents_is_Some |].
  cbn zeta in H. destruct (initialize client) as [[] | e]; destruct H as [-> _];
    cbn [sessions]; rewrite ?lookup_delete_ne by done; rewrite onEvents_is_Some;
    cbn [sessions]; rewrite lookup_insert_ne by done; by apply Hother.
Qed.

(** [createSession] is its stretches one after the other, with nothing
    but the events of the clients in between. *)
Lemma createSession_stretches (client : SessionClient) (now : Z) (unitId : string)
    (d i : list (string * Event)) (ss : SessionState) :
  createSession client now unitId d i ss
  = createSession_amid client now unitId (onEvents d) (onEvents i) ss.
Proof.
  unfold createSession, createSession_amid, createSession_begin,
    createSession_destroyed, createSession_initialized, createSession_store,
    deleteSession.
  destruct (sessions ss !! unitId) as [s |] eqn:Hs; cbn.
  - destruct (isActive (s_status s)); [done |].
    destruct (destroy (s_client s)) as [[] | e]; [| done]. cbn.
    by destruct (initialize client) as [[] | e].
  - by destruct (initialize client) as [[] | e].
Qed.




(** X22. When [createSession] rejects, no half-made session is left. Either
    initialising the new client threw: then the unit id has no session
    afterwards, whatever events arrived meanwhile and also when an inactive
    session was destroyed on the way, and asking for its details answers
    null. Or destroying the client of an inactive session threw: then that
    session is still there. Other unit ids neither gain nor lose a session
    in both cases. *)
Theorem createSession_rejects (client : SessionClient) (now : Z) (unitId : string)
    (whileDestroying whileInitializing : list (string * Event))
    (ss ss' : SessionState) (e : error) :
  createSession client now unitId whileDestroying whileInitializing ss
  = (Throw e, ss') ->
  ((initialize client = Throw e
    /\ sessions ss' !! unitId = None
    /\ getSessionByUnitId unitId ss' = None
    /\ isSessionReady unitId ss' = false)
   \/ (ss' = onEvents whileDestroying ss
       /\ exists s, sessions ss !! unitId = Some s
                    /\ isActive (s_status s) = false
                    /\ destroy (s_client s) = Throw e))
  /\ (forall u, u ≠ unitId ->
        is_Some (sessions ss' !! u) <-> is_Some (sessions ss !! u)).
Proof.
  intros H. pose proof (fun u => createSession_others _ _ _ _ _ _ _ _ u H) as Hothers.
  split; [| done]. clear Hothers. apply createSession_cases in H
    as [(s & _ & _ & _ & [=]) | [(s & e' & Hs & Ha & Hd & -> & [= ->])
        | (base & Hold & Hn & Hother & H)]].
  - right; split; [done |]; by exists s.
  - cbn zeta in H. destruct (initialize client) as [[] | e'] eqn:Hi; [by destruct H |].
    destruct H as [-> [= ->]].
    unfold getSessionByUnitId, isSessionReady. cbn [sessions].
    rewrite !lookup_delete_eq. by left.
Qed.

Lemma createSession_rejects_witness :
  createSession (exampleSessionClient false true) 1700000001 "u1" [] [] pairing
  = (Throw (Error "Failed to launch the browser process"),
     snd (createSession (exampleSessionClient false true) 1700000001 "u1" [] [] pairing))
  /\ getSessionByUnitId "u1"
       (snd (createSession (exampleSessionClient false true) 1700000001 "u1" [] []
               pairing))
     = None.
Proof.
  assert (H : createSession (exampleSessionClient false true) 1700000001 "u1" [] []
                pairing
              = (Throw (Error "Failed to launch the browser process"),
                 snd (createSession (exampleSessionClient false true) 1700000001 "u1"
                        [] [] pairing)))
    by (vm_compute; reflexivity).
  split; [exact H |].
  destruct (createSession_rejects _ _ _ _ _ _ _ _ H)
    as [[(_ & _ & Hd & _) | (_ & s & Hs & _ & Hx)] _].
  - exact Hd.
  - vm_compute in Hs. injection Hs as <-. discriminate Hx.
Defined.

(** X23. Over the session service, the send capability refuses a unit id
    whose session is missing or not ready before any outside call, and
    whenever the session is ready the client it looks up next exists: it
    is the client of that session, so the check for a missing client
    cannot fail once the readiness check has passed. *)
Theorem sendMessage_needs_a_ready_session (ss : SessionState) (w : Whatsapp.World)
    (unitId recipient : string) (pm : ProcessedMessage) :
  (isSessionReady unitId ss = false ->
   Whatsapp.sendMessage (worldOf ss w) unitId recipient pm
   = ([], Throw (Error ("WhatsApp session " +:+ unitId +:+ " is not ready"))))
  /\ (isSessionReady unitId ss = true ->
      exists s, sessions ss !! unitId = Some s
        /\ s_status s = Ready
        /\ Whatsapp.getClientByUnitId (worldOf ss w) unitId = Some (wa (s_client s))).
Proof.
  split.
  - intros Hr. unfold Whatsapp.sendMessage. cbn. by rewrite Hr.
  - unfold isSessionReady, worldOf, getClientByUnitId. cbn.
    destruct (sessions ss !! unitId) as [s |]; [| done].
    intros Hr%bool_decide_eq_true. by exists s.
Qed.

(** X24. The QR code endpoint follows the events of the session: once the
    client of an existing session has sent a non-empty QR code, the
    endpoint answers 200 with that code; once the client is ready it
    answers 400 for the state [ready], although the QR Map of the service
    still holds the old code; and for a unit id without session it answers
    404. *)
Theorem getSessionQR_follows_the_events (unitId qr number : string)
    (ss : SessionState) :
  is_Some (sessions ss !! unitId) -> truthy qr = true ->
  let scanned := onEvent unitId (EvQr qr) ss in
  let ready := onEvent unitId (EvReady (Some number)) scanned in
  SessionController.getSessionQR unitId scanned = SessionController.Qr200 unitId qr
  /\ SessionController.getSessionQR unitId ready = SessionController.Qr400 unitId Ready
  /\ getSessionQR unitId ready = Some qr
  /\ isSessionReady unitId ready = true
  /\ (forall u, sessions ss !! u = None ->
        SessionController.getSessionQR u ss = SessionController.Qr404NoSession u).
Proof.
  intros [s Hs] Hqr. cbn zeta.
  unfold SessionController.getSessionQR, getSessionByUnitId, getSessionQR, isSessionReady.
  cbn [onEvent]. rewrite !lookup_updateSession. cbn [sessions qrCodes updateSession].
  rewrite !decide_True by done. rewrite Hs, lookup_insert_eq. cbn. rewrite Hqr.
  do 4 (split; [done |]). intros u Hu. by rewrite Hu.
Qed.

Lemma getSessionQR_follows_the_events_witness :
  is_Some (sessions (steps [OpCreate (exampleSessionClient true true) 1700000000 "u1"
                              [] []] noSessions) !! "u1")
  /\ SessionController.getSessionQR "u1" pairing = SessionController.Qr200 "u1" "2@abc"
  /\ SessionController.getSessionQR "u1"
       (onEvent "u1" (EvReady (Some "15550001111")) pairing)
     = SessionController.Qr400 "u1" Ready.
Proof.
  assert (Hs : is_Some (sessions (steps [OpCreate (exampleSessionClient true true)
                                           1700000000 "u1" [] []] noSessions) !! "u1"))
    by (vm_compute; eauto).
  split; [exact Hs |].
  destruct (getSessionQR_follows_the_events "u1" "2@abc" "15550001111" _ Hs eq_refl)
    as (H1 & H2 & _).
  split; [exact H1 | exact H2].
Defined.

(** X25. A unit id cannot send until its session is ready. When
    [createSession] resolves with a status other than [ready] and no event
    for the unit id arrived while its new client was initialising, the
    session is not ready, and each send request for that unit id is
    answered 400 and queues nothing, however valid its recipients and its
    content are. *)
Theorem new_session_cannot_send_yet (client : SessionClient) (now : Z) (unitId : string)
    (whileDestroying whileInitializing : list (string * Event))
    (ss ss' : SessionState) (info : SessionInfo) (config : Config.Config)
    (req : MessageController.Request) (st : Queue.State) :
  createSession client now unitId whileDestroying whileInitializing ss
  = (Return info, ss') ->
  i_status info ≠ Ready ->
  Forall (fun e => e.1 ≠ unitId) whileInitializing ->
  MessageController.unit_id req = Some unitId ->
  isSessionReady unitId ss' = false
  /\ exists message invalidNumbers,
       MessageController.sendMessage config (fun u => isSessionReady u ss') req st
       = (MessageController.Status400 message invalidNumbers, st).
Proof.
  intros Hc Hst Hev Hu.
  assert (Hr : isSessionReady unitId ss' = false).
  { unfold isSessionReady.
    apply createSession_cases in Hc
      as [(s & Hs & Ha & -> & [= ->]) | [(s & e & _ & _ & _ & _ & [=])
          | (base & _ & _ & _ & H)]].
    - rewrite Hs. apply bool_decide_eq_false. exact Hst.
    - cbn zeta in H. destruct (initialize client) as [[] | e]; [| by destruct H].
      destruct H as [-> _].
      match goal with |- context [onEvents _ ?st] => set (st0 := st) end.
      destruct (onEvents_frame whileInitializing st0 unitId) as (_ & Ho & _).
      destruct (Ho Hev) as [-> _]. cbn. by rewrite lookup_insert_eq. }
  split; [exact Hr |]. unfold MessageController.sendMessage. rewrite Hu. cbn [default].
  destruct (negb (MessageController.optTruthy (Some unitId))); [by eauto |].
  destruct (MessageController.noRecipients _); [by eauto |].
  destruct (_ || _); [by eauto |]. cbv beta. unfold id. rewrite Hr. cbn [negb]. by eauto.
Qed.

Lemma new_session_cannot_send_yet_witness :
  exists message invalidNumbers,
    MessageController.sendMessage Examples.exampleConfig
      (fun u => isSessionReady u
                  (snd (createSession (exampleSessionClient true true) 1700000000 "u1"
                          [] [("u2", EvReady (Some "15550002222"))] noSessions)))
      Examples.textRequest Queue.init
    = (MessageController.Status400 message invalidNumbers, Queue.init).
Proof.
  assert (H : createSession (exampleSessionClient true true) 1700000000 "u1" []
                [("u2", EvReady (Some "15550002222"))] noSessions
              = (Return {| i_id := 0; i_unit_id := "u1"; i_status := Initializing |},
                 snd (createSession (exampleSessionClient true true) 1700000000 "u1" []
                        [("u2", EvReady (Some "15550002222"))] noSessions)))
    by (vm_compute; reflexivity).
  assert (Hev : Forall (fun e : string * Event => e.1 ≠ "u1")
                  [("u2", EvReady (Some "15550002222"))])
    by (apply Forall_singleton; discriminate).
  exact (proj2 (new_session_cannot_send_yet _ _ _ _ _ _ _ _ Examples.exampleConfig
                  Examples.textRequest Queue.init H ltac:(discriminate) Hev eq_refl)).
Defined.

(** X26. The status [createSession] returns for a new session can lag
    behind the session: it is always [initializing], also when the client
    became ready with a readable number while it was initialising. The
    session is then stored as ready with that number, and the QR code
    endpoint answers 400 for the state [ready]. *)
Theorem createSession_status_can_lag (client : SessionClient) (now : Z)
    (unitId number : string) (whileDestroying earlier : list (string * Event))
    (ss ss' : SessionState) (info : SessionInfo) :
  (forall s, sessions ss !! unitId = Some s -> isActive (s_status s) = false) ->
  createSession client now unitId whileDestroying
    (earlier ++ [(unitId, EvReady (Some number))]) ss
  = (Return info, ss') ->
  i_status info = Initializing
  /\ isSessionReady unitId ss' = true
  /\ (exists d, getSessionByUnitId unitId ss' = Some d
                /\ d_id d = i_id info /\ d_status d = Ready
                /\ d_whatsappNumber d = Some number)
  /\ SessionController.getSessionQR unitId ss' = SessionController.Qr400 unitId Ready.
Proof.
  intros Hin Hc. apply createSession_cases in Hc
    as [(s & Hs & Ha & _) | [(s & e & _ & _ & _ & _ & [=])
        | (base & _ & _ & _ & H)]].
  - apply Hin in Hs. congruence.
  - cbn zeta in H. destruct (initialize client) as [[] | e]; [| by destruct H].
    destruct H as [-> [= ->]]. cbn [i_status i_id]. split; [done |].
    rewrite onEvents_snoc. cbn [fst snd].
    match goal with |- context [onEvents _ ?st] => set (st0 := st) end.
    destruct (onEvents_frame earlier st0 unitId) as (_ & _ & Hkeep & _).
    destruct (Hkeep _ (lookup_insert_eq _ _ _)) as (s' & Hs' & Hid & _).
    cbn in Hid.
    unfold SessionController.getSessionQR, getSessionByUnitId, isSessionReady.
    cbn [onEvent]. rewrite lookup_updateSession, decide_True by done. rewrite Hs'. cbn.
    split; [done |]. split; [| done]. by eexists.
Qed.

Lemma createSession_status_can_lag_witness :
  exists ss',
    createSession (exampleSessionClient true true) 1700000000 "u1" []
      ([("u1", EvAuthenticated)] ++ [("u1", EvReady (Some "15550001111"))]) noSessions
    = (Return {| i_id := 0; i_unit_id := "u1"; i_status := Initializing |}, ss')
    /\ isSessionReady "u1" ss' = true.
Proof.
  eexists. 
  assert (H : createSession (exampleSessionClient true true) 1700000000 "u1" []
                ([("u1", EvAuthenticated)] ++ [("u1", EvReady (Some "15550001111"))])
                noSessions
              = (Return {| i_id := 0; i_unit_id := "u1"; i_status := Initializing |},
                 snd (createSession (exampleSessionClient true true) 1700000000 "u1" []
                        ([("u1", EvAuthenticated)]
                         ++ [("u1", EvReady (Some "15550001111"))]) noSessions)))
    by (vm_compute; reflexivity).
  split; [exact H |].
  refine (proj1 (proj2 (createSession_status_can_lag _ _ _ _ _ _ _ _ _ _ H))).
  intros s Hs. vm_compute in Hs. discriminate Hs.
Defined.

(** X27. Deleting through the controller: a unit id without session is
    answered 404 and nothing changes; when the answer is 200 the session is
    gone, so asking for it or for its QR code is answered 404 afterwards
    and a send over the session service is refused as not ready. *)
Theorem deleteSession_then_not_found (unitId : string)
    (whileDestroying : list (string * Event)) (ss : SessionState) :
  let '(response, ss') := SessionController.deleteSession unitId whileDestroying ss in
  (sessions ss !! unitId = None ->
   response = SessionController.Status404 unitId /\ ss' = ss)
  /\ (response = SessionController.Deleted200 unitId ->
      SessionController.getSessionByUnitId unitId ss' = SessionController.Status404 unitId
      /\ SessionController.getSessionQR unitId ss'
         = SessionController.Qr404NoSession unitId
      /\ fst (SessionController.deleteSession unitId [] ss')
         = SessionController.Status404 unitId
      /\ forall w recipient pm,
           Whatsapp.sendMessage (worldOf ss' w) unitId recipient pm
           = ([], Throw (Error ("WhatsApp session " +:+ unitId +:+ " is not ready")))).
Proof.
  unfold SessionController.deleteSession, SessionController.getSessionByUnitId,
    SessionController.getSessionQR, deleteSession, getSessionByUnitId.
  destruct (sessions ss !! unitId) as [s |] eqn:Hs.
  - destruct (destroy (s_client s)) as [[] | e]; cbn [negb]; [| by split].
    split; [done |]. intros _. cbn [sessions]. rewrite !lookup_delete_eq.
    do 3 (split; [done |]). intros w recipient pm.
    unfold Whatsapp.sendMessage, worldOf, isSessionReady. cbn.
    by rewrite lookup_delete_eq.
  - cbn [negb]. split; [done |]. intros [=].
Qed.

(** X28. The controller creates sessions for well-formed unit ids only. A
    missing or empty [unit_id], or one with a character other than a
    letter, a digit, a dash or an underscore, is answered 400 without
    touching the sessions and without drawing a session id; and whatever
    the request, a unit id that has a session afterwards but had none
    before is the [unit_id] of the request and is well-formed. *)
Theorem createSession_guards_the_unit_id (unit_id : option string)
    (client : SessionClient) (now : Z)
    (whileDestroying whileInitializing : list (string * Event)) (ss : SessionState) :
  let wellFormed u := truthy u && allChars SessionController.isUnitIdChar u in
  let '(response, ss') :=
    SessionController.createSession unit_id client now whileDestroying
      whileInitializing ss in
  (wellFormed (default "" unit_id) = false ->
   (exists message, response = SessionController.Status400 message) /\ ss' = ss)
  /\ (forall u, sessions ss !! u = None -> is_Some (sessions ss' !! u) ->
        unit_id = Some u /\ wellFormed u = true).
Proof.
  cbn zeta. unfold SessionController.createSession.
  destruct unit_id as [u0 |]; cbn [MessageController.optTruthy default negb]; unfold id;
    [| split; [by eauto | by intros u -> [? [=]]]].
  destruct (truthy u0) eqn:Ht; cbn [negb andb];
    [| split; [by eauto | by intros u -> [? [=]]]].
  destruct (allChars SessionController.isUnitIdChar u0) eqn:Hw; cbn [negb];
    [| split; [by eauto | by intros u -> [? [=]]]].
  destruct (createSession client now u0 whileDestroying whileInitializing ss)
    as [r ss'] eqn:Hc.
  assert (Hgoal : forall u, sessions ss !! u = None -> is_Some (sessions ss' !! u) ->
                    Some u0 = Some u
                    /\ truthy u && allChars SessionController.isUnitIdChar u = true).
  { intros u Hnone Hsome.
    destruct (decide (u = u0)) as [-> | Hne]; [by rewrite Ht, Hw |].
    apply (createSession_others _ _ _ _ _ _ _ _ u Hc) in Hsome; [| done].
    rewrite Hnone in Hsome. by destruct Hsome. }
  destruct r as [info | e]; [by split |].
  by destruct (SessionController.includes _ _); split.
Qed.

End Sessions.
